(** * data-toolkit: Hive-to-Excel exporter and workbook merger

    A shallow embedding of the Python sources

      - utils/string_utils.py                 (module [StringUtils])
      - utils/excel_utils.py                  (module [ExcelUtils])
      - connectors/hive_connection.py         (module [HiveConnection])
      - exporters/hive_to_excel_exporter.py   (module [Exporter])
      - utils/merge_excel.py                  (module [MergeExcel])

    Python [str] values are sequences of Unicode code points, Python [int]s
    are unbounded integers, [dict]s are finite maps and [set]s finite sets.
    Everything the code obtains from the outside (the Hive server, pandas,
    openpyxl, the file system) is an explicit argument of the model. *)

From Stdlib Require Import ZArith NArith Lia Ascii.
From stdpp Require Import gmap strings list pretty.

Open Scope Z_scope.

(** ** Python strings *)

Module PyStr.

(** A Python string is the list of its code points. *)
Abbreviation t := (list N).

(** ASCII literals of the sources, written as Rocq strings. *)
Definition lit (s : string) : t :=
  N_of_ascii <$> Stdlib.Strings.String.list_ascii_of_string s.

(** The f-string rendering of a non-negative Python [int]: its decimal
    numeral. *)
Definition of_nat (n : nat) : t := lit (pretty n).

(** [s.startswith(p)] *)
Fixpoint startswith (s p : t) : bool :=
  match p, s with
  | [], _ => true
  | c :: p', d :: s' => bool_decide (c = d) && startswith s' p'
  | _ :: _, [] => false
  end.

(** [s.endswith(p)] *)
Definition endswith (s p : t) : bool := startswith (reverse s) (reverse p).

(** [a or b] on strings: the empty string is falsy. *)
Definition or_else (a b : t) : t :=
  match a with [] => b | _ => a end.

Definition underscore : N := 95%N.
Definition dot : N := 46%N.

(** [os.path.splitext(name)[0]] for a bare file name (no directory part):
    the name is cut at its last dot, unless only dots precede that dot. *)
Fixpoint cut_last_dot (name : t) : option t :=
  match name with
  | [] => None
  | c :: rest =>
      match cut_last_dot rest with
      | Some root => Some (c :: root)
      | None => if bool_decide (c = dot) then Some [] else None
      end
  end.

Definition splitext_root (name : t) : t :=
  match cut_last_dot name with
  | Some root =>
      if forallb (fun c => bool_decide (c = dot)) root then name else root
  | None => name
  end.

End PyStr.

(** ** Exceptions and a state-and-exception monad for the effectful code *)

Module Py.

Inductive exn : Type :=
| ValueError
| TypeError
| AttributeError
| FileNotFoundError
| UnboundLocalError (name : string)
| LibraryError (code : nat)   (* an [Exception] raised by pyhive, pandas, openpyxl or os *)
| KeyboardInterrupt.          (* a [BaseException] that is not an [Exception] *)

(** What [except Exception] catches. *)
Definition is_Exception (e : exn) : bool :=
  match e with
  | KeyboardInterrupt => false
  | _ => true
  end.

Inductive result (A : Type) : Type :=
| Return (a : A)
| Raise (e : exn).

Arguments Return {A} a.
Arguments Raise {A} e.

Definition M (S A : Type) : Type := S -> result A * S.

Definition ret {S A} (a : A) : M S A := fun s => (Return a, s).

Definition raise {S A} (e : exn) : M S A := fun s => (Raise e, s).

Definition bind {S A B} (m : M S A) (k : A -> M S B) : M S B :=
  fun s =>
    match m s with
    | (Return a, s') => k a s'
    | (Raise e, s') => (Raise e, s')
    end.

Definition lift {S A} (r : result A) : M S A := fun s => (r, s).

(** A call made for its effect only, which may raise. *)
Definition lift_unit {S} (r : option exn) : M S unit :=
  fun s => match r with None => (Return tt, s) | Some e => (Raise e, s) end.

Definition modify {S} (f : S -> S) : M S unit := fun s => (Return tt, f s).

Definition gets {S A} (f : S -> A) : M S A := fun s => (Return (f s), s).

(** [try: body / except Exception as e: handler e] *)
Definition try_except {S A} (body : M S A) (handler : exn -> M S A) : M S A :=
  fun s =>
    match body s with
    | (Return a, s') => (Return a, s')
    | (Raise e, s') => if is_Exception e then handler e s' else (Raise e, s')
    end.

(** [try: body / finally: cleanup]: the cleanup always runs, and an exception
    it raises replaces whatever the body left pending. *)
Definition try_finally {S A} (body : M S A) (cleanup : M S unit) : M S A :=
  fun s =>
    let '(r, s1) := body s in
    match cleanup s1 with
    | (Return _, s2) => (r, s2)
    | (Raise e, s2) => (Raise e, s2)
    end.

(** [for x in xs: body x] *)
Fixpoint for_each {S A} (xs : list A) (body : A -> M S unit) : M S unit :=
  match xs with
  | [] => ret tt
  | x :: xs' => bind (body x) (fun _ => for_each xs' body)
  end.

End Py.

Declare Scope py_scope.
Delimit Scope py_scope with py.
Notation "'let*' x := m 'in' k" := (Py.bind m (fun x => k))
  (at level 10, x name, m at level 100, k at level 200, only parsing) : py_scope.
Notation "m ';;;' k" := (Py.bind m (fun _ => k))
  (at level 100, k at level 200, right associativity, only parsing) : py_scope.
Open Scope py_scope.

(** ** utils/string_utils.py *)

Module StringUtils.

(** The one-character regular expression match of the loop body: the code
    point lies in the range U+4E00 .. U+9FFF. *)
Definition is_cjk (c : N) : bool := ((0x4e00 <=? c) && (c <=? 0x9fff))%N.

(** One iteration of [for char in s]. *)
Definition width_step (width : Z) (c : N) : Z :=
  if is_cjk c then width + 2 else width + 1.

Definition calculate_display_width (s : PyStr.t) : Z :=
  match s with
  | [] => 0                         (* if not s: return 0 *)
  | _ => fold_left width_step s 0
  end.

(** The specification's wording: twice the number of CJK characters plus
    the number of all other characters. *)
Definition count_chars (p : N -> bool) (s : PyStr.t) : Z :=
  Z.of_nat (length (List.filter p s)).

Definition display_width_spec (s : PyStr.t) : Z :=
  2 * count_chars is_cjk s + count_chars (fun c => negb (is_cjk c)) s.

End StringUtils.

(** ** utils/excel_utils.py *)

Module ExcelUtils.
Import Py.

(** A DataFrame column: its label and its cells, every cell given by its
    [str()] rendering (the code only looks at [astype(str)]). Labels are
    strings, so that [str(label)] is the label. The columns of one frame
    have the same number of cells, the frame's number of rows; nothing keeps
    two of them from carrying the same label. *)
Record series := { label : PyStr.t; cells : list PyStr.t }.

Definition dataframe := list series.

(** One entry of [columns_info]: (name, type, comment). *)
Definition column_info : Type := PyStr.t * PyStr.t * PyStr.t.

(** [col[2] if col[2] else col[0]] *)
Definition comment_or_name (col : column_info) : PyStr.t :=
  let '(name, _, comment) := col in
  match comment with [] => name | _ => comment end.

(** The two dict comprehensions. *)
Definition column_comment_dict (df : dataframe) (columns_info : option (list column_info))
  : gmap PyStr.t PyStr.t :=
  match columns_info with
  | Some ((_ :: _) as info) =>
      fold_left (fun d col => <[comment_or_name col := comment_or_name col]> d) info ∅
  | _ =>
      fold_left (fun d col => <[label col := label col]> d) df ∅
  end.

(** [get_column_letter(idx)]: openpyxl names the columns 1 to 18278 by the
    letters A to ZZZ, one-to-one, and raises [ValueError] for any other
    index. The sheet's [column_dimensions] are keyed by the column index
    here, in place of the letters. *)
Definition get_column_letter (idx : nat) : result nat :=
  if decide (1 <= Z.of_nat idx <= 18278) then Return idx else Raise ValueError.

(** [df[column]]: the columns of the frame that carry the label. This is a
    Series when there is one such column, and a DataFrame when the label is
    repeated. *)
Definition getitem (df : dataframe) (column : PyStr.t) : list series :=
  List.filter (fun c => bool_decide (label c = column)) df.

(** [.empty]: the selection has no rows. *)
Definition empty (selection : list series) : bool :=
  forallb (fun c => match cells c with [] => true | _ => false end) selection.

(** [Series.max()] of a non-empty series of integers. *)
Definition series_max (x : Z) (xs : list Z) : Z := fold_left Z.max xs x.

(** The data term of a Series:
    [col.astype(str).map(calculate_display_width).max()], guarded by
    [if not col.empty]. *)
Definition data_max_length (col : series) : Z :=
  match StringUtils.calculate_display_width <$> cells col with
  | [] => 0
  | w :: ws => series_max w ws
  end.

(** The installed pandas: [DataFrame.map] exists from version 2.1 on. *)
Inductive pandas_version : Type :=
| Before_2_1
| From_2_1.

(** What the data term comes to when [df[column]] is a DataFrame with rows.
    Before pandas 2.1 a DataFrame has no [map], and looking it up raises
    [AttributeError]. From 2.1 on, [map] and [max] give a Series of column
    maxima, and the builtin [max(header_width, data_max_length)] asks for
    the truth value of a comparison with that Series, which raises
    [ValueError]. *)
Definition frame_error (pandas : pandas_version) : exn :=
  match pandas with
  | Before_2_1 => AttributeError
  | From_2_1 => ValueError
  end.

(** The four lines that compute [data_max_length], with the use the next
    line makes of it. The label of a column of [df] selects at least that
    column. *)
Definition column_data_max_length (pandas : pandas_version) (df : dataframe)
    (column : PyStr.t) : result Z :=
  match getitem df column with
  | [col] => Return (data_max_length col)
  | frame => if empty frame then Return 0 else Raise (frame_error pandas)
  end.

(** The body of the loop, for the column [col] at the 1-based position
    [idx]; the state is the sheet's [column_dimensions]. *)
Definition adjust_column (pandas : pandas_version) (d : gmap PyStr.t PyStr.t)
    (max_width : Z) (df : dataframe) (idx : nat) (col : series)
  : M (gmap nat Z) unit :=
  let* column_letter := lift (get_column_letter idx) in
  let column_comment := default (label col) (d !! label col) in
  let header_width := StringUtils.calculate_display_width column_comment in
  let* data_max_length := lift (column_data_max_length pandas df (label col)) in
  let max_display_width := Z.max header_width data_max_length + 2 in
  let adjusted_width := Z.min max_display_width max_width in
  modify (fun column_dimensions => <[column_letter := adjusted_width]> column_dimensions).

(** [for idx, column in enumerate(df.columns, idx)] over the columns that
    are left. *)
Fixpoint set_widths (pandas : pandas_version) (d : gmap PyStr.t PyStr.t)
    (max_width : Z) (df : dataframe) (idx : nat) (cols : list series)
  : M (gmap nat Z) unit :=
  match cols with
  | [] => ret tt
  | col :: rest =>
      adjust_column pandas d max_width df idx col ;;;
      set_widths pandas d max_width df (S idx) rest
  end.

(** The call leaves the sheet as far as it got, and returns or raises. *)
Definition adjust_column_widths (pandas : pandas_version) (worksheet : gmap nat Z)
    (df : dataframe) (columns_info : option (list column_info)) (max_width : Z)
  : result unit * gmap nat Z :=
  set_widths pandas (column_comment_dict df columns_info) max_width df 1 df worksheet.

End ExcelUtils.

(** ** File-name sanitising (the exporter and the merger carry one copy each) *)

Module Sanitize.

(** The nine characters of the character class of both [re.sub] calls:
    less-than, greater-than, colon, double quote, slash, backslash,
    vertical bar, question mark and asterisk. *)
Definition illegal_chars : list N :=
  [60; 62; 58; 34; 47; 92; 124; 63; 42]%N.

Definition is_illegal (c : N) : bool := bool_decide (c ∈ illegal_chars).

(** [re.sub(class, '', filename)] *)
Definition strip_illegal (filename : PyStr.t) : PyStr.t :=
  List.filter (fun c => negb (is_illegal c)) filename.

End Sanitize.

(** ** connectors/hive_connection.py *)

Module HiveConnection.
Import Py.

(** The JSON values the configuration can hold; an absent key reads as
    [JNull] (Python's [None]). *)
Inductive jval : Type :=
| JNull
| JBool (b : bool)
| JInt (z : Z)
| JStr (s : PyStr.t).

(** Python truthiness, as [all([...])] tests it. *)
Definition truthy (v : jval) : bool :=
  match v with
  | JNull => false
  | JBool b => b
  | JInt z => negb (z =? 0)
  | JStr s => match s with [] => false | _ => true end
  end.

(** A session handle returned by [hive.Connection]. *)
Definition conn := nat.

(** The outside world of one use of the context manager. *)
Record env := {
  (** [open('../secrets/secrets.json')] followed by [json.load]: the parsed
      document, or what either of them raises. The document is a JSON object
      of objects; [None] stands for the document [null]. *)
  read_secrets : result (option (gmap string (gmap string jval)));
  (** [hive.Connection(host, port, username, password, auth='CUSTOM')] *)
  hive_Connection : jval -> jval -> jval -> jval -> result conn;
  (** [connection.close()] *)
  connection_close : conn -> option exn
}.

Inductive event : Type :=
| PrintSecretsError (e : exn)
| PrintConnecting (host port : jval)
| PrintConnectError (e : exn)
| CallClose (c : conn)
| PrintClosed.

(** The generator's frame: its local [connection] ([None] while the name is
    not yet bound) and what it has printed and called so far. *)
Record frame := { connection : option conn; events : list event }.

Definition frame0 : frame := {| connection := None; events := [] |}.

Definition emit (e : event) : M frame unit :=
  modify (fun f => {| connection := connection f; events := events f ++ [e] |}).

Definition assign_connection (c : conn) : M frame unit :=
  modify (fun f => {| connection := Some c; events := events f |}).

(** Reading the local [connection]: an unbound local raises. A session
    object defines neither [__bool__] nor [__len__], so [if connection:]
    holds whenever the name is bound. *)
Definition read_connection : M frame conn :=
  fun f =>
    match connection f with
    | Some c => (Return c, f)
    | None => (Raise (UnboundLocalError "connection"), f)
    end.

(** [load_secrets()]: any [Exception] on the way is printed, and [None]
    returned in place of the document. *)
Definition load_secrets (E : env) : M frame (option (gmap string (gmap string jval))) :=
  try_except
    (let* secrets := lift (read_secrets E) in
     ret secrets)
    (fun e => emit (PrintSecretsError e) ;;; ret None).

(** [with get_hive_connection() as connection: body]. The caller's block
    runs at the [yield]; an exception it raises is thrown into the generator
    there, and what the generator raises is what the caller sees. *)
Definition get_hive_connection {A} (E : env) (body : conn -> result A) : M frame A :=
  let* secrets := load_secrets E in
  match secrets with
  | None => raise ValueError
  | Some secrets =>
      let hive_config := default ∅ (secrets !! "hive"%string) in
      if decide (hive_config = ∅) then raise ValueError else
      let host := default JNull (hive_config !! "host"%string) in
      let port := default (JInt 10000) (hive_config !! "port"%string) in
      let username := default JNull (hive_config !! "username"%string) in
      let password := default JNull (hive_config !! "password"%string) in
      if negb (truthy host && truthy username && truthy password)
      then raise ValueError
      else
        try_finally
          (try_except
             (emit (PrintConnecting host port) ;;;
              let* c := lift (hive_Connection E host port username password) in
              assign_connection c ;;;
              lift (body c))
             (fun e => emit (PrintConnectError e) ;;; raise e))
          (let* c := read_connection in
           emit (CallClose c) ;;;
           lift_unit (connection_close E c) ;;;
           emit PrintClosed)
  end.

(** Credential validation on its own: what the three guards decide. *)
Definition validated (E : env) : bool :=
  match read_secrets E with
  | Return (Some secrets) =>
      let hive_config := default ∅ (secrets !! "hive"%string) in
      if decide (hive_config = ∅) then false else
      truthy (default JNull (hive_config !! "host"%string))
      && truthy (default JNull (hive_config !! "username"%string))
      && truthy (default JNull (hive_config !! "password"%string))
  | _ => false
  end.

(** How often the session [c] was closed. *)
Definition close_count (c : conn) (evs : list event) : nat :=
  length (List.filter (fun e => match e with CallClose c' => bool_decide (c' = c) | _ => false end) evs).

End HiveConnection.

(** ** exporters/hive_to_excel_exporter.py *)

Module Exporter.
Import Py.

Definition xlsx : PyStr.t := PyStr.lit ".xlsx".

(** The placeholder base name, code points U+8F93 U+51FA. *)
Definition placeholder : PyStr.t := [0x8f93; 0x51fa]%N.

Definition sanitize_filename (filename : PyStr.t) : PyStr.t :=
  take 255 (Sanitize.strip_illegal filename).

(** What the block under [pd.ExcelWriter(file_path)] does for one table:
    it saves the workbook, or it raises, possibly leaving a file behind. *)
Inductive write_outcome : Type :=
| Saved
| WriteFails (e : exn) (leaves_file : bool).

(** One discovered table and what the server, the file system and the
    spreadsheet library answer at its turn. *)
Record table := {
  table_name : PyStr.t;
  (** [SHOW TBLPROPERTIES t('comment')]: the stripped first cell when it is
      non-empty, [None] for an empty answer, or the query raises. *)
  tblproperties : result (option PyStr.t);
  (** [get_table_description] *)
  describe : result (list ExcelUtils.column_info);
  (** [fetch_table_data] *)
  select_all : result ExcelUtils.dataframe;
  (** [os.makedirs(excel_output_dir)], should the directory be absent at
      this table's turn: it creates the directory, or it raises and leaves
      the directory absent. *)
  os_makedirs : option exn;
  excel_writer : write_outcome
}.

(** The exporter object together with the output directory and the two
    locals of [export] that the summary prints. *)
Record state := {
  (** [self.existing_filenames] *)
  existing_filenames : gmap PyStr.t nat;
  (** the files in [excel_output_dir]; [None] while the directory is absent *)
  output_dir : option (gset PyStr.t);
  (** workbooks saved by this run, oldest first *)
  written : list PyStr.t;
  exported_files : nat;
  failed_tables : list PyStr.t
}.

(** A fresh exporter ([__init__]) in front of a given output directory. *)
Definition init (dir : option (gset PyStr.t)) : state :=
  {| existing_filenames := ∅; output_dir := dir; written := [];
     exported_files := 0; failed_tables := [] |}.

Definition set_existing_filenames (m : gmap PyStr.t nat) (s : state) : state :=
  {| existing_filenames := m; output_dir := output_dir s; written := written s;
     exported_files := exported_files s; failed_tables := failed_tables s |}.

Definition set_output_dir (d : option (gset PyStr.t)) (s : state) : state :=
  {| existing_filenames := existing_filenames s; output_dir := d; written := written s;
     exported_files := exported_files s; failed_tables := failed_tables s |}.

Definition add_written (f : PyStr.t) (s : state) : state :=
  {| existing_filenames := existing_filenames s; output_dir := output_dir s;
     written := written s ++ [f];
     exported_files := exported_files s; failed_tables := failed_tables s |}.

Definition incr_exported (s : state) : state :=
  {| existing_filenames := existing_filenames s; output_dir := output_dir s;
     written := written s;
     exported_files := S (exported_files s); failed_tables := failed_tables s |}.

Definition append_failed (t : PyStr.t) (s : state) : state :=
  {| existing_filenames := existing_filenames s; output_dir := output_dir s;
     written := written s;
     exported_files := exported_files s; failed_tables := failed_tables s ++ [t] |}.

Definition get_unique_filename (base_filename : PyStr.t) : M state PyStr.t :=
  fun s =>
    match existing_filenames s !! base_filename with
    | None =>
        (Return (base_filename ++ xlsx),
         set_existing_filenames (<[base_filename := 1%nat]> (existing_filenames s)) s)
    | Some n =>
        (Return (base_filename ++ PyStr.lit "_" ++ PyStr.of_nat (S n) ++ xlsx),
         set_existing_filenames (<[base_filename := S n]> (existing_filenames s)) s)
    end.

(** Successive calls of [get_unique_filename] on one exporter, one call per
    base name of the list; the names they return, in order. *)
Fixpoint allocate (bases : list PyStr.t) (s : state) : list PyStr.t :=
  match bases with
  | [] => []
  | base :: rest =>
      match get_unique_filename base s with
      | (Return name, s') => name :: allocate rest s'
      | (Raise _, _) => []
      end
  end.

(** The specification's wording: the first occurrence of a base name keeps
    it unchanged, the N-th one (N from 2 on) gets the suffix [_N]. *)
Definition numbered (base : PyStr.t) (n : nat) : PyStr.t :=
  match n with
  | 1%nat => base ++ xlsx
  | _ => base ++ PyStr.lit "_" ++ PyStr.of_nat n ++ xlsx
  end.

(** How often [base] occurs in a list of base names. *)
Definition occurrences (base : PyStr.t) (l : list PyStr.t) : nat :=
  length (List.filter (fun b => bool_decide (b = base)) l).

(** The registry after the calls for [past]: every base name is mapped to
    the number of calls made for it, and absent when there were none. *)
Definition counts (past : list PyStr.t) (s : state) : Prop :=
  forall b, existing_filenames s !! b
            = match occurrences b past with
              | O => None
              | n => Some n
              end.

(** [get_table_comment]: the lookup falls back to the table name when the
    answer is empty or the query raises an [Exception]. (Creating the cursor,
    which precedes the [try], is taken to succeed.) *)
Definition get_table_comment (t : table) : M state PyStr.t :=
  try_except
    (let* r := lift (tblproperties t) in
     match r with
     | Some table_comment => ret table_comment
     | None => ret (table_name t)
     end)
    (fun _ => ret (table_name t)).

(** [os.path.exists(os.path.join(excel_output_dir, name))] *)
Definition path_exists (name : PyStr.t) (s : state) : bool :=
  match output_dir s with
  | Some files => bool_decide (name ∈ files)
  | None => false
  end.

Definition save_file (name : PyStr.t) (s : state) : state :=
  set_output_dir (Some ({[name]} ∪ default ∅ (output_dir s))) s.

Definition write_to_excel (t : table) (table_comment : PyStr.t) : M state unit :=
  let* dir := gets output_dir in
  match dir with
  | None =>                         (* if not os.path.exists(dir): os.makedirs(dir) *)
      lift_unit (os_makedirs t) ;;;
      modify (set_output_dir (Some ∅))
  | Some _ => ret tt
  end ;;;
  let valid_filename := PyStr.or_else (sanitize_filename table_comment) placeholder in
  let* unique_filename := get_unique_filename valid_filename in
  let* present := gets (path_exists unique_filename) in
  if present then
    ret tt                          (* a warning is printed, nothing else *)
  else
    match excel_writer t with
    | Saved =>
        modify (fun s => add_written unique_filename (save_file unique_filename s))
    | WriteFails e leaves_file =>
        modify (fun s => if leaves_file then save_file unique_filename s else s) ;;;
        raise e                     (* except Exception: print; raise *)
    end.

(** The body of the [for idx, table in enumerate(tables, 1)] loop. *)
Definition export_table (t : table) : M state unit :=
  try_except
    (let* table_comment := get_table_comment t in
     let* columns := lift (describe t) in
     let* df := lift (select_all t) in
     write_to_excel t table_comment ;;;
     modify incr_exported)
    (fun _ => modify (append_failed (table_name t))).

(** The block under [with get_hive_connection() as connection]:
    [show_tables] is what [get_tables_by_prefix] returns or raises. *)
Definition export_block (show_tables : result (list table)) : M state unit :=
  try_except
    (let* tables := lift show_tables in
     match tables with
     | [] => raise ValueError
     | _ => for_each tables export_table
     end)
    (fun e => raise e).

(** [export]: the block above inside the connection manager. The summary
    the caller sees is the final state of the run. *)
Definition export (E : HiveConnection.env) (show_tables : result (list table))
    (s0 : state) : result state * HiveConnection.frame :=
  HiveConnection.get_hive_connection E
    (fun _ => match export_block show_tables s0 with
              | (Return _, s) => Return s
              | (Raise e, _) => Raise e
              end)
    HiveConnection.frame0.

(** A table was successfully queried when neither describing it nor
    fetching its rows raised. *)
Definition queried (t : table) : bool :=
  match describe t, select_all t with
  | Return _, Return _ => true
  | _, _ => false
  end.

End Exporter.

(** ** utils/merge_excel.py *)

Module MergeExcel.
Import Py.

Definition xlsx : PyStr.t := PyStr.lit ".xlsx".

(** The catch-all group key, code points U+65E0 U+524D U+7F00. *)
Definition no_prefix : PyStr.t := [0x65e0; 0x524d; 0x7f00]%N.

(** The fallback output name, code points U+5408 U+5E76 U+7ED3 U+679C. *)
Definition merged_result : PyStr.t := [0x5408; 0x5e76; 0x7ed3; 0x679c]%N.

Definition sanitize_filename (filename : PyStr.t) : PyStr.t :=
  take 255 (Sanitize.strip_illegal filename).

(** *** Validation of [source_sheet_indices] *)

(** The Python values a caller can pass for [source_sheet_indices]. *)
Inductive pyval : Type :=
| PNone
| PBool (b : bool)
| PInt (z : Z)
| PStr (s : PyStr.t)
| PList (l : list pyval).

(** [isinstance(v, int)], with the integer it stands for ([bool] is a
    subclass of [int]). *)
Definition as_int (v : pyval) : option Z :=
  match v with
  | PInt z => Some z
  | PBool b => Some (if b then 1 else 0)
  | _ => None
  end.

(** [for idx in source_sheet_indices: if not isinstance(idx, int) or idx < 1:
    raise ValueError] *)
Fixpoint check_indices (l : list pyval) : result (list Z) :=
  match l with
  | [] => Return []
  | idx :: rest =>
      match as_int idx with
      | None => Raise ValueError
      | Some z =>
          if z <? 1 then Raise ValueError
          else match check_indices rest with
               | Return zs => Return (z :: zs)
               | Raise e => Raise e
               end
      end
  end.

Definition validate_indices (source_sheet_indices : pyval) : result (list Z) :=
  match source_sheet_indices with
  | PNone => check_indices [PInt 1]
  | PList l => check_indices l
  | _ => Raise TypeError
  end.

(** What the two checks let through: [None], or a list, the empty one
    included, of integers that are all at least 1. *)
Definition index_ok (v : pyval) : bool :=
  match as_int v with
  | Some z => 1 <=? z
  | None => false
  end.

Definition accepted (source_sheet_indices : pyval) : bool :=
  match source_sheet_indices with
  | PNone => true
  | PList l => forallb index_ok l
  | _ => false
  end.

(** The specification's wording: a non-empty list of integers, each at
    least 1. *)
Definition nonempty_index_list (source_sheet_indices : pyval) : bool :=
  match source_sheet_indices with
  | PList ((_ :: _) as l) => forallb index_ok l
  | _ => false
  end.

(** *** Grouping *)

(** The greedy run of characters other than the underscore at the start
    of [file], and what follows it. *)
Fixpoint span_prefix (file : PyStr.t) : PyStr.t * PyStr.t :=
  match file with
  | [] => ([], [])
  | c :: rest =>
      if bool_decide (c = PyStr.underscore) then ([], file)
      else let '(run, tail) := span_prefix rest in (c :: run, tail)
  end.

(** [re.match] of the pattern: start of string, one or more characters
    other than the underscore, then an underscore. Returns [match.group(0)]. *)
Definition re_match_prefix (file : PyStr.t) : option PyStr.t :=
  match span_prefix file with
  | ((_ :: _) as run, u :: _) => Some (run ++ [u])
  | _ => None
  end.

Definition prefix_of (file : PyStr.t) : PyStr.t :=
  match re_match_prefix file with
  | Some prefix => prefix
  | None => no_prefix
  end.

(** [prefix_dict[prefix].append(file)] on a [defaultdict(list)]; the dict
    keeps its keys in insertion order. *)
Fixpoint dict_append (prefix file : PyStr.t) (d : list (PyStr.t * list PyStr.t))
  : list (PyStr.t * list PyStr.t) :=
  match d with
  | [] => [(prefix, [file])]
  | (k, fs) :: d' =>
      if decide (k = prefix) then (k, fs ++ [file]) :: d'
      else (k, fs) :: dict_append prefix file d'
  end.

Definition group_files_by_common_prefix (files : list PyStr.t)
  : list (PyStr.t * list PyStr.t) :=
  fold_left (fun d file => dict_append (prefix_of file) file d) files [].

(** The specification's wording of the key: the substring up to and
    including the first underscore, for a name that contains one. *)
Fixpoint upto_first_underscore (file : PyStr.t) : option PyStr.t :=
  match file with
  | [] => None
  | c :: rest =>
      if bool_decide (c = PyStr.underscore) then Some [c]
      else (fun p => c :: p) <$> upto_first_underscore rest
  end.

(** *** Unique names *)

(** The counting loops of [get_unique_sheet_name] and
    [generate_output_filename]: starting at [counter], step to the first
    count whose candidate name is not in use. [None] when [fuel] iterations
    do not suffice. *)
Fixpoint first_unused (fuel : nat) (candidate : nat -> PyStr.t)
    (used : gset PyStr.t) (counter : nat) : option nat :=
  match fuel with
  | O => None
  | S fuel' =>
      if decide (candidate counter ∈ used)
      then first_unused fuel' candidate used (S counter)
      else Some counter
  end.

Definition sheet_candidate (base_name : PyStr.t) (counter : nat) : PyStr.t :=
  base_name ++ PyStr.lit "_" ++ PyStr.of_nat counter.

Definition get_unique_sheet_name_fuel (fuel : nat) (base_name : PyStr.t)
    (existing_names : gset PyStr.t) : option PyStr.t :=
  if decide (base_name ∈ existing_names)
  then sheet_candidate base_name <$>
         first_unused fuel (sheet_candidate base_name) existing_names 1
  else Some base_name.

(** One more iteration than there are names in use always suffices (see
    [get_unique_sheet_name_returns]); the default is never taken. *)
Definition get_unique_sheet_name (base_name : PyStr.t)
    (existing_names : gset PyStr.t) : PyStr.t :=
  default base_name
    (get_unique_sheet_name_fuel (S (size existing_names)) base_name existing_names).

Definition output_candidate (base ext : PyStr.t) (counter : nat) : PyStr.t :=
  base ++ PyStr.lit "_" ++ PyStr.of_nat counter ++ ext.

Definition generate_output_filename_fuel (fuel : nat)
    (output_files : gset PyStr.t) (prefix : PyStr.t) : option PyStr.t :=
  let sanitized_prefix := PyStr.or_else (sanitize_filename prefix) merged_result in
  let output_file := sanitized_prefix ++ xlsx in
  let base := PyStr.splitext_root output_file in
  let ext := drop (length base) output_file in
  if decide (output_file ∈ output_files)
  then output_candidate base ext <$>
         first_unused fuel (output_candidate base ext) output_files 1
  else Some output_file.

(** File names are relative to [output_folder]. *)
Definition generate_output_filename (output_files : gset PyStr.t)
    (prefix : PyStr.t) : PyStr.t :=
  default prefix
    (generate_output_filename_fuel (S (size output_files)) output_files prefix).

(** *** The merge itself *)

(** A workbook as [pd.read_excel(path, sheet_name=None)] returns it: its
    sheets in order, by name. *)
Definition workbook := list (PyStr.t * ExcelUtils.dataframe).

(** The outside world of one call. File names are relative to
    [input_folder] and [output_folder]. *)
Record env := {
  input_folder_exists : bool;
  makedirs : option exn;
  listdir : result (list PyStr.t);
  read_excel : PyStr.t -> result workbook;
  open_writer : PyStr.t -> option exn;
  to_excel : PyStr.t -> PyStr.t -> option exn;
  close_writer : PyStr.t -> option exn;
  remove : PyStr.t -> option exn
}.

Record args := {
  file_prefix : option PyStr.t;
  sheet_prefix : PyStr.t;
  delete_source : bool;
  source_sheet_indices : pyval
}.

(** What the call does to the file system, in order, together with the
    sheet names it issues. *)
Inductive effect : Type :=
| Makedirs
| Listdir
| ReadExcel (file : PyStr.t)
| OpenWriter (output_file : PyStr.t)
| SheetNamed (output_file sheet_name : PyStr.t)
| ToExcel (output_file sheet_name : PyStr.t)
| CloseWriter (output_file : PyStr.t)
| Remove (file : PyStr.t).

Record state := {
  (** the files in [output_folder] *)
  output_files : gset PyStr.t;
  (** the local [existing_sheet_names] *)
  existing_sheet_names : gset PyStr.t;
  effects : list effect
}.

Definition emit (e : effect) : M state unit :=
  modify (fun s => {| output_files := output_files s;
                      existing_sheet_names := existing_sheet_names s;
                      effects := effects s ++ [e] |}).

Definition set_existing_sheet_names (names : gset PyStr.t) : M state unit :=
  modify (fun s => {| output_files := output_files s;
                      existing_sheet_names := names;
                      effects := effects s |}).

Definition add_output_file (f : PyStr.t) : M state unit :=
  modify (fun s => {| output_files := {[f]} ∪ output_files s;
                      existing_sheet_names := existing_sheet_names s;
                      effects := effects s |}).

(** The body of [for sheet_idx in source_sheet_indices]. *)
Definition merge_sheet (E : env) (a : args) (output_file excel_file : PyStr.t)
    (excel_data : workbook) (sheet_idx : Z) : M state unit :=
  let num_sheets := Z.of_nat (length excel_data) in
  if num_sheets <? sheet_idx then ret tt          (* warning; continue *)
  else
    match excel_data !! Z.to_nat (sheet_idx - 1) with
    | None => ret tt       (* not reached: 1 <= sheet_idx <= num_sheets *)
    | Some (selected_sheet_name, df) =>
        let stem := PyStr.splitext_root excel_file in
        let base_sheet_name :=
          if num_sheets =? 1 then sheet_prefix a ++ stem
          else sheet_prefix a ++ stem ++ PyStr.lit "_" ++ selected_sheet_name in
        let* existing := gets existing_sheet_names in
        let unique_sheet_name := get_unique_sheet_name base_sheet_name existing in
        set_existing_sheet_names ({[unique_sheet_name]} ∪ existing) ;;;
        emit (SheetNamed output_file unique_sheet_name) ;;;
        try_except
          (emit (ToExcel output_file unique_sheet_name) ;;;
           lift_unit (to_excel E output_file unique_sheet_name))
          (fun _ => ret tt)
    end.

(** The body of [for file_index, excel_file in enumerate(files, 1)]. *)
Definition merge_file (E : env) (a : args) (indices : list Z)
    (output_file excel_file : PyStr.t) : M state unit :=
  let* loaded :=
    try_except
      (emit (ReadExcel excel_file) ;;;
       let* excel_data := lift (read_excel E excel_file) in
       ret (Some excel_data))
      (fun _ => ret None) in
  match loaded with
  | None => ret tt                                 (* continue *)
  | Some excel_data =>
      for_each indices (merge_sheet E a output_file excel_file excel_data) ;;;
      if delete_source a then
        try_except
          (emit (Remove excel_file) ;;; lift_unit (remove E excel_file))
          (fun _ => ret tt)
      else ret tt
  end.

(** The body of [for group_prefix, files in groups.items()]. *)
Definition merge_group (E : env) (a : args) (indices : list Z)
    (group : PyStr.t * list PyStr.t) : M state unit :=
  let '(group_prefix, files) := group in
  let* present := gets output_files in
  let output_file := generate_output_filename present group_prefix in
  emit (OpenWriter output_file) ;;;
  lift_unit (open_writer E output_file) ;;;
  try_finally
    (set_existing_sheet_names ∅ ;;;
     for_each files (merge_file E a indices output_file))
    (emit (CloseWriter output_file) ;;;
     lift_unit (close_writer E output_file) ;;;
     add_output_file output_file).

(** [if file_prefix:] *)
Definition fixed_prefix (a : args) : option PyStr.t :=
  match file_prefix a with
  | Some ((_ :: _) as p) => Some p
  | _ => None
  end.

Definition merge_excel_sheets (E : env) (a : args) : M state unit :=
  let* indices := lift (validate_indices (source_sheet_indices a)) in
  if negb (input_folder_exists E) then raise FileNotFoundError else
  emit Makedirs ;;;
  lift_unit (makedirs E) ;;;
  emit Listdir ;;;
  let* listing := lift (listdir E) in
  let excel_files := List.filter (fun f => PyStr.endswith f xlsx) listing in
  match excel_files with
  | [] => ret tt
  | _ =>
      match fixed_prefix a with
      | Some p =>
          match List.filter (fun f => PyStr.startswith f p) excel_files with
          | [] => ret tt
          | selected_files =>
              for_each [(p, selected_files)] (merge_group E a indices)
          end
      | None =>
          let groups := group_files_by_common_prefix excel_files in
          let groups :=
            match groups with
            | [] => [(merged_result, excel_files)]
            | _ => groups
            end in
          for_each groups (merge_group E a indices)
      end
  end.

(** The sheet names issued for [output_file] by a run of effects. *)
Definition issued (output_file : PyStr.t) (evs : list effect) : list PyStr.t :=
  omap (fun e => match e with
                 | SheetNamed o n => if decide (o = output_file) then Some n else None
                 | _ => None
                 end) evs.

(** Every sheet name issued by a run of effects, whatever the workbook. *)
Definition sheet_names_of (evs : list effect) : list PyStr.t :=
  omap (fun e => match e with SheetNamed _ n => Some n | _ => None end) evs.

(** The state after more effects, with the registry [names]; the output
    folder is as it was. *)
Definition advance (s : state) (names : gset PyStr.t) (evs : list effect) : state :=
  {| output_files := output_files s;
     existing_sheet_names := names;
     effects := effects s ++ evs |}.

(** *** The naming rule for sheets *)


(** The base sheet name one requested index of one source workbook asks
    for: none when the workbook has fewer sheets than the index; otherwise
    the sheet prefix and the stem of the file name, followed, unless the
    workbook has exactly one sheet, by an underscore and the name of the
    sheet at that index. *)
Definition requested_base (a : args) (excel_file : PyStr.t) (excel_data : workbook)
    (sheet_idx : Z) : option PyStr.t :=
  if Z.of_nat (length excel_data) <? sheet_idx then None
  else
    (fun sheet : PyStr.t * ExcelUtils.dataframe =>
       sheet_prefix a ++ PyStr.splitext_root excel_file
       ++ (if decide (length excel_data = 1%nat) then [] else PyStr.lit "_" ++ fst sheet))
    <$> excel_data !! Z.to_nat (sheet_idx - 1).

(** The base names one source file asks for, index by index; a file that
    cannot be read asks for none. *)
Definition file_bases (E : env) (a : args) (indices : list Z) (excel_file : PyStr.t)
  : list PyStr.t :=
  match read_excel E excel_file with
  | Return excel_data => omap (requested_base a excel_file excel_data) indices
  | Raise _ => []
  end.

(** The base names the files of one group ask for, file by file. *)
Definition workbook_bases (E : env) (a : args) (indices : list Z) (files : list PyStr.t)
  : list PyStr.t :=
  concat (file_bases E a indices <$> files).

(** The groups a listing of the input folder comes to: with a fixed prefix
    the one group of the workbooks that start with it, if there are any, and
    otherwise the groups by common prefix. *)
Definition merge_groups (a : args) (listing : list PyStr.t)
  : list (PyStr.t * list PyStr.t) :=
  let excel_files := List.filter (fun f => PyStr.endswith f xlsx) listing in
  match fixed_prefix a with
  | Some p =>
      match List.filter (fun f => PyStr.startswith f p) excel_files with
      | [] => []
      | selected_files => [(p, selected_files)]
      end
  | None => group_files_by_common_prefix excel_files
  end.

(** The sheet indices and the groups a call gets to work on: none unless
    the indices are valid, the input folder exists, and the output folder
    and the listing can be had. *)
Definition planned_indices (a : args) : list Z :=
  match validate_indices (source_sheet_indices a) with
  | Return indices => indices
  | Raise _ => []
  end.

Definition planned_groups (E : env) (a : args) : list (PyStr.t * list PyStr.t) :=
  match validate_indices (source_sheet_indices a), input_folder_exists E,
        makedirs E, listdir E with
  | Return _, true, None, Return listing => merge_groups a listing
  | _, _, _, _ => []
  end.



End MergeExcel.

(** ** Sample worlds, for the examples below *)

Module Samples.
Import Py.

(** An input folder that exists and holds no files; every call succeeds. *)
Definition empty_folder : MergeExcel.env :=
  {| MergeExcel.input_folder_exists := true;
     MergeExcel.makedirs := None;
     MergeExcel.listdir := Return [];
     MergeExcel.read_excel := fun _ => Return [];
     MergeExcel.open_writer := fun _ => None;
     MergeExcel.to_excel := fun _ _ => None;
     MergeExcel.close_writer := fun _ => None;
     MergeExcel.remove := fun _ => None |}.

(** No input folder at all. *)
Definition missing_folder : MergeExcel.env :=
  {| MergeExcel.input_folder_exists := false;
     MergeExcel.makedirs := None;
     MergeExcel.listdir := Raise FileNotFoundError;
     MergeExcel.read_excel := fun _ => Raise FileNotFoundError;
     MergeExcel.open_writer := fun _ => None;
     MergeExcel.to_excel := fun _ _ => None;
     MergeExcel.close_writer := fun _ => None;
     MergeExcel.remove := fun _ => None |}.

(** A table with a comment, which the server describes and returns. *)
Definition commented (name comment : string) : Exporter.table :=
  {| Exporter.table_name := PyStr.lit name;
     Exporter.tblproperties := Return (Some (PyStr.lit comment));
     Exporter.describe := Return [];
     Exporter.select_all := Return [];
     Exporter.os_makedirs := None;
     Exporter.excel_writer := Exporter.Saved |}.

(** Complete credentials. *)
Definition secrets_ok : gmap string (gmap string HiveConnection.jval) :=
  {[ "hive"%string :=
       <["host"%string := HiveConnection.JStr (PyStr.lit "h")]>
         (<["username"%string := HiveConnection.JStr (PyStr.lit "u")]>
            {[ "password"%string := HiveConnection.JStr (PyStr.lit "p") ]}) ]}.

(** The server refuses the session. *)
Definition server_down : HiveConnection.env :=
  {| HiveConnection.read_secrets := Return (Some secrets_ok);
     HiveConnection.hive_Connection := fun _ _ _ _ => Raise (LibraryError 1);
     HiveConnection.connection_close := fun _ => None |}.

(** The server hands out session 7. *)
Definition server_up : HiveConnection.env :=
  {| HiveConnection.read_secrets := Return (Some secrets_ok);
     HiveConnection.hive_Connection := fun _ _ _ _ => Return 7%nat;
     HiveConnection.connection_close := fun _ => None |}.

(** A table without comment that the server describes and returns. *)
Definition table_t : Exporter.table :=
  {| Exporter.table_name := PyStr.lit "t";
     Exporter.tblproperties := Return None;
     Exporter.describe := Return [];
     Exporter.select_all := Return [];
     Exporter.os_makedirs := None;
     Exporter.excel_writer := Exporter.Saved |}.

(** A fresh exporter in front of an output directory that already holds
    [t.xlsx], as an earlier run leaves it. *)
Definition second_run : Exporter.state := Exporter.init (Some {[ PyStr.lit "t.xlsx" ]}).

(** One single-sheet workbook [s_a.xlsx] in the input folder. *)
Definition one_file : MergeExcel.env :=
  {| MergeExcel.input_folder_exists := true;
     MergeExcel.makedirs := None;
     MergeExcel.listdir := Return [PyStr.lit "s_a.xlsx"];
     MergeExcel.read_excel := fun _ => Return [(PyStr.lit "Sheet1", [])];
     MergeExcel.open_writer := fun _ => None;
     MergeExcel.to_excel := fun _ _ => None;
     MergeExcel.close_writer := fun _ => None;
     MergeExcel.remove := fun _ => None |}.

(** Two workbooks of two sheets each, which fall into different groups. *)
Definition two_groups : MergeExcel.env :=
  {| MergeExcel.input_folder_exists := true;
     MergeExcel.makedirs := None;
     MergeExcel.listdir := Return [PyStr.lit "ab.xlsx"; PyStr.lit "ab_c.xlsx"];
     MergeExcel.read_excel := fun f =>
       if decide (f = PyStr.lit "ab.xlsx")
       then Return [(PyStr.lit "x", []); (PyStr.lit "c_d", [])]
       else Return [(PyStr.lit "y", []); (PyStr.lit "d", [])];
     MergeExcel.open_writer := fun _ => None;
     MergeExcel.to_excel := fun _ _ => None;
     MergeExcel.close_writer := fun _ => None;
     MergeExcel.remove := fun _ => None |}.

Definition merge_args (indices : MergeExcel.pyval) : MergeExcel.args :=
  {| MergeExcel.file_prefix := None;
     MergeExcel.sheet_prefix := [];
     MergeExcel.delete_source := false;
     MergeExcel.source_sheet_indices := indices |}.

Definition merge_start : MergeExcel.state :=
  {| MergeExcel.output_files := ∅;
     MergeExcel.existing_sheet_names := ∅;
     MergeExcel.effects := [] |}.

End Samples.

(** ** Python's [str.strip()] *)

Module Whitespace.

(** The code points [str.strip()] removes: those for which [str.isspace()]
    holds. *)
Definition is_space (c : N) : bool :=
  ((9 <=? c) && (c <=? 13)
   || (28 <=? c) && (c <=? 32)
   || (c =? 0x85) || (c =? 0xa0) || (c =? 0x1680)
   || (0x2000 <=? c) && (c <=? 0x200a)
   || (c =? 0x2028) || (c =? 0x2029) || (c =? 0x202f) || (c =? 0x205f)
   || (c =? 0x3000))%N.

Fixpoint lstrip (s : PyStr.t) : PyStr.t :=
  match s with
  | [] => []
  | c :: rest => if is_space c then lstrip rest else s
  end.

Definition rstrip (s : PyStr.t) : PyStr.t := reverse (lstrip (reverse s)).

Definition strip (s : PyStr.t) : PyStr.t := rstrip (lstrip s).

End Whitespace.

(** ** The exporter's queries and its entry point *)

Module ExporterQueries.
Import Py.

(** A row of a result set: its cells, [None] for SQL NULL. *)
Definition row := list (option PyStr.t).

(** [x.strip() if x else ''] on a cell that is present. *)
Definition text_of (cell : option PyStr.t) : PyStr.t :=
  match cell with
  | Some ((_ :: _) as s) => Whitespace.strip s
  | _ => []
  end.

(** One pass of the loop of [get_table_description]: [row[0]] and [row[1]]
    must exist ([None] stands for the [IndexError] they raise otherwise);
    the third cell is optional. *)
Definition describe_row (r : row) : option ExcelUtils.column_info :=
  match r with
  | c0 :: c1 :: rest =>
      Some (text_of c0, text_of c1,
            match rest with
            | c2 :: _ => text_of c2
            | [] => []
            end)
  | _ => None
  end.

(** What [get_table_description] comes to. *)
Inductive described : Type :=
| Columns (columns : list ExcelUtils.column_info)
| ExecuteRaises (e : exn)
| RowTooShort (index : nat).

(** The loop over [cursor.fetchall()], row [index] being the next one. *)
Fixpoint describe_rows (index : nat) (rows : list row)
    (columns : list ExcelUtils.column_info) : described :=
  match rows with
  | [] => Columns columns
  | r :: rest =>
      match describe_row r with
      | Some col => describe_rows (S index) rest (columns ++ [col])
      | None => RowTooShort index
      end
  end.

(** [get_table_description]: [answer] is what executing [DESCRIBE] and
    fetching all rows gives. *)
Definition get_table_description (answer : result (list row)) : described :=
  match answer with
  | Raise e => ExecuteRaises e
  | Return rows => describe_rows 0 rows []
  end.

(** [fetch_table_data] names the columns of the DataFrame after
    [col[2] if col[2] else col[0]]. *)
Definition column_names (columns : list ExcelUtils.column_info) : list PyStr.t :=
  ExcelUtils.comment_or_name <$> columns.

(** [test_exporter]: [export] under [try], every [Exception] printed and
    dropped. [None] stands for the run that ended in the handler. *)
Definition test_exporter (E : HiveConnection.env)
    (show_tables : result (list Exporter.table)) (s0 : Exporter.state)
  : result (option Exporter.state) * HiveConnection.frame :=
  match Exporter.export E show_tables s0 with
  | (Return s, f) => (Return (Some s), f)
  | (Raise e, f) => if is_Exception e then (Return None, f) else (Raise e, f)
  end.

End ExporterQueries.

(** ** Effects of the merger, as a property of computations *)

Module MergeTrace.
Import Py MergeExcel.

(** Every effect the computation adds satisfies [P], and it removes none. *)
Definition emits {A} (P : effect -> Prop) (m : M state A) : Prop :=
  forall s, exists evs, effects (snd (m s)) = effects s ++ evs /\ Forall P evs.

End MergeTrace.

Module MergeFiles.
Import Py MergeExcel.

(** The files a call selects from the listing of the input folder: those
    that end in [.xlsx] and, when a fixed prefix is given, start with it. *)
Definition selected (a : args) (f : PyStr.t) : bool :=
  PyStr.endswith f xlsx
  && match fixed_prefix a with
     | Some p => PyStr.startswith f p
     | None => true
     end.

(** What an effect on a source file must satisfy: it is read only if [ok],
    and removed only if [ok], deletion was asked for and reading it
    succeeded. *)
Definition source_effect_ok (E : env) (a : args) (ok : PyStr.t -> Prop)
    (e : effect) : Prop :=
  match e with
  | ReadExcel f => ok f
  | Remove f => ok f /\ delete_source a = true /\ exists d, read_excel E f = Return d
  | _ => True
  end.

(** Effects on sheets only. *)
Definition sheet_effect (e : effect) : Prop :=
  match e with
  | SheetNamed _ _ | ToExcel _ _ => True
  | _ => False
  end.

End MergeFiles.

(** ** More sample worlds *)

Module MoreSamples.
Import Py.

(** No secrets file. *)
Definition no_secrets : HiveConnection.env :=
  {| HiveConnection.read_secrets := Raise FileNotFoundError;
     HiveConnection.hive_Connection := fun _ _ _ _ => Return 7%nat;
     HiveConnection.connection_close := fun _ => None |}.

(** Credentials without a password. *)
Definition no_password : HiveConnection.env :=
  {| HiveConnection.read_secrets :=
       Return (Some {[ "hive"%string :=
                         <["host"%string := HiveConnection.JStr (PyStr.lit "h")]>
                           {[ "username"%string := HiveConnection.JStr (PyStr.lit "u") ]} ]});
     HiveConnection.hive_Connection := fun _ _ _ _ => Return 7%nat;
     HiveConnection.connection_close := fun _ => None |}.

(** The answer to [DESCRIBE] for a table of two columns. *)
Definition two_rows : list ExporterQueries.row :=
  [ [Some (PyStr.lit " id"); Some (PyStr.lit "int "); Some (PyStr.lit "key")];
    [Some (PyStr.lit "name"); Some (PyStr.lit "string")] ].

(** A table that cannot be described. *)
Definition undescribed : Exporter.table :=
  {| Exporter.table_name := PyStr.lit "t";
     Exporter.tblproperties := Return None;
     Exporter.describe := Raise (LibraryError 3);
     Exporter.select_all := Return [];
     Exporter.os_makedirs := None;
     Exporter.excel_writer := Exporter.Saved |}.

(** A table whose comment lookup raises. *)
Definition uncommented : Exporter.table :=
  {| Exporter.table_name := PyStr.lit "t";
     Exporter.tblproperties := Raise (LibraryError 4);
     Exporter.describe := Return [];
     Exporter.select_all := Return [];
     Exporter.os_makedirs := None;
     Exporter.excel_writer := Exporter.Saved |}.

(** A table at whose turn the output directory cannot be created. *)
Definition no_directory : Exporter.table :=
  {| Exporter.table_name := PyStr.lit "t";
     Exporter.tblproperties := Return None;
     Exporter.describe := Return [];
     Exporter.select_all := Return [];
     Exporter.os_makedirs := Some (LibraryError 7);
     Exporter.excel_writer := Exporter.Saved |}.


(** The workbook [s_a.xlsx] cannot be read, and sources are to be deleted. *)
Definition unreadable : MergeExcel.env :=
  {| MergeExcel.input_folder_exists := true;
     MergeExcel.makedirs := None;
     MergeExcel.listdir := Return [PyStr.lit "s_a.xlsx"; PyStr.lit "notes.txt"];
     MergeExcel.read_excel := fun _ => Raise (LibraryError 5);
     MergeExcel.open_writer := fun _ => None;
     MergeExcel.to_excel := fun _ _ => None;
     MergeExcel.close_writer := fun _ => None;
     MergeExcel.remove := fun _ => None |}.

(** A workbook of two sheets, none of which can be written. *)
Definition unwritable : MergeExcel.env :=
  {| MergeExcel.input_folder_exists := true;
     MergeExcel.makedirs := None;
     MergeExcel.listdir := Return [PyStr.lit "s_a.xlsx"];
     MergeExcel.read_excel := fun _ =>
       Return [(PyStr.lit "one", []); (PyStr.lit "two", [])];
     MergeExcel.open_writer := fun _ => None;
     MergeExcel.to_excel := fun _ _ => Some (LibraryError 6);
     MergeExcel.close_writer := fun _ => None;
     MergeExcel.remove := fun _ => None |}.

Definition deleting (prefix : option PyStr.t) (indices : MergeExcel.pyval)
  : MergeExcel.args :=
  {| MergeExcel.file_prefix := prefix;
     MergeExcel.sheet_prefix := [];
     MergeExcel.delete_source := true;
     MergeExcel.source_sheet_indices := indices |}.

End MoreSamples.

(** * Properties *)

(** ** Display width *)

Section DisplayWidth.
Import StringUtils.

Example width_ascii : calculate_display_width (PyStr.lit "abc") = 3.
Proof. reflexivity. Qed.

Example width_mixed : calculate_display_width [0x6570; 97; 0x636e]%N = 5.
Proof. reflexivity. Qed.

Lemma width_loop_spec (s : PyStr.t) (w : Z) :
  fold_left width_step s w = w + display_width_spec s.
Proof.
  revert w. induction s as [|c s IH]; intros w.
  - unfold display_width_spec, count_chars. simpl. lia.
  - simpl. rewrite IH. unfold width_step, display_width_spec, count_chars.
    simpl. destruct (is_cjk c); simpl length; lia.
Qed.

Lemma calculate_display_width_nonneg (s : PyStr.t) :
  0 <= calculate_display_width s.
Proof.
  destruct s as [|c s]; [done|]. unfold calculate_display_width.
  rewrite width_loop_spec. unfold display_width_spec, count_chars. lia.
Qed.

(** C8. For every string [s], [calculate_display_width s] is twice the
    number of characters of [s] in the range U+4E00 .. U+9FFF plus the number
    of its other characters, and the width of the empty string is 0. *)
Theorem calculate_display_width_counts (s : PyStr.t) :
  calculate_display_width s
    = 2 * count_chars (fun c => (0x4e00 <=? c)%N && (c <=? 0x9fff)%N) s
      + count_chars (fun c => negb ((0x4e00 <=? c)%N && (c <=? 0x9fff)%N)) s
  /\ calculate_display_width [] = 0.
Proof.
  split; [|reflexivity].
  destruct s as [|c s]; [reflexivity|].
  unfold calculate_display_width. rewrite width_loop_spec. reflexivity.
Qed.

End DisplayWidth.

(** ** Sanitising file names *)

Section SanitizeProps.
Import Sanitize.

Example sanitize_example :
  Exporter.sanitize_filename (PyStr.lit "a<b>c:d/e\f|g?h*i") = PyStr.lit "abcdefghi".
Proof. reflexivity. Qed.

Lemma strip_illegal_clean (s : PyStr.t) :
  Forall (fun c => c ∉ illegal_chars) (strip_illegal s).
Proof.
  apply Forall_forall. intros c Hc. apply list_elem_of_In in Hc.
  apply filter_In in Hc as [_ Hc]. unfold is_illegal in Hc.
  apply negb_true_iff, bool_decide_eq_false in Hc. exact Hc.
Qed.

Lemma strip_illegal_fixed (s : PyStr.t) :
  Forall (fun c => c ∉ illegal_chars) s -> strip_illegal s = s.
Proof.
  induction 1 as [|c s Hc _ IH]; [reflexivity|].
  unfold strip_illegal in *. simpl. unfold is_illegal at 1.
  rewrite bool_decide_eq_false_2 by exact Hc. simpl. by rewrite IH.
Qed.

Lemma truncate_clean (n : nat) (s : PyStr.t) :
  Forall (fun c => c ∉ illegal_chars) s ->
  Forall (fun c => c ∉ illegal_chars) (take n s).
Proof. apply Forall_take. Qed.

Lemma sanitize_twice (s : PyStr.t) :
  take 255 (strip_illegal (take 255 (strip_illegal s))) = take 255 (strip_illegal s).
Proof.
  rewrite (strip_illegal_fixed (take 255 _)).
  - apply take_take.
  - apply truncate_clean, strip_illegal_clean.
Qed.

(** C10. Both copies of [sanitize_filename] are idempotent; their output
    holds none of the nine illegal characters and is at most 255 characters
    long. *)
Theorem sanitize_filename_idempotent (s : PyStr.t) :
  Exporter.sanitize_filename (Exporter.sanitize_filename s) = Exporter.sanitize_filename s
  /\ MergeExcel.sanitize_filename (MergeExcel.sanitize_filename s) = MergeExcel.sanitize_filename s
  /\ Forall (fun c => c ∉ illegal_chars) (Exporter.sanitize_filename s)
  /\ Forall (fun c => c ∉ illegal_chars) (MergeExcel.sanitize_filename s)
  /\ (length (Exporter.sanitize_filename s) <= 255)%nat
  /\ (length (MergeExcel.sanitize_filename s) <= 255)%nat.
Proof.
  unfold Exporter.sanitize_filename, MergeExcel.sanitize_filename.
  repeat split; try apply sanitize_twice;
    try (apply truncate_clean, strip_illegal_clean);
    rewrite length_take; lia.
Qed.

End SanitizeProps.

(** ** Column widths *)

Section ColumnWidths.
Import Py StringUtils ExcelUtils.

Example widths_example :
  adjust_column_widths From_2_1 ∅
    [ {| label := PyStr.lit "id"; cells := [PyStr.lit "1"; PyStr.lit "12345"] |};
      {| label := PyStr.lit "name"; cells := [PyStr.lit "a"; PyStr.lit "b"] |} ] None 100
  = (Return tt, <[2%nat := 6]> (<[1%nat := 7]> ∅)).
Proof. vm_compute. reflexivity. Qed.

(** Two columns labelled [a] in a frame of one row: the first pass of the
    loop raises, and no width is set. Without rows the same frame is fine. *)
Example widths_repeated_label :
  adjust_column_widths From_2_1 ∅
    [ {| label := PyStr.lit "a"; cells := [PyStr.lit "1"] |};
      {| label := PyStr.lit "a"; cells := [PyStr.lit "2"] |} ] None 100
  = (Raise ValueError, ∅)
  /\ adjust_column_widths Before_2_1 ∅
       [ {| label := PyStr.lit "a"; cells := [PyStr.lit "1"] |};
         {| label := PyStr.lit "a"; cells := [PyStr.lit "2"] |} ] None 100
     = (Raise AttributeError, ∅)
  /\ adjust_column_widths From_2_1 ∅
       [ {| label := PyStr.lit "a"; cells := [] |};
         {| label := PyStr.lit "a"; cells := [] |} ] None 100
     = (Return tt, <[2%nat := 3]> (<[1%nat := 3]> ∅)).
Proof. vm_compute. auto. Qed.

(** Either dict comprehension maps every key to itself. *)
Lemma column_comment_dict_id df info k v :
  column_comment_dict df info !! k = Some v -> v = k.
Proof.
  assert (Hfold : forall (A : Type) (key : A -> PyStr.t) (l : list A)
            (d : gmap PyStr.t PyStr.t),
            (forall k v, d !! k = Some v -> v = k) ->
            forall k v,
              fold_left (fun d x => <[key x := key x]> d) l d !! k = Some v -> v = k).
  { intros A key l. induction l as [|x l IH]; intros d Hd k' v'; simpl; [apply Hd|].
    apply IH. intros k2 v2. rewrite lookup_insert.
    case_decide; [congruence | apply Hd]. }
  unfold column_comment_dict.
  destruct info as [[|c info]|]; apply Hfold; intros ? ?; by rewrite lookup_empty.
Qed.

Lemma column_comment_get df info column :
  default column (column_comment_dict df info !! column) = column.
Proof.
  destruct (column_comment_dict df info !! column) as [v|] eqn:Hv; [|reflexivity].
  apply column_comment_dict_id in Hv. by subst v.
Qed.

(** What one pass of the loop does: it raises and leaves the sheet alone,
    or it sets the width of its column; which of the two, and the width, do
    not depend on the sheet. *)
Lemma adjust_column_cases pandas d max_width df idx col :
  (exists e, forall ws, adjust_column pandas d max_width df idx col ws = (Raise e, ws))
  \/ (exists w, forall ws,
         adjust_column pandas d max_width df idx col ws = (Return tt, <[idx := w]> ws)).
Proof.
  unfold adjust_column, get_column_letter, bind, lift, modify.
  case_decide; [|left; eauto].
  destruct (column_data_max_length pandas df (label col)) as [m|e]; [right | left]; eauto.
Qed.

Lemma set_widths_before pandas d max_width df cols idx ws k :
  (k < idx)%nat -> snd (set_widths pandas d max_width df idx cols ws) !! k = ws !! k.
Proof.
  revert idx ws. induction cols as [|c cols IH]; intros idx ws Hk; [reflexivity|].
  cbn [set_widths]. unfold bind.
  destruct (adjust_column_cases pandas d max_width df idx c) as [[e ->] | [w ->]];
    [reflexivity|].
  rewrite IH by lia. apply lookup_insert_ne. lia.
Qed.

(** With distinct labels, [df[column]] is the column itself. *)
Lemma getitem_unique df col :
  NoDup (label <$> df) -> col ∈ df -> getitem df (label col) = [col].
Proof.
  unfold getitem. induction df as [|c df IH]; intros Hnd Hin; [by apply elem_of_nil in Hin|].
  cbn [fmap list_fmap] in Hnd. apply NoDup_cons in Hnd as [Hc Hnd].
  assert (Hnone : forall x, label x ∉ label <$> df ->
            List.filter (fun c => bool_decide (label c = label x)) df = []).
  { clear. intros x Hx. induction df as [|c df IH]; [reflexivity|]. cbn [List.filter].
    rewrite bool_decide_eq_false_2.
    - apply IH. intros H. apply Hx. cbn. by right.
    - intros Heq. apply Hx. cbn. rewrite <- Heq. left. }
  cbn [List.filter]. apply elem_of_cons in Hin as [->|Hin].
  - rewrite bool_decide_eq_true_2 by done. f_equal. by apply Hnone.
  - rewrite bool_decide_eq_false_2; [by apply IH|].
    intros Heq. apply Hc. rewrite Heq. apply list_elem_of_fmap. eauto.
Qed.

Lemma column_data_max_length_unique pandas df col :
  NoDup (label <$> df) -> col ∈ df ->
  column_data_max_length pandas df (label col) = Return (data_max_length col).
Proof.
  intros Hnd Hin. unfold column_data_max_length. by rewrite getitem_unique.
Qed.

(** The loop over columns that all have a data term and a letter. *)
Lemma set_widths_ok pandas df info max_width cols idx ws :
  Forall (fun col => column_data_max_length pandas df (label col)
                     = Return (data_max_length col)) cols ->
  (1 <= idx)%nat -> Z.of_nat (idx + length cols) <= 18279 ->
  fst (set_widths pandas (column_comment_dict df info) max_width df idx cols ws) = Return tt
  /\ forall i col, cols !! i = Some col ->
       snd (set_widths pandas (column_comment_dict df info) max_width df idx cols ws)
         !! (idx + i)%nat
       = Some (Z.min (Z.max (calculate_display_width (label col))
                            (data_max_length col) + 2) max_width).
Proof.
  revert idx ws. induction cols as [|c cols IH]; intros idx ws Hall Hidx Hlen.
  - split; [reflexivity | intros i col Hi; by rewrite lookup_nil in Hi].
  - apply Forall_cons in Hall as [Hc Hall]. cbn [length] in Hlen.
    cbn [set_widths]. unfold bind.
    assert (Hstep : adjust_column pandas (column_comment_dict df info) max_width df idx c ws
                    = (Return tt,
                       <[idx := Z.min (Z.max (calculate_display_width (label c))
                                             (data_max_length c) + 2) max_width]> ws)).
    { unfold adjust_column, get_column_letter, bind, lift, modify.
      rewrite decide_True by lia. rewrite Hc, column_comment_get. reflexivity. }
    rewrite Hstep. cbn beta iota.
    destruct (IH (S idx) (<[idx := Z.min (Z.max (calculate_display_width (label c))
                                               (data_max_length c) + 2) max_width]> ws)
                Hall ltac:(lia) ltac:(lia)) as [Hret Hat].
    split; [exact Hret|]. intros [|i] col Hi; cbn in Hi.
    + injection Hi as ->. rewrite Nat.add_0_r, set_widths_before by lia.
      apply lookup_insert_eq.
    + replace (idx + S i)%nat with (S idx + i)%nat by lia. by apply Hat.
Qed.

(** A frame of distinct labels and at most 18278 columns: the call returns,
    and every column has its width set. *)
Lemma adjust_column_widths_ok pandas ws df info max_width :
  NoDup (label <$> df) -> Z.of_nat (length df) <= 18278 ->
  fst (adjust_column_widths pandas ws df info max_width) = Return tt
  /\ forall i col, df !! i = Some col ->
       snd (adjust_column_widths pandas ws df info max_width) !! S i
       = Some (Z.min (Z.max (calculate_display_width (label col))
                            (data_max_length col) + 2) max_width).
Proof.
  intros Hnd Hlen. unfold adjust_column_widths.
  apply (set_widths_ok pandas df info max_width df 1 ws); [|lia|lia].
  apply Forall_forall. intros col Hcol. by apply column_data_max_length_unique.
Qed.

Lemma series_max_upper x xs : x <= series_max x xs /\ Forall (fun y => y <= series_max x xs) xs.
Proof.
  unfold series_max. revert x. induction xs as [|y xs IH]; intros x; simpl.
  - split; [lia | constructor].
  - destruct (IH (Z.max x y)) as [H1 H2]. split; [lia|].
    constructor; [lia | exact H2].
Qed.

Lemma series_max_attained x xs : series_max x xs ∈ x :: xs.
Proof.
  unfold series_max. revert x. induction xs as [|y xs IH]; intros x; simpl.
  - left.
  - specialize (IH (Z.max x y)). apply elem_of_cons in IH as [IH|IH].
    + rewrite IH. destruct (Z.max_spec x y) as [[_ ->]|[_ ->]];
        [right; left | left].
    + right. right. exact IH.
Qed.

(** The data term is the largest display width among the cells, and 0 for
    a column without cells. *)
Lemma data_max_length_spec col :
  (cells col = [] -> data_max_length col = 0)
  /\ (cells col <> [] ->
      Forall (fun c => calculate_display_width c <= data_max_length col) (cells col)
      /\ exists c, c ∈ cells col /\ calculate_display_width c = data_max_length col).
Proof.
  unfold data_max_length. destruct (cells col) as [|c cs]; simpl.
  - split; [done | congruence].
  - split; [congruence | intros _].
    destruct (series_max_upper (calculate_display_width c) (calculate_display_width <$> cs))
      as [H1 H2].
    split.
    + constructor; [exact H1|].
      rewrite Forall_forall in H2. apply Forall_forall. intros x Hx.
      apply H2, list_elem_of_fmap. eauto.
    + pose proof (series_max_attained (calculate_display_width c)
                    (calculate_display_width <$> cs)) as Hin.
      change (calculate_display_width c :: (calculate_display_width <$> cs))
        with (calculate_display_width <$> (c :: cs)) in Hin.
      apply list_elem_of_fmap in Hin as (c' & Heq & Hc'). eauto.
Qed.

(** C7, as the specification words its last bound: an empty-data column
    is at least [min(header width, 2)] wide. A cap below 2 breaks it. *)
Lemma adjust_column_widths_cap_below_header :
  cells {| label := PyStr.lit "ab"; cells := [] |} = []
  /\ adjust_column_widths From_2_1 ∅ [ {| label := PyStr.lit "ab"; cells := [] |} ] None 1
     = (Return tt, {[ 1%nat := 1 ]})
  /\ ~ (Z.min (calculate_display_width (PyStr.lit "ab")) 2 <= 1).
Proof.
  split; [reflexivity|].
  split; [vm_compute; reflexivity | vm_compute; intros H; apply H; reflexivity].
Qed.

(** C7, amended. For a dataset whose column labels are distinct and which
    has at most 18278 columns, the call returns and every column gets the
    width [min(max(header width, data term) + 2, max_width)], where the data
    term is the largest cell width, or 0 for a column without cells; the
    width never exceeds [max_width], and for a column without cells it is at
    least [min(header width, 2, max_width)]. *)
Theorem adjust_column_widths_formula
    (pandas : pandas_version) (worksheet : gmap nat Z) (df : dataframe)
    (columns_info : option (list column_info)) (max_width : Z)
    (i : nat) (col : series) :
  NoDup (label <$> df) ->
  Z.of_nat (length df) <= 18278 ->
  df !! i = Some col ->
  let header_width := calculate_display_width (label col) in
  let width := Z.min (Z.max header_width (data_max_length col) + 2) max_width in
  fst (adjust_column_widths pandas worksheet df columns_info max_width) = Return tt
  /\ snd (adjust_column_widths pandas worksheet df columns_info max_width) !! S i
     = Some width
  /\ (cells col = [] -> data_max_length col = 0)
  /\ (cells col <> [] ->
      Forall (fun c => calculate_display_width c <= data_max_length col) (cells col)
      /\ exists c, c ∈ cells col /\ calculate_display_width c = data_max_length col)
  /\ width <= max_width
  /\ (cells col = [] -> Z.min (Z.min header_width 2) max_width <= width).
Proof.
  intros Hnd Hlen Hi header_width width.
  destruct (data_max_length_spec col) as [Hempty Hmax].
  destruct (adjust_column_widths_ok pandas worksheet df columns_info max_width Hnd Hlen)
    as [Hret Hat].
  split; [exact Hret|]. split; [exact (Hat i col Hi)|].
  split; [exact Hempty|]. split; [exact Hmax|].
  split; [subst width; lia|].
  intros Hc. subst width. rewrite (Hempty Hc).
  pose proof (calculate_display_width_nonneg (label col)).
  subst header_width. lia.
Qed.

Lemma adjust_column_widths_formula_witness :
  NoDup (label <$> [ {| label := PyStr.lit "id"; cells := [PyStr.lit "12345"] |};
                     {| label := PyStr.lit "name"; cells := [PyStr.lit "a"] |} ])
  /\ Z.of_nat (length [ {| label := PyStr.lit "id"; cells := [PyStr.lit "12345"] |};
                        {| label := PyStr.lit "name"; cells := [PyStr.lit "a"] |} ]) <= 18278
  /\ [ {| label := PyStr.lit "id"; cells := [PyStr.lit "12345"] |};
       {| label := PyStr.lit "name"; cells := [PyStr.lit "a"] |} ] !! 1%nat
     = Some {| label := PyStr.lit "name"; cells := [PyStr.lit "a"] |}
  /\ snd (adjust_column_widths From_2_1 ∅
            [ {| label := PyStr.lit "id"; cells := [PyStr.lit "12345"] |};
              {| label := PyStr.lit "name"; cells := [PyStr.lit "a"] |} ] None 100)
       !! 2%nat = Some 6.
Proof.
  assert (Hnd : NoDup (label <$> [ {| label := PyStr.lit "id"; cells := [PyStr.lit "12345"] |};
                                   {| label := PyStr.lit "name"; cells := [PyStr.lit "a"] |} ])).
  { cbn [fmap list_fmap label]. apply NoDup_cons. split; [|apply NoDup_singleton].
    intros H%list_elem_of_singleton. vm_compute in H. discriminate H. }
  assert (Hlen : Z.of_nat (length [ {| label := PyStr.lit "id"; cells := [PyStr.lit "12345"] |};
                                    {| label := PyStr.lit "name"; cells := [PyStr.lit "a"] |} ])
                 <= 18278) by (cbn; lia).
  split; [exact Hnd|]. split; [exact Hlen|]. split; [reflexivity|].
  exact (proj1 (proj2 (adjust_column_widths_formula From_2_1 ∅
                         [ {| label := PyStr.lit "id"; cells := [PyStr.lit "12345"] |};
                           {| label := PyStr.lit "name"; cells := [PyStr.lit "a"] |} ]
                         None 100 1
                         {| label := PyStr.lit "name"; cells := [PyStr.lit "a"] |}
                         Hnd Hlen eq_refl))).
Defined.

End ColumnWidths.

(** ** The merger: argument validation and the input folder check *)

Section MergeValidation.
Import Py MergeExcel.

Example validate_default : validate_indices PNone = Return [1].
Proof. reflexivity. Qed.

Example validate_one_three : validate_indices (PList [PInt 1; PInt 3]) = Return [1; 3].
Proof. reflexivity. Qed.

Example validate_zero : validate_indices (PList [PInt 1; PInt 0]) = Raise ValueError.
Proof. reflexivity. Qed.

Example validate_string : validate_indices (PStr (PyStr.lit "1")) = Raise TypeError.
Proof. reflexivity. Qed.

Lemma check_indices_spec (l : list pyval) :
  if forallb index_ok l
  then exists zs, check_indices l = Return zs /\ Forall (fun z => 1 <= z) zs
  else check_indices l = Raise ValueError.
Proof.
  induction l as [|v l IH]; simpl.
  - exists []. split; [reflexivity | constructor].
  - unfold index_ok at 1. destruct (as_int v) as [z|]; simpl; [|reflexivity].
    destruct (Z.leb_spec 1 z) as [Hz|Hz]; simpl.
    + assert ((z <? 1) = false) as -> by lia.
      destruct (forallb index_ok l).
      * destruct IH as (zs & -> & Hzs). exists (z :: zs).
        split; [reflexivity | by constructor].
      * by rewrite IH.
    + by assert ((z <? 1) = true) as -> by lia.
Qed.

Lemma validate_indices_spec (v : pyval) :
  if accepted v
  then exists zs, validate_indices v = Return zs /\ Forall (fun z => 1 <= z) zs
  else exists e, (e = TypeError \/ e = ValueError) /\ validate_indices v = Raise e.
Proof.
  destruct v as [| b | z | s | l]; simpl;
    try (exists TypeError; split; [by left | reflexivity]).
  - exists [1]. split; [reflexivity | repeat constructor; lia].
  - pose proof (check_indices_spec l) as H.
    destruct (forallb index_ok l); [exact H|].
    exists ValueError. split; [by right | exact H].
Qed.

(** A validation error leaves before anything else has happened. *)
Lemma merge_excel_sheets_invalid E a s e :
  validate_indices (source_sheet_indices a) = Raise e ->
  merge_excel_sheets E a s = (Raise e, s).
Proof. intros H. unfold merge_excel_sheets, bind, lift. by rewrite H. Qed.

(** C3, as the specification words it: an empty index list is let through,
    and so is [None]; neither call raises. *)
Lemma merge_excel_sheets_accepts_empty_list :
  nonempty_index_list (PList []) = false
  /\ validate_indices (PList []) = Return []
  /\ fst (merge_excel_sheets Samples.empty_folder (Samples.merge_args (PList []))
            Samples.merge_start) = Return tt.
Proof. repeat split. Qed.

(** C3, amended. [merge_excel_sheets] checks its sheet-index argument
    before anything else: unless the argument is [None] or a list, possibly
    empty, of integers each at least 1, the call raises a [TypeError] or a
    [ValueError] and leaves the state as it found it. An accepted argument
    passes as the list of its integers (the default being the list [1]). *)
Theorem merge_excel_sheets_validation (E : env) (a : args) (s : state) :
  if accepted (source_sheet_indices a)
  then exists zs, validate_indices (source_sheet_indices a) = Return zs
                  /\ Forall (fun z => 1 <= z) zs
  else exists e, (e = TypeError \/ e = ValueError)
                 /\ merge_excel_sheets E a s = (Raise e, s).
Proof.
  pose proof (validate_indices_spec (source_sheet_indices a)) as H.
  destruct (accepted (source_sheet_indices a)); [exact H|].
  destruct H as (e & He & Hv). exists e. split; [exact He|].
  by apply merge_excel_sheets_invalid.
Qed.

(** C9. When the input folder does not exist, the call ends right after
    the index validation: with the validation error if there is one, and with
    [FileNotFoundError] otherwise. The state is untouched: no folder was
    created, nothing listed, read, written or deleted. *)
Theorem merge_excel_sheets_missing_input (E : env) (a : args) (s : state) :
  input_folder_exists E = false ->
  merge_excel_sheets E a s
  = (match validate_indices (source_sheet_indices a) with
     | Return _ => Raise FileNotFoundError
     | Raise e => Raise e
     end, s).
Proof.
  intros Hmissing. unfold merge_excel_sheets, bind, lift.
  destruct (validate_indices (source_sheet_indices a)) as [zs|e]; [|reflexivity].
  by rewrite Hmissing.
Qed.

Lemma merge_excel_sheets_missing_input_witness :
  input_folder_exists Samples.missing_folder = false
  /\ merge_excel_sheets Samples.missing_folder (Samples.merge_args (PList [PInt 1; PInt 3]))
       Samples.merge_start
     = (Raise FileNotFoundError, Samples.merge_start).
Proof.
  split; [reflexivity|].
  exact (merge_excel_sheets_missing_input Samples.missing_folder
           (Samples.merge_args (PList [PInt 1; PInt 3])) Samples.merge_start eq_refl).
Defined.

End MergeValidation.

(** ** The merger: grouping by prefix *)

Section Grouping.
Import MergeExcel.

Example grouping_example :
  group_files_by_common_prefix
    [PyStr.lit "sales_jan.xlsx"; PyStr.lit "sales_feb.xlsx"; PyStr.lit "hr_q1.xlsx"]
  = [ (PyStr.lit "sales_", [PyStr.lit "sales_jan.xlsx"; PyStr.lit "sales_feb.xlsx"]);
      (PyStr.lit "hr_", [PyStr.lit "hr_q1.xlsx"]) ].
Proof. vm_compute. reflexivity. Qed.

Example grouping_no_underscore :
  group_files_by_common_prefix [PyStr.lit "report.xlsx"; PyStr.lit "a_b.xlsx"]
  = [ (no_prefix, [PyStr.lit "report.xlsx"]); (PyStr.lit "a_", [PyStr.lit "a_b.xlsx"]) ].
Proof. vm_compute. reflexivity. Qed.

(** *** The key of one file *)

Lemma span_prefix_tail file run u tail :
  span_prefix file = (run, u :: tail) -> u = PyStr.underscore.
Proof.
  revert run. induction file as [|c rest IH]; intros run; simpl; [congruence|].
  case_bool_decide as Hc.
  - intros [= <- <- <-]. exact Hc.
  - destruct (span_prefix rest) as [run' tail'] eqn:Hs.
    intros [= <- ->]. by eapply IH.
Qed.

Lemma upto_first_underscore_span file :
  upto_first_underscore file
  = match span_prefix file with
    | (run, u :: _) => Some (run ++ [u])
    | (_, []) => None
    end.
Proof.
  induction file as [|c rest IH]; simpl; [reflexivity|].
  case_bool_decide; [reflexivity|].
  rewrite IH. destruct (span_prefix rest) as [run [|u tail]]; reflexivity.
Qed.

Lemma prefix_of_spec file :
  prefix_of file
  = match upto_first_underscore file with
    | Some p => if decide (p = [PyStr.underscore]) then no_prefix else p
    | None => no_prefix
    end.
Proof.
  rewrite upto_first_underscore_span. unfold prefix_of, re_match_prefix.
  destruct (span_prefix file) as [run [|u tail]] eqn:Hs.
  - by destruct run.
  - apply span_prefix_tail in Hs as ->.
    destruct run as [|c run]; case_decide as Hd; simpl in Hd; try reflexivity.
    + congruence.
    + destruct run; discriminate Hd.
Qed.

(** *** The dict of groups *)

Lemma dict_append_keys k f (d : list (PyStr.t * list PyStr.t)) :
  (dict_append k f d).*1 = if decide (k ∈ d.*1) then d.*1 else d.*1 ++ [k].
Proof.
  induction d as [|[k' fs] d IH].
  - reflexivity.
  - cbn [dict_append]. rewrite fmap_cons. cbn [fst].
    destruct (decide (k' = k)) as [->|Hne].
    + rewrite decide_True by left. reflexivity.
    + rewrite fmap_cons, IH. cbn [fst]. destruct (decide (k ∈ d.*1)) as [Hin|Hnin].
      * rewrite decide_True; [reflexivity | by right].
      * rewrite decide_False; [reflexivity|].
        intros [?|?]%elem_of_cons; congruence.
Qed.

Lemma dict_append_NoDup k f (d : list (PyStr.t * list PyStr.t)) :
  NoDup d.*1 -> NoDup (dict_append k f d).*1.
Proof.
  intros Hd. rewrite dict_append_keys. case_decide as Hk; [exact Hd|].
  apply NoDup_app. split; [exact Hd|]. split.
  - intros x Hx [->|[]%elem_of_nil]%elem_of_cons. contradiction.
  - apply NoDup_singleton.
Qed.

Lemma dict_append_elem k f (d : list (PyStr.t * list PyStr.t)) k' fs' :
  NoDup d.*1 ->
  (k', fs') ∈ dict_append k f d <->
  (k' <> k /\ (k', fs') ∈ d)
  \/ (k' = k /\ exists old, fs' = old ++ [f]
                            /\ ((k, old) ∈ d \/ (old = [] /\ k ∉ d.*1))).
Proof.
  induction d as [|[k0 fs0] d IH]; intros Hd.
  - cbn [dict_append]. rewrite list_elem_of_singleton. split.
    + intros [= -> ->]. right. split; [reflexivity|]. exists [].
      split; [reflexivity|]. right. split; [reflexivity | apply not_elem_of_nil].
    + intros [[_ []%elem_of_nil] | [-> (old & -> & [[]%elem_of_nil | [-> _]])]].
      reflexivity.
  - rewrite fmap_cons in Hd. cbn [fst] in Hd.
    apply NoDup_cons in Hd as [Hk0 Hd]. specialize (IH Hd).
    assert (Hkeys : forall fs, (k0, fs) ∈ d -> False).
    { intros fs Hin. apply Hk0, list_elem_of_fmap. by exists (k0, fs). }
    cbn [dict_append].
    destruct (decide (k0 = k)) as [->|Hne].
    + rewrite elem_of_cons. split.
      * intros [[= -> ->] | Hin].
        -- right. split; [reflexivity|]. exists fs0. split; [reflexivity|].
           left. left.
        -- left. split; [|by right]. intros ->. by eapply Hkeys.
      * intros [[Hk' Hin] | [-> (old & -> & [Hin | [_ Hnin]])]].
        -- apply elem_of_cons in Hin as [[= -> ->] | Hin]; [congruence | by right].
        -- apply elem_of_cons in Hin as [[= ->] | Hin]; [by left|].
           exfalso. by eapply Hkeys.
        -- exfalso. apply Hnin. rewrite fmap_cons. left.
    + rewrite elem_of_cons, IH. split.
      * intros [[= -> ->] | [[Hk' Hin] | [-> (old & -> & Hold)]]].
        -- left. split; [exact Hne | left].
        -- left. split; [exact Hk' | by right].
        -- right. split; [reflexivity|]. exists old. split; [reflexivity|].
           destruct Hold as [Hin | [-> Hnin]].
           ++ left. by right.
           ++ right. split; [reflexivity|]. rewrite fmap_cons.
              intros [?|?]%elem_of_cons; [cbn in *; congruence | contradiction].
      * intros [[Hk' Hin] | [-> (old & -> & [Hin | [-> Hnin]])]].
        -- apply elem_of_cons in Hin as [Heq | Hin]; [by left|].
           right. left. by split.
        -- apply elem_of_cons in Hin as [[= ? ?] | Hin]; [congruence|].
           right. right. split; [reflexivity|]. exists old. split; [reflexivity|]. by left.
        -- right. right. split; [reflexivity|]. exists []. split; [reflexivity|].
           right. split; [reflexivity|]. intros Hin. apply Hnin. rewrite fmap_cons. by right.
Qed.

Lemma dict_append_concat k f (d : list (PyStr.t * list PyStr.t)) :
  concat (dict_append k f d).*2 ≡ₚ f :: concat d.*2.
Proof.
  induction d as [|[k' fs] d IH]; simpl; [reflexivity|].
  destruct (decide (k' = k)) as [->|Hne]; simpl.
  - rewrite <- app_assoc. simpl. symmetry. apply Permutation_middle.
  - rewrite IH. symmetry. apply Permutation_middle.
Qed.

Lemma group_files_inv (files : list PyStr.t) :
  NoDup (group_files_by_common_prefix files).*1
  /\ (forall k fs,
        (k, fs) ∈ group_files_by_common_prefix files
        <-> fs <> [] /\ fs = List.filter (fun f => bool_decide (prefix_of f = k)) files)
  /\ concat (group_files_by_common_prefix files).*2 ≡ₚ files.
Proof.
  unfold group_files_by_common_prefix.
  induction files as [|file files IH] using rev_ind.
  - simpl. split; [constructor|]. split; [|reflexivity].
    intros k fs. split; [intros []%elem_of_nil | intros [Hne ->]; by destruct Hne].
  - rewrite fold_left_app. cbn [fold_left].
    set (d := fold_left _ files []) in *.
    destruct IH as (Hnodup & Hgroups & Hperm).
    split; [by apply dict_append_NoDup|]. split.
    + intros k fs. rewrite dict_append_elem by exact Hnodup.
      rewrite List.filter_app. cbn [List.filter].
      assert (Hold : forall old,
                 ((prefix_of file, old) ∈ d \/ (old = [] /\ prefix_of file ∉ d.*1))
                 <-> old = List.filter (fun f => bool_decide (prefix_of f = prefix_of file)) files).
      { intros old. split.
        - intros [Hin | [-> Hnin]]; [by apply Hgroups in Hin as [_ ?]|].
          destruct (List.filter _ files) as [|x l] eqn:Hf; [reflexivity|].
          exfalso. apply Hnin, list_elem_of_fmap.
          exists (prefix_of file, x :: l). split; [reflexivity|].
          apply Hgroups. split; [discriminate | by rewrite Hf].
        - intros ->.
          destruct (List.filter _ files) as [|x l] eqn:Hf.
          + right. split; [reflexivity|].
            intros ((k' & fs') & Hk & Hin)%list_elem_of_fmap. cbn in Hk. subst k'.
            apply Hgroups in Hin as [Hne Heq]. rewrite Hf in Heq. contradiction.
          + left. apply Hgroups. split; [discriminate | by rewrite Hf]. }
      split.
      * intros [[Hk Hin] | [-> (old & -> & Ho)]].
        -- apply Hgroups in Hin as [Hne ->]. split; [exact Hne|].
           rewrite bool_decide_eq_false_2 by congruence. by rewrite app_nil_r.
        -- apply Hold in Ho as ->. split; [by destruct (List.filter _ files)|].
           by rewrite bool_decide_eq_true_2.
      * intros [Hne ->]. destruct (decide (k = prefix_of file)) as [->|Hk].
        -- right. split; [reflexivity|]. eexists. split; [|by apply Hold].
           by rewrite bool_decide_eq_true_2.
        -- left. split; [exact Hk|]. apply Hgroups.
           rewrite bool_decide_eq_false_2, app_nil_r in * by congruence. by split.
    + rewrite dict_append_concat, Hperm. apply Permutation_cons_append.
Qed.

(** C4, as the specification words it: a name that starts with an
    underscore contains one, yet it is not filed under the key that ends at
    its first underscore; it lands in the catch-all group. *)
Lemma group_files_leading_underscore :
  upto_first_underscore (PyStr.lit "_a.xlsx") = Some (PyStr.lit "_")
  /\ group_files_by_common_prefix [PyStr.lit "_a.xlsx"]
     = [ (no_prefix, [PyStr.lit "_a.xlsx"]) ]
  /\ PyStr.lit "_" <> no_prefix.
Proof. split; [|split]; [vm_compute; reflexivity .. | discriminate]. Qed.

(** C4, amended. Without a fixed prefix, a file whose first underscore is
    preceded by at least one character is filed under the substring up to
    and including that underscore; a file with no underscore, or whose name
    starts with one, is filed under the single catch-all key. The groups
    partition the input list: the keys are distinct, each group is exactly
    the files of its key, in listing order, and none is empty. *)
Theorem group_files_by_common_prefix_partition (files : list PyStr.t) :
  (forall file,
     prefix_of file
     = match upto_first_underscore file with
       | Some p => if decide (p = [PyStr.underscore]) then no_prefix else p
       | None => no_prefix
       end)
  /\ NoDup (group_files_by_common_prefix files).*1
  /\ (forall k fs,
        (k, fs) ∈ group_files_by_common_prefix files
        <-> fs <> [] /\ fs = List.filter (fun f => bool_decide (prefix_of f = k)) files)
  /\ (forall file, file ∈ files ->
        exists fs, (prefix_of file, fs) ∈ group_files_by_common_prefix files /\ file ∈ fs)
  /\ concat (group_files_by_common_prefix files).*2 ≡ₚ files.
Proof.
  destruct (group_files_inv files) as (Hnodup & Hgroups & Hperm).
  split; [exact prefix_of_spec|]. split; [exact Hnodup|].
  split; [exact Hgroups|]. split; [|exact Hperm].
  intros file Hin.
  assert (Hmem : file ∈ List.filter (fun f => bool_decide (prefix_of f = prefix_of file)) files).
  { apply list_elem_of_In, filter_In. split; [by apply list_elem_of_In|].
    by apply bool_decide_eq_true_2. }
  eexists. split; [|exact Hmem]. apply Hgroups. split; [|reflexivity].
  intros Hnil. rewrite Hnil in Hmem. by apply elem_of_nil in Hmem.
Qed.

End Grouping.

(** ** Strings: literals and numerals are read back uniquely *)

Section Strings.

Lemma lit_inj (s1 s2 : string) : PyStr.lit s1 = PyStr.lit s2 -> s1 = s2.
Proof.
  unfold PyStr.lit. intros H.
  assert (Hl : Stdlib.Strings.String.list_ascii_of_string s1
               = Stdlib.Strings.String.list_ascii_of_string s2).
  { revert H. generalize (Stdlib.Strings.String.list_ascii_of_string s1)
                         (Stdlib.Strings.String.list_ascii_of_string s2).
    induction l as [|a l IH]; intros [|b l']; simpl; try discriminate; [reflexivity|].
    intros [= Hab Hl]. f_equal; [|by apply IH].
    rewrite <- (ascii_N_embedding a), <- (ascii_N_embedding b). by rewrite Hab. }
  rewrite <- (Stdlib.Strings.String.string_of_list_ascii_of_string s1),
          <- (Stdlib.Strings.String.string_of_list_ascii_of_string s2).
  by rewrite Hl.
Qed.

Lemma of_nat_inj (n m : nat) : PyStr.of_nat n = PyStr.of_nat m -> n = m.
Proof. unfold PyStr.of_nat. intros H%lit_inj. by apply (inj pretty) in H. Qed.

Example of_nat_12 : PyStr.of_nat 12 = PyStr.lit "12".
Proof. reflexivity. Qed.

End Strings.

(** ** The exporter: unique file names *)

Section Allocator.
Import Py Exporter.

Example allocate_three :
  allocate [PyStr.lit "t"; PyStr.lit "u"; PyStr.lit "t"; PyStr.lit "t"] (init None)
  = [PyStr.lit "t.xlsx"; PyStr.lit "u.xlsx"; PyStr.lit "t_2.xlsx"; PyStr.lit "t_3.xlsx"].
Proof. vm_compute. reflexivity. Qed.

Lemma numbered_inj base n m :
  (1 <= n)%nat -> (1 <= m)%nat -> numbered base n = numbered base m -> n = m.
Proof.
  intros Hn Hm. unfold numbered.
  destruct n as [|[|n]]; [lia | |]; (destruct m as [|[|m]]; [lia | |]);
    intros H; apply app_inv_head in H.
  - reflexivity.
  - discriminate H.
  - discriminate H.
  - apply app_inv_head in H. apply app_inv_tail in H. by apply of_nat_inj.
Qed.

Lemma occurrences_app base l1 l2 :
  occurrences base (l1 ++ l2) = (occurrences base l1 + occurrences base l2)%nat.
Proof. unfold occurrences. by rewrite List.filter_app, length_app. Qed.

Lemma occurrences_here base : occurrences base [base] = 1%nat.
Proof. unfold occurrences. simpl. by rewrite bool_decide_eq_true_2. Qed.

Lemma occurrences_other base b : b <> base -> occurrences base [b] = 0%nat.
Proof. intros H. unfold occurrences. simpl. by rewrite bool_decide_eq_false_2. Qed.

Lemma counts_init dir : counts [] (init dir).
Proof. intros b. apply lookup_empty. Qed.

Lemma get_unique_filename_step past s base :
  counts past s ->
  exists s',
    get_unique_filename base s = (Return (numbered base (S (occurrences base past))), s')
    /\ counts (past ++ [base]) s'.
Proof.
  intros Hc. unfold get_unique_filename. rewrite (Hc base).
  destruct (occurrences base past) as [|n] eqn:Hocc.
  - eexists. split; [reflexivity|]. intros b. cbn.
    rewrite occurrences_app. destruct (decide (b = base)) as [->|Hne].
    + rewrite lookup_insert_eq, Hocc, occurrences_here. reflexivity.
    + rewrite lookup_insert_ne by congruence.
      rewrite (occurrences_other b base) by congruence.
      rewrite Nat.add_0_r. apply Hc.
  - eexists. split; [reflexivity|]. intros b. cbn.
    rewrite occurrences_app. destruct (decide (b = base)) as [->|Hne].
    + rewrite lookup_insert_eq, Hocc, occurrences_here.
      by replace (S n + 1)%nat with (S (S n)) by lia.
    + rewrite lookup_insert_ne by congruence.
      rewrite (occurrences_other b base) by congruence.
      rewrite Nat.add_0_r. apply Hc.
Qed.

Lemma allocate_length bases s : length (allocate bases s) = length bases.
Proof.
  revert s. induction bases as [|b bases IH]; intros s; [reflexivity|].
  cbn [allocate]. unfold get_unique_filename.
  destruct (existing_filenames s !! b); cbn; by rewrite IH.
Qed.

Lemma allocate_lookup past s bases i base :
  counts past s ->
  bases !! i = Some base ->
  allocate bases s !! i
  = Some (numbered base (occurrences base (past ++ take (S i) bases))).
Proof.
  revert past s i. induction bases as [|b bases IH]; intros past s i Hc Hi; [done|].
  cbn [allocate].
  destruct (get_unique_filename_step past s b Hc) as (s' & -> & Hc').
  destruct i as [|i].
  - injection Hi as ->. cbn. rewrite occurrences_app, occurrences_here.
    by rewrite Nat.add_1_r.
  - cbn in Hi. rewrite lookup_cons_ne_0 by lia. cbn [pred].
    rewrite (IH (past ++ [b]) s' i Hc' Hi). by rewrite <- app_assoc.
Qed.

Lemma occurrences_positive bases i base :
  bases !! i = Some base -> (1 <= occurrences base (take (S i) bases))%nat.
Proof.
  intros Hi. rewrite (take_S_r _ _ _ Hi), occurrences_app, occurrences_here. lia.
Qed.

Lemma occurrences_increase bases i j base :
  (i < j)%nat -> bases !! j = Some base ->
  (occurrences base (take (S i) bases) < occurrences base (take (S j) bases))%nat.
Proof.
  intros Hij Hj. rewrite (take_S_r _ j _ Hj), occurrences_app, occurrences_here.
  assert (take j bases = take (S i) bases ++ drop (S i) (take j bases)) as ->.
  { rewrite <- (take_drop (S i) (take j bases)) at 1. f_equal.
    rewrite take_take. f_equal. lia. }
  rewrite occurrences_app. lia.
Qed.

Lemma allocate_same_base base n s past :
  counts past s ->
  allocate (replicate n base) s
  = numbered base <$> seq (S (occurrences base past)) n.
Proof.
  revert s past. induction n as [|n IH]; intros s past Hc; [reflexivity|].
  cbn [replicate allocate seq fmap list_fmap].
  destruct (get_unique_filename_step past s base Hc) as (s' & -> & Hc').
  f_equal. rewrite (IH s' _ Hc'). rewrite occurrences_app, occurrences_here.
  by rewrite Nat.add_1_r.
Qed.

(** C5. Calls of the exporter's filename allocator within one run: N calls
    with the same base name return the base name with the extension, then the
    base name suffixed [_2], [_3], ... up to [_N], all distinct. The same
    holds when calls for other base names come in between: the call at
    position [i] returns the name numbered by how often its base name has
    occurred so far, and two calls for one base name never return the same
    name. *)
Theorem get_unique_filename_distinct
    (dir : option (gset PyStr.t)) (base : PyStr.t) (n : nat) (bases : list PyStr.t) :
  allocate (replicate n base) (init dir) = numbered base <$> seq 1 n
  /\ NoDup (allocate (replicate n base) (init dir))
  /\ length (allocate bases (init dir)) = length bases
  /\ (forall i b, bases !! i = Some b ->
        allocate bases (init dir) !! i
        = Some (numbered b (occurrences b (take (S i) bases))))
  /\ (forall i j b, bases !! i = Some b -> bases !! j = Some b -> i <> j ->
        allocate bases (init dir) !! i <> allocate bases (init dir) !! j).
Proof.
  assert (Hat : forall i b, bases !! i = Some b ->
            allocate bases (init dir) !! i
            = Some (numbered b (occurrences b (take (S i) bases)))).
  { intros i b Hi. by rewrite (allocate_lookup [] _ _ _ _ (counts_init dir) Hi). }
  split; [exact (allocate_same_base base n _ [] (counts_init dir))|].
  split.
  { rewrite (allocate_same_base base n _ [] (counts_init dir)). cbn [occurrences List.filter length].
    apply NoDup_fmap_2_strong; [|apply NoDup_seq].
    intros x y Hx%elem_of_seq Hy%elem_of_seq. apply numbered_inj; lia. }
  split; [apply allocate_length|]. split; [exact Hat|].
  intros i j b Hi Hj Hij. rewrite (Hat i b Hi), (Hat j b Hj).
  intros [= Heq]. apply numbered_inj in Heq; try by apply occurrences_positive.
  destruct (Nat.lt_ge_cases i j) as [Hlt|Hge].
  - pose proof (occurrences_increase bases i j b Hlt Hj). lia.
  - assert (j < i)%nat as Hlt by lia.
    pose proof (occurrences_increase bases j i b Hlt Hi). lia.
Qed.

End Allocator.

(** ** The connection manager *)

Section ConnectionManager.
Import Py HiveConnection.

Example validated_up : validated Samples.server_up = true.
Proof. vm_compute. reflexivity. Qed.

Lemma get_hive_connection_validated {A} (E : env) (body : conn -> result A) :
  validated E = true ->
  exists host port username password,
    forall f : frame,
      get_hive_connection E body f
      = try_finally
          (try_except
             (emit (PrintConnecting host port) ;;;
              let* c := lift (hive_Connection E host port username password) in
              assign_connection c ;;;
              lift (body c))
             (fun e => emit (PrintConnectError e) ;;; raise e))
          (let* c := read_connection in
           emit (CallClose c) ;;;
           lift_unit (connection_close E c) ;;;
           emit PrintClosed) f.
Proof.
  unfold validated, get_hive_connection, load_secrets.
  destruct (read_secrets E) as [[secrets|]|e]; [|discriminate..].
  cbn zeta. destruct (decide (default ∅ (secrets !! "hive"%string) = ∅)) as [|Hne];
    [discriminate|].
  intros Hv. do 4 eexists. intros f.
  unfold bind at 1, try_except at 1, bind at 1, lift at 1, ret at 1. cbn beta iota.
  rewrite decide_False by exact Hne. rewrite Hv. reflexivity.
Qed.

(** The path where the session opens: it is closed exactly once, whatever
    the caller's block does, and the caller sees the block's own outcome
    unless closing raises. *)
Lemma get_hive_connection_closes_once {A} (E : env) (body : conn -> result A) (c : conn) :
  validated E = true ->
  (forall host port username password,
     hive_Connection E host port username password = Return c) ->
  close_count c (events (snd (get_hive_connection E body frame0))) = 1%nat
  /\ fst (get_hive_connection E body frame0)
     = match connection_close E c with
       | Some e => Raise e
       | None => body c
       end.
Proof.
  intros Hv Hopen.
  destruct (get_hive_connection_validated E body Hv) as (h & p & u & w & Hrun). rewrite !Hrun.
  unfold try_finally, try_except, bind, lift, lift_unit, emit, assign_connection,
    read_connection, modify, raise, frame0. cbn.
  rewrite Hopen. cbn.
  destruct (body c) as [a|e]; cbn.
  - destruct (connection_close E c); cbn; rewrite bool_decide_eq_true_2 by done; done.
  - destruct (is_Exception e); cbn;
      destruct (connection_close E c); cbn; rewrite bool_decide_eq_true_2 by done; done.
Qed.

(** C1, on the path where opening the session fails. The failure [e] is
    logged, but the caller does not get [e] back: the cleanup reads the local
    [connection], which was never bound, and the [UnboundLocalError] this
    raises replaces [e]. No session is closed. *)
Theorem get_hive_connection_open_failure {A} (E : env) (body : conn -> result A) (e : exn) :
  validated E = true ->
  (forall host port username password,
     hive_Connection E host port username password = Raise e) ->
  fst (get_hive_connection E body frame0) = Raise (UnboundLocalError "connection")
  /\ (is_Exception e = true ->
      PrintConnectError e ∈ events (snd (get_hive_connection E body frame0)))
  /\ (forall c, close_count c (events (snd (get_hive_connection E body frame0))) = 0%nat).
Proof.
  intros Hv Hopen.
  destruct (get_hive_connection_validated E body Hv) as (h & p & u & w & Hrun). rewrite !Hrun.
  unfold try_finally, try_except, bind, lift, lift_unit, emit, assign_connection,
    read_connection, modify, raise, frame0. cbn.
  rewrite Hopen. cbn.
  destruct (is_Exception e); cbn; (split; [reflexivity|]); split; try done.
  intros _. set_solver.
Qed.

Lemma get_hive_connection_open_failure_witness :
  validated Samples.server_down = true
  /\ fst (get_hive_connection Samples.server_down (fun _ => Return tt) frame0)
     = Raise (UnboundLocalError "connection")
  /\ Raise (UnboundLocalError "connection") <> @Raise unit (LibraryError 1).
Proof.
  split; [vm_compute; reflexivity|]. split; [|discriminate].
  exact (proj1 (get_hive_connection_open_failure Samples.server_down (fun _ => Return tt)
                  (LibraryError 1) eq_refl (fun _ _ _ _ => eq_refl))).
Defined.

End ConnectionManager.

(** ** The exporter: one run *)

Section ExportRun.
Import Py Exporter.

Example export_fresh :
  let s := snd (export_block (Return [Samples.table_t]) (init None)) in
  exported_files s = 1%nat /\ failed_tables s = [] /\ written s = [PyStr.lit "t.xlsx"].
Proof. vm_compute. auto. Qed.

(** The same happens within a single run into an empty directory: the
    second table commented [a] is written as [a_2.xlsx], which is also the
    first name allocated for the comment [a_2]. Three tables are counted,
    two workbooks exist, none is recorded as failed. *)
Example export_colliding_comments :
  snd (export_block
         (Return [Samples.commented "t1" "a"; Samples.commented "t2" "a";
                  Samples.commented "t3" "a_2"])
         (init None))
  = {| existing_filenames :=
         <[PyStr.lit "a" := 2%nat]> {[ PyStr.lit "a_2" := 1%nat ]};
       output_dir := Some {[ PyStr.lit "a.xlsx"; PyStr.lit "a_2.xlsx" ]};
       written := [PyStr.lit "a.xlsx"; PyStr.lit "a_2.xlsx"];
       exported_files := 3;
       failed_tables := [] |}.
Proof. vm_compute. reflexivity. Qed.

(** With the server down, the caller of [export] gets the cleanup's error. *)
Example export_server_down :
  fst (Exporter.export Samples.server_down (Return [Samples.table_t]) (Exporter.init None))
  = Raise (UnboundLocalError "connection").
Proof. vm_compute. reflexivity. Qed.

Lemma get_unique_filename_frame base s name s1 :
  get_unique_filename base s = (Return name, s1) ->
  output_dir s1 = output_dir s /\ written s1 = written s
  /\ exported_files s1 = exported_files s /\ failed_tables s1 = failed_tables s.
Proof.
  unfold get_unique_filename.
  destruct (existing_filenames s !! base); intros [= _ <-]; auto.
Qed.

(** C2, on the path where the allocated file name already exists in the
    output directory. A table that was queried successfully is then counted
    as exported although no workbook is written for it, and it is not
    recorded as failed: the guard in [write_to_excel] only prints a warning
    and returns. *)
Theorem export_table_counts_skipped_write
    (t : table) (s s1 : state) (oc : option PyStr.t)
    (cols : list ExcelUtils.column_info) (df : ExcelUtils.dataframe)
    (files : gset PyStr.t) (name : PyStr.t) :
  tblproperties t = Return oc ->
  describe t = Return cols ->
  select_all t = Return df ->
  output_dir s = Some files ->
  get_unique_filename
    (PyStr.or_else (sanitize_filename (default (table_name t) oc)) placeholder) s
  = (Return name, s1) ->
  name ∈ files ->
  queried t = true
  /\ export_table t s = (Return tt, incr_exported s1)
  /\ exported_files (incr_exported s1) = S (exported_files s)
  /\ failed_tables (incr_exported s1) = failed_tables s
  /\ written (incr_exported s1) = written s
  /\ output_dir (incr_exported s1) = output_dir s.
Proof.
  intros Hc Hd Hf Hdir Hname Hin.
  destruct (get_unique_filename_frame _ _ _ _ Hname) as (Ho & Hw & He & Hft).
  split; [unfold queried; by rewrite Hd, Hf|].
  split.
  - unfold export_table, get_table_comment, write_to_excel, try_except, bind, lift,
      ret, modify, gets.
    rewrite Hc.
    destruct oc as [c|];
      [change (default (table_name t) (Some c)) with c in Hname
      |change (default (table_name t) None) with (table_name t) in Hname];
      cbn beta iota;
      rewrite Hd, Hf, Hdir, Hname; unfold path_exists;
      rewrite Ho, Hdir, bool_decide_eq_true_2 by exact Hin; reflexivity.
  - cbn. auto.
Qed.

Lemma export_block_single (t : table) (s : state) :
  export_block (Return [t]) s
  = match export_table t s with
    | (Return _, s') => (Return tt, s')
    | (Raise e, s') => (Raise e, s')
    end.
Proof.
  unfold export_block, try_except, bind, lift, raise. cbn [for_each].
  unfold bind, ret. destruct (export_table t s) as [[[]|e] s']; [reflexivity|].
  by destruct (is_Exception e).
Qed.

Lemma export_table_counts_skipped_write_witness :
  queried Samples.table_t = true
  /\ export_block (Return [Samples.table_t]) Samples.second_run
     = (Return tt,
        {| existing_filenames := {[ PyStr.lit "t" := 1%nat ]};
           output_dir := Some {[ PyStr.lit "t.xlsx" ]};
           written := [];
           exported_files := 1;
           failed_tables := [] |}).
Proof.
  pose proof (export_table_counts_skipped_write Samples.table_t Samples.second_run
                (set_existing_filenames {[ PyStr.lit "t" := 1%nat ]} Samples.second_run)
                None [] [] {[ PyStr.lit "t.xlsx" ]} (PyStr.lit "t.xlsx")
                eq_refl eq_refl eq_refl eq_refl eq_refl) as H.
  destruct H as (Hq & Hrun & _).
  - apply elem_of_singleton. reflexivity.
  - split; [exact Hq|].
    rewrite export_block_single, Hrun. reflexivity.
Defined.

End ExportRun.

(** ** The merger: unique sheet names *)

Section SheetNames.
Import Py MergeExcel.

Section FirstUnused.
Context (candidate : nat -> PyStr.t) (candidate_inj : Inj (=) (=) candidate).

Lemma first_unused_spec (fuel : nat) (used : gset PyStr.t) (counter k : nat) :
  first_unused fuel candidate used counter = Some k ->
  (counter <= k)%nat /\ (candidate k ∉ used)
  /\ forall j, (counter <= j < k)%nat -> candidate j ∈ used.
Proof.
  revert counter. induction fuel as [|fuel IH]; intros counter; cbn [first_unused];
    [discriminate|].
  destruct (decide (candidate counter ∈ used)) as [Hin|Hnin].
  - intros (Hle & Hk & Hbelow)%IH. split; [lia|]. split; [exact Hk|].
    intros j Hj. destruct (decide (j = counter)) as [->|Hne]; [exact Hin|].
    apply Hbelow. lia.
  - intros [= <-]. split; [lia|]. split; [exact Hnin|]. intros j Hj. lia.
Qed.

Lemma first_unused_ext (fuel : nat) (used1 used2 : gset PyStr.t) (counter : nat) :
  (forall j, (counter <= j)%nat -> candidate j ∈ used1 <-> candidate j ∈ used2) ->
  first_unused fuel candidate used1 counter = first_unused fuel candidate used2 counter.
Proof.
  revert counter. induction fuel as [|fuel IH]; intros counter Hext; [reflexivity|].
  cbn [first_unused].
  destruct (decide (candidate counter ∈ used1)) as [H1|H1];
    destruct (decide (candidate counter ∈ used2)) as [H2|H2].
  - apply IH. intros j Hj. apply Hext. lia.
  - exfalso. apply H2, (Hext counter); [lia | exact H1].
  - exfalso. apply H1, (Hext counter); [lia | exact H2].
  - reflexivity.
Qed.

(** The loop ends: among more candidates than there are names in use, one
    is free. *)
Lemma first_unused_total (fuel : nat) (used : gset PyStr.t) (counter : nat) :
  (size used < fuel)%nat -> is_Some (first_unused fuel candidate used counter).
Proof.
  revert used counter. induction fuel as [|fuel IH]; intros used counter Hsize; [lia|].
  cbn [first_unused].
  destruct (decide (candidate counter ∈ used)) as [Hin|Hnin]; [|by eexists].
  rewrite (first_unused_ext fuel used (used ∖ {[candidate counter]})).
  - apply IH.
    assert (size (used ∖ {[candidate counter]}) = size used - 1)%nat.
    { rewrite size_difference by (by apply singleton_subseteq_l).
      by rewrite size_singleton. }
    assert (size used <> 0)%nat.
    { intros Hz. apply size_empty_inv in Hz. set_solver. }
    lia.
  - intros j Hj. split; [|set_solver].
    intros Hjin. apply elem_of_difference. split; [exact Hjin|].
    intros Heq%elem_of_singleton%candidate_inj. lia.
Qed.

End FirstUnused.


Lemma output_candidate_inj (base ext : PyStr.t) : Inj (=) (=) (output_candidate base ext).
Proof.
  intros n m H. unfold output_candidate in H.
  apply app_inv_head in H. apply app_inv_head in H. apply app_inv_tail in H.
  by apply of_nat_inj.
Qed.



Example sheet_names_collide :
  get_unique_sheet_name (PyStr.lit "a")
    {[ PyStr.lit "a"; PyStr.lit "a_1"; PyStr.lit "a_3" ]} = PyStr.lit "a_2".
Proof. vm_compute. reflexivity. Qed.

Lemma sheet_names_of_app evs1 evs2 :
  sheet_names_of (evs1 ++ evs2) = sheet_names_of evs1 ++ sheet_names_of evs2.
Proof. apply omap_app. Qed.




Lemma generate_output_filename_returns (files : gset PyStr.t) (prefix : PyStr.t) :
  generate_output_filename_fuel (S (size files)) files prefix
  = Some (generate_output_filename files prefix)
  /\ generate_output_filename files prefix ∉ files.
Proof.
  unfold generate_output_filename, generate_output_filename_fuel. cbn zeta.
  set (output_file := PyStr.or_else (sanitize_filename prefix) merged_result ++ xlsx).
  set (base := PyStr.splitext_root output_file).
  set (ext := drop (length base) output_file).
  destruct (decide (output_file ∈ files)) as [Hin|Hnin]; [|by split].
  destruct (first_unused_total (output_candidate base ext) (output_candidate_inj base ext)
              (S (size files)) files 1) as [k Hk]; [lia|].
  rewrite Hk. cbn. split; [reflexivity|].
  by apply first_unused_spec in Hk as (_ & Hfree & _).
Qed.





(** *** The rule *)




(** *** Computations that follow the rule *)








(** *** One pass, and the passes of a call *)





Example merge_same_sheet_twice :
  effects (snd (merge_excel_sheets Samples.one_file
                  (Samples.merge_args (PList [PInt 1; PInt 1])) Samples.merge_start))
  = [ Makedirs; Listdir; OpenWriter (PyStr.lit "s_.xlsx");
      ReadExcel (PyStr.lit "s_a.xlsx");
      SheetNamed (PyStr.lit "s_.xlsx") (PyStr.lit "s_a");
      ToExcel (PyStr.lit "s_.xlsx") (PyStr.lit "s_a");
      SheetNamed (PyStr.lit "s_.xlsx") (PyStr.lit "s_a_1");
      ToExcel (PyStr.lit "s_.xlsx") (PyStr.lit "s_a_1");
      CloseWriter (PyStr.lit "s_.xlsx") ].
Proof. vm_compute. reflexivity. Qed.

(** The registry starts empty for each workbook: the same sheet name is
    issued, without suffix, in two workbooks of one call. *)
Example merge_two_workbooks_same_sheet_name :
  sheet_names_of
    (effects (snd (merge_excel_sheets Samples.two_groups
                     (Samples.merge_args (PList [PInt 2])) Samples.merge_start)))
  = [PyStr.lit "ab_c_d"; PyStr.lit "ab_c_d"]
  /\ issued (no_prefix ++ xlsx)
       (effects (snd (merge_excel_sheets Samples.two_groups
                        (Samples.merge_args (PList [PInt 2])) Samples.merge_start)))
     = [PyStr.lit "ab_c_d"]
  /\ issued (PyStr.lit "ab_.xlsx")
       (effects (snd (merge_excel_sheets Samples.two_groups
                        (Samples.merge_args (PList [PInt 2])) Samples.merge_start)))
     = [PyStr.lit "ab_c_d"].
Proof. vm_compute. auto. Qed.

(** The groups and the base names behind the two runs above. *)
Example one_file_plan :
  planned_groups Samples.one_file (Samples.merge_args (PList [PInt 1; PInt 1]))
  = [(PyStr.lit "s_", [PyStr.lit "s_a.xlsx"])]
  /\ workbook_bases Samples.one_file (Samples.merge_args (PList [PInt 1; PInt 1]))
       (planned_indices (Samples.merge_args (PList [PInt 1; PInt 1])))
       [PyStr.lit "s_a.xlsx"]
     = [PyStr.lit "s_a"; PyStr.lit "s_a"].
Proof. vm_compute. auto. Qed.

Example two_groups_plan :
  planned_groups Samples.two_groups (Samples.merge_args (PList [PInt 2]))
  = [(no_prefix, [PyStr.lit "ab.xlsx"]); (PyStr.lit "ab_", [PyStr.lit "ab_c.xlsx"])]
  /\ workbook_bases Samples.two_groups (Samples.merge_args (PList [PInt 2]))
       [2] [PyStr.lit "ab.xlsx"]
     = [PyStr.lit "ab_c_d"]
  /\ workbook_bases Samples.two_groups (Samples.merge_args (PList [PInt 2]))
       [2] [PyStr.lit "ab_c.xlsx"]
     = [PyStr.lit "ab_c_d"].
Proof. vm_compute. auto. Qed.




End SheetNames.

(** * More of the code *)

(** ** Display width and column widths *)

Section MoreDisplayWidth.
Import StringUtils.

Lemma calculate_display_width_is_spec (s : PyStr.t) :
  calculate_display_width s = display_width_spec s.
Proof.
  destruct s as [|c s]; [reflexivity|].
  unfold calculate_display_width. by rewrite width_loop_spec.
Qed.

Lemma count_chars_app p (s t : PyStr.t) :
  count_chars p (s ++ t) = count_chars p s + count_chars p t.
Proof. unfold count_chars. rewrite List.filter_app, length_app. lia. Qed.

(** X1. The display width is additive: the width of a concatenation is the
    sum of the widths of its parts. *)
Theorem calculate_display_width_app (s t : PyStr.t) :
  calculate_display_width (s ++ t)
  = calculate_display_width s + calculate_display_width t.
Proof.
  rewrite !calculate_display_width_is_spec. unfold display_width_spec.
  rewrite !count_chars_app. lia.
Qed.

Lemma count_chars_split (s : PyStr.t) :
  count_chars is_cjk s + count_chars (fun c => negb (is_cjk c)) s = Z.of_nat (length s).
Proof.
  unfold count_chars. induction s as [|c s IH]; [reflexivity|].
  cbn [List.filter]. destruct (is_cjk c); cbn [negb length]; lia.
Qed.

(** X2. The display width of a string lies between its length and twice
    its length, and it equals the length exactly when the string holds no
    character of the CJK range. *)
Theorem calculate_display_width_bounds (s : PyStr.t) :
  Z.of_nat (length s) <= calculate_display_width s <= 2 * Z.of_nat (length s)
  /\ (calculate_display_width s = Z.of_nat (length s)
      <-> Forall (fun c => is_cjk c = false) s).
Proof.
  rewrite calculate_display_width_is_spec. unfold display_width_spec.
  pose proof (count_chars_split s) as Hsplit.
  assert (Hpos : 0 <= count_chars is_cjk s) by (unfold count_chars; lia).
  assert (Hneg : 0 <= count_chars (fun c => negb (is_cjk c)) s) by (unfold count_chars; lia).
  split; [lia|].
  assert (Hzero : count_chars is_cjk s = 0 <-> Forall (fun c => is_cjk c = false) s).
  { unfold count_chars. clear. induction s as [|c s IH]; [by split|].
    cbn [List.filter]. destruct (is_cjk c) eqn:Hc; cbn [length].
    - split; [lia | intros H; inversion H; congruence].
    - rewrite IH. split; [by constructor | by inversion 1]. }
  rewrite <- Hzero. lia.
Qed.

End MoreDisplayWidth.

Section MoreColumnWidths.
Import Py StringUtils ExcelUtils.

Lemma adjust_column_ignores_columns_info pandas df info1 info2 max_width idx col ws :
  adjust_column pandas (column_comment_dict df info1) max_width df idx col ws
  = adjust_column pandas (column_comment_dict df info2) max_width df idx col ws.
Proof. unfold adjust_column. by rewrite !column_comment_get. Qed.

(** X3. The argument [columns_info] of [adjust_column_widths] has no
    influence on the outcome or on the widths: every key of the dict built
    from it maps to itself, and a missing key falls back to the column
    label. *)
Theorem adjust_column_widths_ignores_columns_info
    (pandas : pandas_version) (worksheet : gmap nat Z) (df : dataframe)
    (info1 info2 : option (list column_info)) (max_width : Z) :
  adjust_column_widths pandas worksheet df info1 max_width
  = adjust_column_widths pandas worksheet df info2 max_width.
Proof.
  unfold adjust_column_widths.
  assert (Hloop : forall cols idx ws,
            set_widths pandas (column_comment_dict df info1) max_width df idx cols ws
            = set_widths pandas (column_comment_dict df info2) max_width df idx cols ws).
  { induction cols as [|c cols IH]; intros idx ws; [reflexivity|].
    cbn [set_widths]. unfold bind.
    rewrite (adjust_column_ignores_columns_info pandas df info1 info2).
    destruct (adjust_column _ _ _ _ _ _ ws) as [[[]|e] ws1]; [apply IH | reflexivity]. }
  apply Hloop.
Qed.

(** The data term of a column of the frame, whenever there is one. *)
Lemma column_data_max_length_value pandas df col m :
  col ∈ df ->
  column_data_max_length pandas df (label col) = Return m -> m = data_max_length col.
Proof.
  intros Hin. unfold column_data_max_length.
  assert (Hsel : col ∈ getitem df (label col)).
  { unfold getitem. apply list_elem_of_In, List.filter_In. split.
    - by apply list_elem_of_In.
    - by apply bool_decide_eq_true. }
  assert (Hframe : forall frame, col ∈ frame ->
            (if empty frame then Return 0 else Raise (frame_error pandas)) = Return m ->
            m = data_max_length col).
  { intros frame Hcol. destruct (empty frame) eqn:He; [|discriminate]. intros [= <-].
    unfold empty in He. rewrite forallb_forall in He.
    specialize (He col (proj1 (list_elem_of_In _ _) Hcol)).
    unfold data_max_length. by destruct (cells col). }
  destruct (getitem df (label col)) as [|c [|c' frame]] eqn:Hg.
  - by apply elem_of_nil in Hsel.
  - apply list_elem_of_singleton in Hsel as <-. by intros [= <-].
  - by apply Hframe.
Qed.

(** A pass of the loop that does not raise sets the width of its column
    by the formula. *)
Lemma adjust_column_sets pandas df info max_width idx col ws ws' :
  col ∈ df ->
  adjust_column pandas (column_comment_dict df info) max_width df idx col ws
  = (Return tt, ws') ->
  ws' = <[idx := Z.min (Z.max (calculate_display_width (label col))
                              (data_max_length col) + 2) max_width]> ws.
Proof.
  intros Hin. unfold adjust_column, get_column_letter, bind, lift, modify.
  case_decide; [|discriminate].
  destruct (column_data_max_length pandas df (label col)) as [m|e] eqn:Hm; [|discriminate].
  apply column_data_max_length_value in Hm; [|exact Hin]. subst m.
  rewrite column_comment_get. by intros [= <-].
Qed.

Lemma set_widths_footprint pandas df info max_width cols idx ws :
  (forall col, col ∈ cols -> col ∈ df) ->
  exists n : nat,
    ((fst (set_widths pandas (column_comment_dict df info) max_width df idx cols ws)
      = Return tt /\ n = length cols)
     \/ (exists e,
           fst (set_widths pandas (column_comment_dict df info) max_width df idx cols ws)
           = Raise e /\ (n < length cols)%nat))
    /\ forall k : nat,
         if decide (idx <= k < idx + n)%nat
         then exists col,
                cols !! (k - idx)%nat = Some col
                /\ snd (set_widths pandas (column_comment_dict df info) max_width df idx cols ws)
                     !! k
                   = Some (Z.min (Z.max (calculate_display_width (label col))
                                        (data_max_length col) + 2) max_width)
         else snd (set_widths pandas (column_comment_dict df info) max_width df idx cols ws)
                !! k = ws !! k.
Proof.
  revert idx ws. induction cols as [|c cols IH]; intros idx ws Hsub.
  - exists 0%nat. split; [left; by split|]. intros k. case_decide; [lia | reflexivity].
  - cbn [set_widths]. unfold bind.
    destruct (adjust_column pandas (column_comment_dict df info) max_width df idx c ws)
      as [[[]|e] ws1] eqn:Hstep.
    + apply adjust_column_sets in Hstep; [|apply Hsub; left]. subst ws1.
      destruct (IH (S idx) (<[idx := Z.min (Z.max (calculate_display_width (label c))
                                                (data_max_length c) + 2) max_width]> ws))
        as (n & Hres & Hk); [intros col Hcol; apply Hsub; by right|].
      exists (S n). split.
      * destruct Hres as [[Hr ->] | (e & Hr & Hn)]; [left; by split|].
        right. exists e. split; [exact Hr | cbn; lia].
      * intros k. destruct (decide (idx <= k < idx + S n)%nat) as [Hin|Hin];
          specialize (Hk k).
        -- destruct (decide (k = idx)) as [->|Hne].
           ++ exists c. rewrite Nat.sub_diag. split; [reflexivity|].
              rewrite set_widths_before by lia. apply lookup_insert_eq.
           ++ rewrite decide_True in Hk by lia. destruct Hk as (col & Hcol & Hw).
              exists col. split; [|exact Hw].
              replace (k - idx)%nat with (S (k - S idx)) by lia. exact Hcol.
        -- rewrite decide_False in Hk by lia. rewrite Hk. apply lookup_insert_ne. lia.
    + exists 0%nat. split; [right; exists e; split; [reflexivity | cbn; lia]|].
      intros k. case_decide; [lia|].
      destruct (adjust_column_cases pandas (column_comment_dict df info) max_width df idx c)
        as [[e' He'] | [w Hw]].
      * rewrite He' in Hstep. by injection Hstep as _ <-.
      * rewrite Hw in Hstep. discriminate.
Qed.

(** X4. [adjust_column_widths] sets the widths of the columns 1 to [n], each
    by the formula, for some [n] up to [len(df.columns)], and leaves every
    other entry of the sheet's column dimensions as it was; [n] is
    [len(df.columns)] when the call returns, and less when it raises. *)
Theorem adjust_column_widths_footprint
    (pandas : pandas_version) (worksheet : gmap nat Z) (df : dataframe)
    (columns_info : option (list column_info)) (max_width : Z) :
  exists n : nat,
    ((fst (adjust_column_widths pandas worksheet df columns_info max_width) = Return tt
      /\ n = length df)
     \/ (exists e,
           fst (adjust_column_widths pandas worksheet df columns_info max_width) = Raise e
           /\ (n < length df)%nat))
    /\ forall k : nat,
         if decide (1 <= k <= n)%nat
         then exists col,
                df !! pred k = Some col
                /\ snd (adjust_column_widths pandas worksheet df columns_info max_width) !! k
                   = Some (Z.min (Z.max (calculate_display_width (label col))
                                        (data_max_length col) + 2) max_width)
         else snd (adjust_column_widths pandas worksheet df columns_info max_width) !! k
              = worksheet !! k.
Proof.
  unfold adjust_column_widths.
  destruct (set_widths_footprint pandas df columns_info max_width df 1 worksheet)
    as (n & Hres & Hk); [done|].
  exists n. split; [exact Hres|]. intros k.
  destruct (decide (1 <= k <= n)%nat); specialize (Hk k).
  - rewrite decide_True in Hk by lia. destruct Hk as (col & Hcol & Hw).
    exists col. split; [|exact Hw]. by replace (pred k) with (k - 1)%nat by lia.
  - by rewrite decide_False in Hk by lia.
Qed.

(** X5. Adjusting the widths of a sheet twice, for the same dataset and
    cap, gives the same outcome and the same sheet as adjusting them once. *)
Theorem adjust_column_widths_idempotent
    (pandas : pandas_version) (worksheet : gmap nat Z) (df : dataframe)
    (columns_info : option (list column_info)) (max_width : Z) :
  adjust_column_widths pandas
    (snd (adjust_column_widths pandas worksheet df columns_info max_width))
    df columns_info max_width
  = adjust_column_widths pandas worksheet df columns_info max_width.
Proof.
  unfold adjust_column_widths.
  set (d := column_comment_dict df columns_info).
  assert (Hloop : forall cols idx ws,
            set_widths pandas d max_width df idx cols
              (snd (set_widths pandas d max_width df idx cols ws))
            = set_widths pandas d max_width df idx cols ws); [|apply Hloop].
  induction cols as [|c cols IH]; intros idx ws; [reflexivity|].
  cbn [set_widths]. unfold bind.
  destruct (adjust_column_cases pandas d max_width df idx c) as [[e He] | [w Hw]].
  - by rewrite !He.
  - rewrite !Hw.
    assert (<[idx := w]> (snd (set_widths pandas d max_width df (S idx) cols (<[idx := w]> ws)))
            = snd (set_widths pandas d max_width df (S idx) cols (<[idx := w]> ws))) as ->.
    { apply insert_id. rewrite set_widths_before by lia. apply lookup_insert_eq. }
    apply IH.
Qed.

Lemma data_max_length_nonneg col : 0 <= data_max_length col.
Proof.
  unfold data_max_length. destruct (cells col) as [|c cs]; cbn; [lia|].
  pose proof (series_max_upper (calculate_display_width c) (calculate_display_width <$> cs))
    as [H _].
  pose proof (calculate_display_width_nonneg c). lia.
Qed.

(** X6. In a dataset of distinct labels and at most 18278 columns, every
    column is at least [min(2, max_width)] wide, at least
    [min(header width + 2, max_width)], and at least
    [min(cell width + 2, max_width)] for each of its cells: no header or cell
    is cut unless the cap applies. *)
Theorem adjust_column_widths_lower_bound
    (pandas : pandas_version) (worksheet : gmap nat Z) (df : dataframe)
    (columns_info : option (list column_info)) (max_width : Z)
    (i : nat) (col : series) :
  NoDup (label <$> df) ->
  Z.of_nat (length df) <= 18278 ->
  df !! i = Some col ->
  exists w,
    snd (adjust_column_widths pandas worksheet df columns_info max_width) !! S i = Some w
    /\ Z.min 2 max_width <= w
    /\ Z.min (calculate_display_width (label col) + 2) max_width <= w
    /\ Forall (fun c => Z.min (calculate_display_width c + 2) max_width <= w) (cells col).
Proof.
  intros Hnd Hlen Hi.
  exists (Z.min (Z.max (calculate_display_width (label col)) (data_max_length col) + 2)
                max_width).
  split.
  - by apply adjust_column_widths_ok.
  - pose proof (calculate_display_width_nonneg (label col)).
    pose proof (data_max_length_nonneg col).
    split; [lia|]. split; [lia|].
    destruct (data_max_length_spec col) as [_ Hmax].
    destruct (cells col) as [|c cs] eqn:Hc; [constructor|].
    destruct Hmax as [Hall _]; [done|].
    eapply Forall_impl; [exact Hall|]. cbn. intros x Hx. lia.
Qed.




End MoreColumnWidths.

(** ** The connection manager, whitespace and the table description *)

Section MoreConnectionManager.
Import Py HiveConnection.

(** X7. With secrets that cannot be read, a [null] document, an empty or
    missing [hive] entry, or a missing or empty host, user name or password,
    the connection manager raises [ValueError] before it does anything with
    the server: no session is opened or closed and the caller's block does
    not run. Nothing is printed either, unless reading the secrets raised an
    [Exception], which [load_secrets] prints; an error that is not an
    [Exception] passes through, unprinted. *)
Theorem get_hive_connection_rejects_incomplete_secrets
    {A} (E : env) (body : conn -> result A) (f : frame) :
  validated E = false ->
  get_hive_connection E body f
  = match read_secrets E with
    | Return _ => (Raise ValueError, f)
    | Raise e =>
        if is_Exception e
        then (Raise ValueError,
              {| connection := connection f; events := events f ++ [PrintSecretsError e] |})
        else (Raise e, f)
    end.
Proof.
  unfold validated, get_hive_connection, load_secrets, try_except, bind, lift, ret, emit,
    modify, raise.
  destruct (read_secrets E) as [[secrets|]|e]; [|reflexivity|by destruct (is_Exception e)].
  cbn zeta. destruct (decide (default ∅ (secrets !! "hive"%string) = ∅)); [reflexivity|].
  intros ->. reflexivity.
Qed.

Example get_hive_connection_no_password :
  get_hive_connection MoreSamples.no_password (fun _ => Return tt) frame0
  = (Raise ValueError, frame0).
Proof. vm_compute. reflexivity. Qed.

(** X8. When the session opens, it is closed exactly once, and no other
    session is closed, whatever the caller's block does; the caller gets
    the outcome of its own block, unless closing the session raises, in
    which case it gets that error. *)
Theorem get_hive_connection_releases_session
    {A} (E : env) (body : conn -> result A) (c : conn) :
  validated E = true ->
  (forall host port username password,
     hive_Connection E host port username password = Return c) ->
  close_count c (events (snd (get_hive_connection E body frame0))) = 1%nat
  /\ (forall c', c' <> c ->
        close_count c' (events (snd (get_hive_connection E body frame0))) = 0%nat)
  /\ fst (get_hive_connection E body frame0)
     = match connection_close E c with
       | Some e => Raise e
       | None => body c
       end.
Proof.
  intros Hv Hopen.
  destruct (get_hive_connection_closes_once E body c Hv Hopen) as [Hone Hres].
  split; [exact Hone|]. split; [|exact Hres].
  intros c' Hne.
  destruct (get_hive_connection_validated E body Hv) as (h & p & u & w & Hrun). rewrite !Hrun.
  unfold try_finally, try_except, bind, lift, lift_unit, emit, assign_connection,
    read_connection, modify, raise, frame0. cbn.
  rewrite Hopen. cbn.
  destruct (body c) as [a|e]; cbn.
  - destruct (connection_close E c); cbn; by rewrite bool_decide_eq_false_2.
  - destruct (is_Exception e); cbn;
      destruct (connection_close E c); cbn; by rewrite bool_decide_eq_false_2.
Qed.

(** X9. An [Exception] raised by the caller's own block is printed with
    the message for a failed connection, before the session is closed; an
    error that is not an [Exception] is not printed. The closing message is
    printed only if closing succeeds. *)
Theorem get_hive_connection_reports_body_error
    {A} (E : env) (body : conn -> result A) (c : conn) (e : exn) :
  validated E = true ->
  (forall host port username password,
     hive_Connection E host port username password = Return c) ->
  body c = Raise e ->
  exists host port,
    events (snd (get_hive_connection E body frame0))
    = PrintConnecting host port
      :: (if is_Exception e then [PrintConnectError e] else [])
      ++ CallClose c
      :: match connection_close E c with
         | None => [PrintClosed]
         | Some _ => []
         end.
Proof.
  intros Hv Hopen Hbody.
  destruct (get_hive_connection_validated E body Hv) as (h & p & u & w & Hrun). rewrite !Hrun.
  exists h, p.
  unfold try_finally, try_except, bind, lift, lift_unit, emit, assign_connection,
    read_connection, modify, raise, frame0. cbn.
  rewrite Hopen. cbn. rewrite Hbody.
  destruct (is_Exception e); cbn; by destruct (connection_close E c).
Qed.

End MoreConnectionManager.

Section Strip.
Import Whitespace.

Example is_space_table :
  List.filter Whitespace.is_space (N.of_nat <$> seq 0 0x3100)
  = [0x9;0xa;0xb;0xc;0xd;0x1c;0x1d;0x1e;0x1f;0x20;0x85;0xa0;0x1680;0x2000;0x2001;
     0x2002;0x2003;0x2004;0x2005;0x2006;0x2007;0x2008;0x2009;0x200a;0x2028;0x2029;
     0x202f;0x205f;0x3000]%N.
Proof. vm_compute. reflexivity. Qed.

Example strip_example :
  strip (PyStr.lit "  id	 ") = PyStr.lit "id" /\ strip (PyStr.lit "   ") = [].
Proof. vm_compute. auto. Qed.

(** A string is trimmed when neither end is a whitespace character. *)
Lemma lstrip_head (s : PyStr.t) :
  match lstrip s with [] => True | c :: _ => is_space c = false end.
Proof.
  induction s as [|c s IH]; [done|]. cbn [lstrip].
  destruct (is_space c) eqn:Hc; [exact IH | exact Hc].
Qed.

Lemma lstrip_fixed (c : N) (s : PyStr.t) : is_space c = false -> lstrip (c :: s) = c :: s.
Proof. intros H. cbn [lstrip]. by rewrite H. Qed.

Lemma lstrip_app_keep (l : PyStr.t) (x : N) (r : PyStr.t) :
  is_space x = false -> lstrip (l ++ x :: r) = lstrip l ++ x :: r.
Proof.
  intros Hx. induction l as [|c l IH]; cbn [app lstrip].
  - by rewrite Hx.
  - destruct (is_space c); [exact IH | reflexivity].
Qed.

Lemma lstrip_idem (s : PyStr.t) : lstrip (lstrip s) = lstrip s.
Proof.
  pose proof (lstrip_head s) as H. destruct (lstrip s) as [|c t]; [reflexivity|].
  by apply lstrip_fixed.
Qed.

Lemma rstrip_keeps_head (c : N) (s : PyStr.t) :
  is_space c = false -> exists t, rstrip (c :: s) = c :: t.
Proof.
  intros Hc. unfold rstrip. rewrite reverse_cons.
  rewrite (lstrip_app_keep (reverse s) c [] Hc).
  rewrite reverse_app. cbn. eauto.
Qed.

Lemma strip_idem (s : PyStr.t) : strip (strip s) = strip s.
Proof.
  unfold strip.
  pose proof (lstrip_head s) as Hh. destruct (lstrip s) as [|c t] eqn:Hs.
  - reflexivity.
  - destruct (rstrip_keeps_head c t Hh) as [t' Ht']. rewrite Ht'.
    rewrite (lstrip_fixed c t' Hh). rewrite <- Ht'.
    unfold rstrip. rewrite reverse_involutive, lstrip_idem. reflexivity.
Qed.

End Strip.

Section Describe.
Import Py ExporterQueries.

Example describe_example :
  get_table_description
    (Return [ [Some (PyStr.lit "id "); Some (PyStr.lit "int"); Some (PyStr.lit " key ")];
              [Some (PyStr.lit "name"); Some (PyStr.lit "string"); None];
              [Some []; None] ])
  = Columns [ (PyStr.lit "id", PyStr.lit "int", PyStr.lit "key");
              (PyStr.lit "name", PyStr.lit "string", []);
              ([], [], []) ].
Proof. vm_compute. reflexivity. Qed.

Lemma text_of_trimmed (cell : option PyStr.t) :
  Whitespace.strip (text_of cell) = text_of cell.
Proof.
  destruct cell as [[|c s]|]; try reflexivity. cbn [text_of]. apply strip_idem.
Qed.

Lemma describe_row_trimmed (r : row) (col : ExcelUtils.column_info) :
  describe_row r = Some col ->
  Whitespace.strip col.1.1 = col.1.1
  /\ Whitespace.strip col.1.2 = col.1.2
  /\ Whitespace.strip col.2 = col.2.
Proof.
  destruct r as [|c0 [|c1 rest]]; try discriminate. intros [= <-]. cbn.
  split; [apply text_of_trimmed|]. split; [apply text_of_trimmed|].
  destruct rest; [reflexivity | apply text_of_trimmed].
Qed.

Lemma describe_rows_spec index rows acc :
  match list_find (fun r : row => (length r < 2)%nat) rows with
  | Some (i, _) => describe_rows index rows acc = RowTooShort (index + i)
  | None =>
      exists cols, describe_rows index rows acc = Columns (acc ++ cols)
                   /\ Forall2 (fun r col => describe_row r = Some col) rows cols
  end.
Proof.
  revert index acc. induction rows as [|r rows IH]; intros index acc.
  - cbn. exists []. by rewrite app_nil_r.
  - cbn [list_find describe_rows]. destruct (decide (length r < 2)%nat) as [Hshort|Hlong].
    + cbn. destruct r as [|c0 [|c1 rest]]; cbn in *; try lia;
        by rewrite Nat.add_0_r.
    + destruct r as [|c0 [|c1 rest]]; cbn in Hlong; try lia.
      cbn [describe_row]. specialize (IH (S index) (acc ++ [(text_of c0, text_of c1,
             match rest with c2 :: _ => text_of c2 | [] => [] end)])).
      destruct (list_find _ rows) as [[i x]|]; cbn.
      * transitivity (RowTooShort (S index + i)); [exact IH | f_equal; lia].
      * destruct IH as (cols & IH & Hall). eexists (_ :: cols).
        split; [|by constructor].
        etransitivity; [exact IH|]. by rewrite <- app_assoc.
Qed.

(** X10. When every row of the answer has at least two cells,
    [get_table_description] returns one (name, type, comment) triple per row,
    in order; each component is free of surrounding whitespace, and the
    comment is the empty string for a row of two cells or a NULL third
    cell. *)
Theorem get_table_description_columns (rows : list row) :
  Forall (fun r : row => (2 <= length r)%nat) rows ->
  exists cols,
    get_table_description (Return rows) = Columns cols
    /\ Forall2 (fun r col => describe_row r = Some col) rows cols
    /\ Forall (fun col : ExcelUtils.column_info =>
                 Whitespace.strip col.1.1 = col.1.1
                 /\ Whitespace.strip col.1.2 = col.1.2
                 /\ Whitespace.strip col.2 = col.2) cols
    /\ Forall2 (fun (r : row) (col : ExcelUtils.column_info) =>
                  (length r = 2%nat \/ r !! 2%nat = Some None) -> col.2 = []) rows cols.
Proof.
  intros Hrows. pose proof (describe_rows_spec 0 rows []) as H.
  destruct (list_find _ rows) as [[i r]|] eqn:Hfind.
  - apply list_find_Some in Hfind as (Hi & Hshort & _).
    rewrite Forall_forall in Hrows. apply list_elem_of_lookup_2 in Hi.
    specialize (Hrows r Hi). lia.
  - destruct H as (cols & Hcols & Hall). exists cols. cbn in Hcols.
    split; [exact Hcols|]. split; [exact Hall|]. split.
    + clear Hcols Hrows Hfind. induction Hall as [|r col rows cols Hrow _ IH]; constructor; [|exact IH].
      by apply describe_row_trimmed in Hrow.
    + clear Hcols Hrows Hfind. induction Hall as [|r col rows cols Hrow _ IH]; constructor; [|exact IH].
      destruct r as [|c0 [|c1 rest]]; try discriminate. injection Hrow as <-.
      cbn. intros [Hlen|Hnull].
      * destruct rest; [reflexivity | discriminate].
      * destruct rest as [|c2 rest]; [reflexivity|]. cbn in Hnull. by injection Hnull as ->.
Qed.

(** X11. The first row with fewer than two cells makes
    [get_table_description] fail with an index error at that row; the
    triples of the rows before it are lost. *)
Theorem get_table_description_short_row (rows : list row) (i : nat) (r : row) :
  rows !! i = Some r ->
  (length r < 2)%nat ->
  Forall (fun r : row => (2 <= length r)%nat) (take i rows) ->
  get_table_description (Return rows) = RowTooShort i.
Proof.
  intros Hi Hshort Hbefore. pose proof (describe_rows_spec 0 rows []) as H.
  destruct (list_find _ rows) as [[j x]|] eqn:Hfind.
  - cbn. rewrite H. f_equal. cbn.
    apply list_find_Some in Hfind as (Hj & Hx & Hmin).
    destruct (Nat.lt_trichotomy i j) as [Hlt|[->|Hgt]]; [|reflexivity|].
    + exfalso. apply (Hmin i r Hi Hlt). exact Hshort.
    + exfalso. rewrite Forall_forall in Hbefore.
      assert (x ∈ take i rows) as Hin.
      { apply list_elem_of_lookup. exists j. rewrite lookup_take_lt by lia. exact Hj. }
      specialize (Hbefore x Hin). lia.
  - exfalso. apply list_find_None in Hfind. rewrite Forall_forall in Hfind.
    apply (Hfind r); [by eapply list_elem_of_lookup_2 | exact Hshort].
Qed.

End Describe.

(** ** The exporter *)

Section MoreAllocator.
Import Py Exporter.

Lemma app_neq_self (b : PyStr.t) (x : N) (r : PyStr.t) : b ++ x :: r <> b.
Proof.
  intros H. assert (length (b ++ x :: r) = length b) as Hl by (by rewrite H).
  rewrite length_app in Hl. cbn in Hl. lia.
Qed.

(** X12. Names allocated for different base names can coincide: after two
    calls for [base], the name [base_2.xlsx] of the second is also the name a
    first call for the base name [base_2] gets. *)
Theorem get_unique_filename_collides_across_bases
    (dir : option (gset PyStr.t)) (base : PyStr.t) :
  base ++ PyStr.lit "_2" <> base
  /\ allocate [base; base; base ++ PyStr.lit "_2"] (init dir)
     = [ base ++ PyStr.lit ".xlsx";
         base ++ PyStr.lit "_2.xlsx";
         base ++ PyStr.lit "_2.xlsx" ].
Proof.
  assert (Hne : base ++ PyStr.lit "_2" <> base) by apply app_neq_self.
  split; [exact Hne|].
  cbn [allocate]. unfold get_unique_filename at 1. cbn.
  rewrite lookup_empty. cbn.
  unfold get_unique_filename at 1. cbn. rewrite lookup_insert_eq. cbn.
  unfold get_unique_filename at 1. cbn.
  rewrite lookup_insert_ne by (intros H; apply Hne; symmetry; exact H).
  rewrite lookup_insert_ne by (intros H; apply Hne; symmetry; exact H).
  rewrite lookup_empty. cbn.
  rewrite <- !app_assoc. reflexivity.
Qed.

End MoreAllocator.

Section MoreExportRun.
Import Py Exporter.

Lemma startswith_app (p r : PyStr.t) : PyStr.startswith (p ++ r) p = true.
Proof.
  induction p as [|c p IH]; [by destruct r|]. cbn.
  by rewrite bool_decide_eq_true_2, IH.
Qed.

Lemma endswith_app (r p : PyStr.t) : PyStr.endswith (r ++ p) p = true.
Proof. unfold PyStr.endswith. rewrite reverse_app. apply startswith_app. Qed.

Lemma valid_filename_clean (table_comment : PyStr.t) :
  let base := PyStr.or_else (sanitize_filename table_comment) placeholder in
  base <> [] /\ (length base <= 255)%nat /\ Forall (fun c => c ∉ Sanitize.illegal_chars) base.
Proof.
  cbn zeta. unfold PyStr.or_else, sanitize_filename.
  destruct (take 255 (Sanitize.strip_illegal table_comment)) as [|c rest] eqn:Hs.
  - split; [discriminate|]. split; [cbn; lia|].
    apply Forall_forall. intros x Hx. vm_compute in Hx.
    intros Hbad. unfold Sanitize.illegal_chars in Hbad.
    repeat (apply elem_of_cons in Hx as [->|Hx];
            [repeat (apply elem_of_cons in Hbad as [Hbad|Hbad]; [discriminate|]);
             by apply elem_of_nil in Hbad|]).
    by apply elem_of_nil in Hx.
  - rewrite <- Hs. split; [rewrite Hs; discriminate|].
    split; [rewrite length_take; lia|].
    apply truncate_clean, strip_illegal_clean.
Qed.

(** X13. The base of every file name the exporter allocates is not empty
    (an empty sanitized comment is replaced by the placeholder), has at most
    255 characters and none of the illegal ones; the name starts with that
    base and ends in [.xlsx], so it is at least five characters longer: the
    cut at 255 characters does not bound the file name itself. *)
Theorem export_file_name_shape (table_comment : PyStr.t) (s : state) :
  let base := PyStr.or_else (sanitize_filename table_comment) placeholder in
  exists name s1,
    get_unique_filename base s = (Return name, s1)
    /\ base <> []
    /\ (length base <= 255)%nat
    /\ Forall (fun c => c ∉ Sanitize.illegal_chars) base
    /\ PyStr.startswith name base = true
    /\ PyStr.endswith name xlsx = true
    /\ (length base + 5 <= length name)%nat.
Proof.
  intros base. destruct (valid_filename_clean table_comment) as (Hne & Hlen & Hclean).
  fold base in Hne, Hlen, Hclean.
  unfold get_unique_filename.
  destruct (existing_filenames s !! base) as [n|]; eexists _, _;
    (split; [reflexivity|]); repeat split; try assumption.
  - apply startswith_app.
  - rewrite !app_assoc. apply endswith_app.
  - rewrite !length_app. cbn. lia.
  - apply startswith_app.
  - apply endswith_app.
  - rewrite !length_app. cbn. lia.
Qed.

Lemma path_exists_save name f s :
  path_exists f s = true -> path_exists f (save_file name s) = true.
Proof.
  unfold path_exists, save_file. cbn. destruct (output_dir s) as [files|]; [|discriminate].
  cbn. intros H%bool_decide_eq_true. apply bool_decide_eq_true. set_solver.
Qed.

(** What [write_to_excel] does once the output directory is there. *)
Lemma write_to_excel_in_directory (t : table) (table_comment : PyStr.t) (s : state) :
  output_dir s <> None \/ os_makedirs t = None ->
  write_to_excel t table_comment s
  = (let valid_filename := PyStr.or_else (sanitize_filename table_comment) placeholder in
     let* unique_filename := get_unique_filename valid_filename in
     let* present := gets (path_exists unique_filename) in
     if present then ret tt
     else match excel_writer t with
          | Saved =>
              modify (fun s => add_written unique_filename (save_file unique_filename s))
          | WriteFails e leaves_file =>
              modify (fun s => if leaves_file then save_file unique_filename s else s) ;;;
              raise e
          end)
      (match output_dir s with None => set_output_dir (Some ∅) s | Some _ => s end).
Proof.
  intros Hdir. unfold write_to_excel. unfold bind at 1 2, gets at 1.
  destruct (output_dir s) as [files|] eqn:Hd; [reflexivity|].
  destruct Hdir as [Hdir | ->]; [done | reflexivity].
Qed.

(** X14. [write_to_excel] creates the output directory when it is absent.
    If creating it raises, that error leaves the call and nothing has
    changed. Otherwise the directory exists afterwards, no file is removed
    from it, and a workbook is saved only under a name that no file in the
    directory had: the call never overwrites. *)
Theorem write_to_excel_never_overwrites (t : table) (table_comment : PyStr.t) (s : state) :
  let r := fst (write_to_excel t table_comment s) in
  let s' := snd (write_to_excel t table_comment s) in
  match output_dir s, os_makedirs t with
  | None, Some e => r = Raise e /\ s' = s
  | _, _ =>
      output_dir s' <> None
      /\ (forall f, path_exists f s = true -> path_exists f s' = true)
      /\ (written s' = written s
          \/ exists f, written s' = written s ++ [f]
                       /\ path_exists f s = false /\ path_exists f s' = true
                       /\ r = Return tt)
  end.
Proof.
  cbn zeta.
  assert (Hmain : output_dir s <> None \/ os_makedirs t = None ->
            output_dir (snd (write_to_excel t table_comment s)) <> None
            /\ (forall f, path_exists f s = true ->
                          path_exists f (snd (write_to_excel t table_comment s)) = true)
            /\ (written (snd (write_to_excel t table_comment s)) = written s
                \/ exists f,
                     written (snd (write_to_excel t table_comment s)) = written s ++ [f]
                     /\ path_exists f s = false
                     /\ path_exists f (snd (write_to_excel t table_comment s)) = true
                     /\ fst (write_to_excel t table_comment s) = Return tt)).
  { intros Hdir. rewrite (write_to_excel_in_directory t table_comment s Hdir).
    cbn zeta. unfold bind, modify, gets, ret, raise.
    set (s0 := match output_dir s with None => set_output_dir (Some ∅) s | Some _ => s end).
    assert (Hs0 : forall f, path_exists f s0 = path_exists f s).
    { intros f. subst s0. unfold path_exists.
      destruct (output_dir s) eqn:Hd; [by rewrite Hd|].
      cbn. apply bool_decide_eq_false. set_solver. }
    assert (Hd0 : output_dir s0 <> None).
    { subst s0. destruct (output_dir s) eqn:Hd; [by rewrite Hd | discriminate]. }
    assert (Hw0 : written s0 = written s) by (subst s0; by destruct (output_dir s)).
    set (base := PyStr.or_else (sanitize_filename table_comment) placeholder).
    destruct (get_unique_filename base s0) as [[name|e] s1] eqn:Hname;
      [|unfold get_unique_filename in Hname;
        destruct (existing_filenames s0 !! base); discriminate].
    destruct (get_unique_filename_frame _ _ _ _ Hname) as (Ho & Hw & _ & _).
    assert (Hs1 : forall f, path_exists f s1 = path_exists f s).
    { intros f. rewrite <- Hs0. unfold path_exists. by rewrite Ho. }
    destruct (path_exists name s1) eqn:Hpresent; cbn.
    - split; [by rewrite Ho|]. split; [intros f; by rewrite Hs1|]. left. congruence.
    - destruct (excel_writer t) as [|e leaves_file]; cbn.
      + split; [discriminate|].
        split; [intros f Hf; apply path_exists_save; by rewrite Hs1|].
        right. exists name.
        split; [by rewrite Hw, Hw0|]. split; [by rewrite <- Hs1|].
        split; [|reflexivity].
        unfold path_exists. cbn. apply bool_decide_eq_true. set_solver.
      + split; [destruct leaves_file; [discriminate | by rewrite Ho]|].
        split.
        * intros f Hf. destruct leaves_file; [apply path_exists_save|]; by rewrite Hs1.
        * left. destruct leaves_file; cbn; congruence. }
  destruct (output_dir s) as [files|] eqn:Hd.
  - apply Hmain. by left.
  - destruct (os_makedirs t) as [e|] eqn:Hmk; [|apply Hmain; by right].
    unfold write_to_excel, bind, gets, lift_unit. rewrite Hd, Hmk. by split.
Qed.

Lemma write_to_excel_written (t : table) (table_comment : PyStr.t) (s : state) :
  written (snd (write_to_excel t table_comment s)) = written s
  \/ exists f, written (snd (write_to_excel t table_comment s)) = written s ++ [f]
               /\ fst (write_to_excel t table_comment s) = Return tt.
Proof.
  unfold write_to_excel, bind, modify, gets, ret, raise, lift_unit, get_unique_filename.
  destruct (output_dir s); [|destruct (os_makedirs t)]; cbn;
    repeat match goal with
           | |- context [existing_filenames ?x !! ?k] =>
               destruct (existing_filenames x !! k); cbn
           | |- context [path_exists ?n ?x] => destruct (path_exists n x); cbn
           | |- context [excel_writer t] => destruct (excel_writer t) as [|? []]; cbn
           end;
    first [by left | right; eexists; split; reflexivity].
Qed.

Lemma write_to_excel_frame (t : table) (table_comment : PyStr.t) (s : state) :
  exported_files (snd (write_to_excel t table_comment s)) = exported_files s
  /\ failed_tables (snd (write_to_excel t table_comment s)) = failed_tables s.
Proof.
  unfold write_to_excel, bind, modify, gets, ret, raise, lift_unit, get_unique_filename.
  destruct (output_dir s); [|destruct (os_makedirs t)]; cbn;
    repeat match goal with
           | |- context [existing_filenames ?x !! ?k] =>
               destruct (existing_filenames x !! k); cbn
           | |- context [path_exists ?n ?x] => destruct (path_exists n x); cbn
           | |- context [excel_writer t] => destruct (excel_writer t) as [|? []]; cbn
           end; done.
Qed.

Lemma get_table_comment_frame (t : table) (s : state) :
  exists r, get_table_comment t s = (r, s)
            /\ (forall e, r = Raise e -> is_Exception e = false).
Proof.
  unfold get_table_comment, try_except, bind, lift, ret.
  destruct (tblproperties t) as [[c|]|e]; cbn; try (eexists; split; [reflexivity | done]).
  destruct (is_Exception e) eqn:He; eexists; (split; [reflexivity|]); [done|].
  by intros ? [= <-].
Qed.

(** What one pass of the loop over the tables does to the counters. *)
Lemma export_table_step (t : table) (s : state) :
  (fst (export_table t s) = Return tt
   /\ ((exported_files (snd (export_table t s)) = S (exported_files s)
        /\ failed_tables (snd (export_table t s)) = failed_tables s
        /\ (written (snd (export_table t s)) = written s
            \/ exists f, written (snd (export_table t s)) = written s ++ [f]))
       \/ (exported_files (snd (export_table t s)) = exported_files s
           /\ failed_tables (snd (export_table t s)) = failed_tables s ++ [table_name t]
           /\ written (snd (export_table t s)) = written s)))
  \/ (exists e, fst (export_table t s) = Raise e /\ is_Exception e = false).
Proof.
  pose proof (write_to_excel_written t) as Hwrite.
  pose proof (write_to_excel_frame t) as Hframe.
  unfold export_table.
  set (W := write_to_excel t) in *. clearbody W.
  unfold try_except, bind.
  destruct (get_table_comment_frame t s) as (rc & -> & Hrc).
  destruct rc as [c|e0]; [|right; exists e0; rewrite (Hrc e0 eq_refl); by split].
  unfold lift at 1.
  destruct (describe t) as [cols|e1].
  2: { cbn. destruct (is_Exception e1) eqn:He1; cbn; [|right; eauto].
       left. split; [done|]. right. done. }
  unfold lift at 1.
  destruct (select_all t) as [df|e2].
  2: { cbn. destruct (is_Exception e2) eqn:He2; cbn; [|right; eauto].
       left. split; [done|]. right. done. }
  pose proof (Hwrite c s) as Hw.
  destruct (Hframe c s) as (Hexp & Hfail).
  cbn. destruct (W c s) as [[[]|e3] s3]; unfold modify; cbn in *.
  - left. split; [done|]. left. rewrite Hexp, Hfail. split; [done|]. split; [done|].
    destruct Hw as [Hw | (f & Hw & _)]; [by left | right; eauto].
  - destruct (is_Exception e3) eqn:He3; cbn; [|right; eauto].
    left. split; [done|]. right. rewrite Hexp, Hfail. split; [done|]. split; [done|].
    destruct Hw as [Hw | (f & _ & Hr)]; [done | discriminate].
Qed.

Lemma get_table_comment_value (t : table) (s : state) :
  get_table_comment t s
  = (match tblproperties t with
     | Return (Some c) => Return c
     | Return None => Return (table_name t)
     | Raise e => if is_Exception e then Return (table_name t) else Raise e
     end, s).
Proof.
  unfold get_table_comment, try_except, bind, lift, ret.
  destruct (tblproperties t) as [[c|]|e]; cbn; try reflexivity.
  by destruct (is_Exception e).
Qed.

(** X15. A table whose description or whose data cannot be fetched,
    because the query raises an [Exception], is recorded as failed and nothing
    else changes: no file name is allocated, nothing is written, the count of
    exported files stays, and the loop goes on. *)
Theorem export_table_isolates_failures (t : table) (s : state) (e : exn) :
  (forall e0, tblproperties t = Raise e0 -> is_Exception e0 = true) ->
  is_Exception e = true ->
  describe t = Raise e
  \/ (exists cols, describe t = Return cols /\ select_all t = Raise e) ->
  export_table t s = (Return tt, append_failed (table_name t) s).
Proof.
  intros Hcomment He Hfail.
  unfold export_table, try_except at 1, bind.
  rewrite get_table_comment_value.
  assert (exists c, match tblproperties t with
                    | Return (Some c) => Return c
                    | Return None => Return (table_name t)
                    | Raise e => if is_Exception e then Return (table_name t) else Raise e
                    end = Return c) as [c ->].
  { destruct (tblproperties t) as [[c|]|e0]; eauto.
    rewrite (Hcomment e0 eq_refl). eauto. }
  unfold lift. destruct Hfail as [-> | (cols & -> & ->)]; cbn; by rewrite He.
Qed.

(** X29. When the output directory is absent and cannot be created,
    because [os.makedirs] raises an [Exception], a table that was queried
    successfully is recorded as failed and nothing else changes: no file
    name is allocated, nothing is written, the directory is still absent,
    and the loop goes on. *)
Theorem export_table_makedirs_failure
    (t : table) (s : state) (e : exn)
    (cols : list ExcelUtils.column_info) (df : ExcelUtils.dataframe) :
  (forall e0, tblproperties t = Raise e0 -> is_Exception e0 = true) ->
  describe t = Return cols ->
  select_all t = Return df ->
  output_dir s = None ->
  os_makedirs t = Some e ->
  is_Exception e = true ->
  export_table t s = (Return tt, append_failed (table_name t) s)
  /\ output_dir (append_failed (table_name t) s) = None
  /\ existing_filenames (append_failed (table_name t) s) = existing_filenames s.
Proof.
  intros Hcomment Hd Hf Hdir Hmk He.
  split; [|by split].
  unfold export_table, try_except at 1, bind.
  rewrite get_table_comment_value.
  assert (exists c, match tblproperties t with
                    | Return (Some c) => Return c
                    | Return None => Return (table_name t)
                    | Raise e => if is_Exception e then Return (table_name t) else Raise e
                    end = Return c) as [c ->].
  { destruct (tblproperties t) as [[c|]|e0]; eauto.
    rewrite (Hcomment e0 eq_refl). eauto. }
  unfold lift. rewrite Hd, Hf. cbn beta iota.
  unfold write_to_excel, bind, gets, lift_unit. rewrite Hdir, Hmk. cbn beta iota.
  by rewrite He.
Qed.

(** X16. A comment lookup that raises an [Exception] does not fail the
    table: the table is exported exactly as a table without comment is,
    under its own name. *)
Theorem export_table_comment_fallback (t : table) (s : state) (e : exn) :
  tblproperties t = Raise e ->
  is_Exception e = true ->
  export_table t s
  = export_table {| table_name := table_name t;
                    tblproperties := Return None;
                    describe := describe t;
                    select_all := select_all t;
                    os_makedirs := os_makedirs t;
                    excel_writer := excel_writer t |} s.
Proof.
  intros Ht He. unfold export_table.
  set (W := write_to_excel t).
  assert (write_to_excel {| table_name := table_name t; tblproperties := Return None;
                            describe := describe t; select_all := select_all t;
                            os_makedirs := os_makedirs t;
                            excel_writer := excel_writer t |} = W) as -> by reflexivity.
  clearbody W. unfold try_except at 1 2, bind.
  rewrite !get_table_comment_value. cbn [tblproperties table_name describe select_all].
  rewrite Ht, He. reflexivity.
Qed.

Lemma for_each_export_accounting (tables : list table) (s s' : state) :
  for_each tables export_table s = (Return tt, s') ->
  (exported_files s' + length (failed_tables s')
   = exported_files s + length (failed_tables s) + length tables)%nat
  /\ (exists fl, failed_tables s' = failed_tables s ++ fl
                 /\ fl `sublist_of` (table_name <$> tables))
  /\ (exists wl, written s' = written s ++ wl
                 /\ (length wl + exported_files s <= exported_files s')%nat).
Proof.
  revert s. induction tables as [|t tables IH]; intros s.
  - cbn. intros [= <-]. split; [lia|].
    split; exists []; rewrite app_nil_r; (split; [done|]); [constructor | cbn; lia].
  - cbn [for_each]. unfold bind.
    pose proof (export_table_step t s) as Hstep.
    destruct (export_table t s) as [[[]|e] s1]; cbn in Hstep; [|discriminate].
    intros Hrest. apply IH in Hrest as (Hcount & (fl & Hfl & Hsub) & (wl & Hwl & Hlen)).
    destruct Hstep as [[_ Hstep] | (e & [=] & _)].
    destruct Hstep as [(Hexp & Hfail & Hw) | (Hexp & Hfail & Hw)].
    + rewrite Hexp, Hfail in *. split; [cbn; lia|]. split.
      * exists fl. split; [done|]. cbn. by apply sublist_cons.
      * destruct Hw as [Hw | (f & Hw)]; rewrite Hw in Hwl.
        -- exists wl. split; [done | lia].
        -- exists (f :: wl). split; [by rewrite Hwl, <- app_assoc | cbn; lia].
    + rewrite Hexp, Hfail, Hw in *. split; [rewrite length_app in Hcount; cbn in *; lia|].
      split.
      * exists (table_name t :: fl). split; [by rewrite Hfl, <- app_assoc|].
        cbn. by apply sublist_skip.
      * exists wl. split; [done | lia].
Qed.

(** X17. When the loop over the tables ends normally, every table has
    been counted exactly once, as exported or as failed; the failed tables
    are listed in the order of discovery, and no more workbooks were saved
    than tables were counted as exported. *)
Theorem export_block_accounting (tables : list table) (s s' : state) :
  export_block (Return tables) s = (Return tt, s') ->
  (exported_files s' + length (failed_tables s')
   = exported_files s + length (failed_tables s) + length tables)%nat
  /\ (exists fl, failed_tables s' = failed_tables s ++ fl
                 /\ fl `sublist_of` (table_name <$> tables))
  /\ (exists wl, written s' = written s ++ wl
                 /\ (length wl + exported_files s <= exported_files s')%nat).
Proof.
  intros Hrun. apply for_each_export_accounting.
  unfold export_block, try_except, bind, lift, raise in Hrun.
  destruct tables as [|t tables]; [discriminate|].
  destruct (for_each (t :: tables) export_table s) as [[[]|e] s1]; [exact Hrun|].
  by destruct (is_Exception e).
Qed.

(** X18. With no table discovered, the block raises [ValueError] and
    leaves the exporter as it was; [export] passes that error on (or the one
    raised by closing the session) after the session was closed once. *)
Theorem export_without_tables
    (E : HiveConnection.env) (s0 : state) (c : HiveConnection.conn) :
  HiveConnection.validated E = true ->
  (forall host port username password,
     HiveConnection.hive_Connection E host port username password = Return c) ->
  export_block (Return []) s0 = (Raise ValueError, s0)
  /\ fst (export E (Return []) s0)
     = match HiveConnection.connection_close E c with
       | Some e => Raise e
       | None => Raise ValueError
       end
  /\ HiveConnection.close_count c
       (HiveConnection.events (snd (export E (Return []) s0))) = 1%nat.
Proof.
  intros Hv Hopen. split; [reflexivity|].
  unfold export.
  destruct (get_hive_connection_closes_once E
              (fun _ => match export_block (Return []) s0 with
                        | (Return _, s) => Return s
                        | (Raise e, _) => Raise e
                        end) c Hv Hopen) as (Hclose & Hres).
  split; [|exact Hclose]. rewrite Hres. reflexivity.
Qed.

End MoreExportRun.

Section EntryPoint.
Import Py ExporterQueries.

(** X19. [test_exporter] hides a failed connection from its caller: when
    opening the session fails, whatever the error, it returns normally. *)
Theorem test_exporter_swallows_open_failure
    (E : HiveConnection.env) (show_tables : result (list Exporter.table))
    (s0 : Exporter.state) (e : exn) :
  HiveConnection.validated E = true ->
  (forall host port username password,
     HiveConnection.hive_Connection E host port username password = Raise e) ->
  fst (test_exporter E show_tables s0) = Return None.
Proof.
  intros Hv Hopen. unfold test_exporter, Exporter.export.
  destruct (get_hive_connection_validated E
              (fun _ => match Exporter.export_block show_tables s0 with
                        | (Return _, s) => Return s
                        | (Raise e, _) => Raise e
                        end) Hv) as (h & p & u & w & Hrun). rewrite !Hrun.
  unfold try_finally, try_except, bind, lift, lift_unit, HiveConnection.emit,
    HiveConnection.assign_connection, HiveConnection.read_connection, modify, raise,
    HiveConnection.frame0.
  cbn. rewrite Hopen. cbn. by destruct (is_Exception e).
Qed.

(** It never raises an [Exception] at all. *)
Lemma test_exporter_never_raises_exception
    (E : HiveConnection.env) (show_tables : result (list Exporter.table))
    (s0 : Exporter.state) (e : exn) :
  fst (test_exporter E show_tables s0) = Raise e -> is_Exception e = false.
Proof.
  unfold test_exporter.
  destruct (Exporter.export E show_tables s0) as [[s|e'] f]; [discriminate|].
  destruct (is_Exception e') eqn:He; [discriminate|]. by intros [= <-].
Qed.

End EntryPoint.

(** ** The merger: which files it touches *)

Section Emits.
Import Py MergeExcel MergeTrace.

Lemma emits_pure {A} (P : effect -> Prop) (m : M state A) :
  (forall s, effects (snd (m s)) = effects s) -> emits P m.
Proof. intros Hm s. exists []. rewrite Hm, app_nil_r. by split. Qed.

Lemma emits_ret {A} P (a : A) : emits P (ret a).
Proof. by apply emits_pure. Qed.

Lemma emits_raise {A} P (e : exn) : emits P (raise (A:=A) e).
Proof. by apply emits_pure. Qed.

Lemma emits_lift {A} P (r : result A) : emits P (lift r).
Proof. by apply emits_pure. Qed.

Lemma emits_lift_unit P (r : option exn) : emits P (lift_unit r).
Proof. apply emits_pure. intros s. by destruct r. Qed.

Lemma emits_gets {A} P (f : state -> A) : emits P (gets f).
Proof. by apply emits_pure. Qed.

Lemma emits_set_existing P names : emits P (set_existing_sheet_names names).
Proof. by apply emits_pure. Qed.

Lemma emits_add_output_file P f : emits P (add_output_file f).
Proof. by apply emits_pure. Qed.

Lemma emits_emit (P : effect -> Prop) (e : effect) : P e -> emits P (emit e).
Proof. intros He s. exists [e]. split; [reflexivity | by constructor]. Qed.

Lemma emits_weaken {A} (P Q : effect -> Prop) (m : M state A) :
  (forall e, P e -> Q e) -> emits P m -> emits Q m.
Proof.
  intros HPQ Hm s. destruct (Hm s) as (evs & Heff & Hall). exists evs.
  split; [exact Heff|]. eapply Forall_impl; [exact Hall | exact HPQ].
Qed.

Lemma emits_seq {A B} P (m : M state A) (k : result A -> M state B) (f : M state B) :
  emits P m -> (forall r, emits P (k r)) ->
  (forall s, f s = let '(r, s') := m s in k r s') ->
  emits P f.
Proof.
  intros Hm Hk Hf s. rewrite Hf. destruct (Hm s) as (evs1 & Heff1 & Hall1).
  destruct (m s) as [r s1]. cbn in Heff1.
  destruct (Hk r s1) as (evs2 & Heff2 & Hall2). exists (evs1 ++ evs2).
  split; [by rewrite Heff2, Heff1, app_assoc | by apply Forall_app].
Qed.

Lemma emits_bind {A B} P (m : M state A) (k : A -> M state B) :
  emits P m -> (forall a, emits P (k a)) -> emits P (bind m k).
Proof.
  intros Hm Hk.
  apply (emits_seq P m (fun r => match r with Return a => k a | Raise e => raise e end));
    [exact Hm | | ].
  - intros [a|e]; [apply Hk | apply emits_raise].
  - intros s. unfold bind. by destruct (m s) as [[a|e] s'].
Qed.

Lemma emits_try_except {A} P (body : M state A) (handler : exn -> M state A) :
  emits P body -> (forall e, emits P (handler e)) -> emits P (try_except body handler).
Proof.
  intros Hm Hk.
  apply (emits_seq P body
           (fun r => match r with
                     | Return a => ret a
                     | Raise e => if is_Exception e then handler e else raise e
                     end)); [exact Hm | | ].
  - intros [a|e]; [apply emits_ret|].
    destruct (is_Exception e); [apply Hk | apply emits_raise].
  - intros s. unfold try_except. destruct (body s) as [[a|e] s']; [reflexivity|].
    by destruct (is_Exception e).
Qed.

Lemma emits_try_finally {A} P (body : M state A) (cleanup : M state unit) :
  emits P body -> emits P cleanup -> emits P (try_finally body cleanup).
Proof.
  intros Hm Hc.
  apply (emits_seq P body
           (fun r s1 => match cleanup s1 with
                        | (Return _, s2) => (r, s2)
                        | (Raise e, s2) => (Raise e, s2)
                        end)); [exact Hm | | ].
  - intros r s1. destruct (Hc s1) as (evs & Heff & Hall). exists evs.
    split; [|exact Hall]. by destruct (cleanup s1) as [[[]|e] s2].
  - intros s. unfold try_finally. by destruct (body s).
Qed.

Lemma emits_bind_lift {A B} P (r : result A) (k : A -> M state B) :
  (forall a, r = Return a -> emits P (k a)) -> emits P (bind (lift r) k).
Proof.
  intros Hk s. unfold bind, lift. destruct r as [a|e]; [by apply Hk|].
  exists []. by rewrite app_nil_r.
Qed.

Lemma emits_for_each {A} P (xs : list A) (body : A -> M state unit) :
  (forall x, x ∈ xs -> emits P (body x)) -> emits P (for_each xs body).
Proof.
  induction xs as [|x xs IH]; intros Hbody; cbn [for_each].
  - apply emits_ret.
  - apply emits_bind; [apply Hbody; left|]. intros _. apply IH.
    intros y Hy. apply Hbody. by right.
Qed.

End Emits.

Section MergeEffects.
Import Py MergeExcel MergeTrace MergeFiles.

Lemma merge_sheet_emits E a output_file excel_file excel_data sheet_idx :
  emits sheet_effect (merge_sheet E a output_file excel_file excel_data sheet_idx).
Proof.
  unfold merge_sheet. cbn zeta.
  destruct (Z.of_nat (length excel_data) <? sheet_idx); [apply emits_ret|].
  destruct (excel_data !! Z.to_nat (sheet_idx - 1)) as [[name df]|]; [|apply emits_ret].
  apply emits_bind; [apply emits_gets|]. intros existing.
  apply emits_bind; [apply emits_set_existing|]. intros _.
  apply emits_bind; [by apply emits_emit|]. intros _.
  apply emits_try_except; [|intros _; apply emits_ret].
  apply emits_bind; [by apply emits_emit | intros _; apply emits_lift_unit].
Qed.

Lemma merge_file_emits E a indices output_file excel_file :
  emits (source_effect_ok E a (fun f => f = excel_file))
    (merge_file E a indices output_file excel_file).
Proof.
  unfold merge_file.
  destruct (read_excel E excel_file) as [d|e] eqn:Hread.
  - apply emits_bind.
    + apply emits_try_except; [|intros _; apply emits_ret].
      apply emits_bind; [by apply emits_emit|]. intros _.
      apply emits_bind; [apply emits_lift | intros ?; apply emits_ret].
    + intros [excel_data|]; [|apply emits_ret].
      apply emits_bind.
      * apply emits_for_each. intros idx _.
        eapply emits_weaken; [|apply merge_sheet_emits]. by intros [].
      * intros _. destruct (delete_source a) eqn:Hdel; [|apply emits_ret].
        apply emits_try_except; [|intros _; apply emits_ret].
        apply emits_bind; [|intros _; apply emits_lift_unit].
        apply emits_emit. cbn. eauto.
  - (* the file cannot be read: only the attempt shows *)
    intros s. exists [ReadExcel excel_file].
    split; [|by repeat constructor].
    unfold bind, try_except, emit, modify, lift, ret. cbn.
    by destruct (is_Exception e).
Qed.

Lemma merge_group_emits E a indices (ok : PyStr.t -> Prop) group :
  (forall f, f ∈ group.2 -> ok f) ->
  emits (source_effect_ok E a ok) (merge_group E a indices group).
Proof.
  destruct group as [group_prefix files]. cbn [snd]. intros Hok. unfold merge_group.
  apply emits_bind; [apply emits_gets|]. intros present.
  apply emits_bind; [by apply emits_emit|]. intros _.
  apply emits_bind; [apply emits_lift_unit|]. intros _.
  apply emits_try_finally.
  - apply emits_bind; [apply emits_set_existing|]. intros _.
    apply emits_for_each. intros f Hf.
    eapply emits_weaken; [|apply merge_file_emits].
    intros [] He; cbn in *; try done.
    + subst. by apply Hok.
    + destruct He as (-> & ? & ?). split; [by apply Hok | done].
  - apply emits_bind; [by apply emits_emit|]. intros _.
    apply emits_bind; [apply emits_lift_unit | intros _; apply emits_add_output_file].
Qed.

Lemma filter_filter_andb {A} (f g : A -> bool) (l : list A) :
  List.filter g (List.filter f l) = List.filter (fun x => f x && g x) l.
Proof.
  induction l as [|x l IH]; [reflexivity|]. cbn.
  destruct (f x); cbn; [destruct (g x); by rewrite IH | exact IH].
Qed.

Lemma group_files_members (files : list PyStr.t) g f :
  g ∈ group_files_by_common_prefix files -> f ∈ g.2 -> f ∈ files.
Proof.
  destruct g as [k fs]. intros Hg Hf. cbn in Hf.
  destruct (group_files_inv files) as (_ & Hgroups & _).
  apply Hgroups in Hg as [_ ->]. apply list_elem_of_In, filter_In in Hf as [Hf _].
  by apply list_elem_of_In.
Qed.

(** The file effects of a whole call. *)
Lemma merge_excel_sheets_emits E a :
  emits (source_effect_ok E a
           (fun f => exists listing, listdir E = Return listing
                                     /\ f ∈ listing /\ selected a f = true))
    (merge_excel_sheets E a).
Proof.
  set (P := source_effect_ok E a _).
  unfold merge_excel_sheets.
  apply emits_bind; [apply emits_lift|]. intros indices.
  destruct (input_folder_exists E); cbn [negb]; [|apply emits_raise].
  apply emits_bind; [by apply emits_emit|]. intros _.
  apply emits_bind; [apply emits_lift_unit|]. intros _.
  apply emits_bind; [by apply emits_emit|]. intros _.
  apply emits_bind_lift. intros listing Hlist.
  cbn zeta.
  assert (Hexcel : forall f, f ∈ List.filter (fun f => PyStr.endswith f xlsx) listing ->
                             f ∈ listing /\ PyStr.endswith f xlsx = true).
  { intros f Hf. apply list_elem_of_In, filter_In in Hf as [Hf Hx].
    split; [by apply list_elem_of_In | exact Hx]. }
  destruct (List.filter (fun f => PyStr.endswith f xlsx) listing) as [|f0 fs0] eqn:Hfiles;
    [apply emits_ret|].
  destruct (fixed_prefix a) as [p|] eqn:Hp.
  - destruct (List.filter (fun f => PyStr.startswith f p) (f0 :: fs0)) as [|f fs] eqn:Hsel;
      [apply emits_ret|].
    apply emits_for_each. intros g ->%list_elem_of_singleton.
    apply merge_group_emits. cbn [snd]. intros f' Hf'. rewrite <- Hsel in Hf'.
    apply list_elem_of_In, filter_In in Hf' as [Hf' Hstart].
    apply list_elem_of_In, Hexcel in Hf' as [Hin Hx].
    exists listing. split; [done|]. split; [done|].
    unfold selected. by rewrite Hx, Hp, Hstart.
  - apply emits_for_each. intros g Hg.
    apply merge_group_emits. intros f Hf.
    assert (f ∈ f0 :: fs0) as Hin.
    { destruct (group_files_by_common_prefix (f0 :: fs0)) as [|g0 gs] eqn:Hgroups.
      - apply list_elem_of_singleton in Hg as ->. exact Hf.
      - rewrite <- Hgroups in Hg. by eapply group_files_members. }
    apply Hexcel in Hin as [Hin Hx].
    exists listing. split; [done|]. split; [done|].
    unfold selected. by rewrite Hx, Hp.
Qed.

(** X20. The merger reads only files of the listing of the input folder
    that end in [.xlsx] and, with a fixed prefix, start with it. *)
Theorem merge_excel_sheets_reads_only_selected (E : env) (a : args) (s : state) :
  exists evs,
    effects (snd (merge_excel_sheets E a s)) = effects s ++ evs
    /\ forall f, ReadExcel f ∈ evs ->
         exists listing, listdir E = Return listing
                         /\ f ∈ listing /\ selected a f = true.
Proof.
  destruct (merge_excel_sheets_emits E a s) as (evs & Heff & Hall).
  exists evs. split; [exact Heff|]. intros f Hf.
  rewrite Forall_forall in Hall. exact (Hall _ Hf).
Qed.

(** X21. The merger removes a file only when [delete_source] is set, the
    file is one of the selected files of the listing, and reading it
    succeeded; in particular it removes nothing when [delete_source] is
    off. *)
Theorem merge_excel_sheets_removes_only_read_sources (E : env) (a : args) (s : state) :
  exists evs,
    effects (snd (merge_excel_sheets E a s)) = effects s ++ evs
    /\ forall f, Remove f ∈ evs ->
         delete_source a = true
         /\ (exists d, read_excel E f = Return d)
         /\ (exists listing, listdir E = Return listing
                             /\ f ∈ listing /\ selected a f = true).
Proof.
  destruct (merge_excel_sheets_emits E a s) as (evs & Heff & Hall).
  exists evs. split; [exact Heff|]. intros f Hf.
  rewrite Forall_forall in Hall. destruct (Hall _ Hf) as (Hok & Hdel & Hread). auto.
Qed.

(** X22. A workbook that cannot be read is skipped altogether: no sheet
    name is issued for it, nothing is written, and it is not removed, also
    when [delete_source] is set. *)
Theorem merge_file_skips_unreadable
    (E : env) (a : args) (indices : list Z) (output_file excel_file : PyStr.t)
    (s : state) (e : exn) :
  read_excel E excel_file = Raise e ->
  is_Exception e = true ->
  merge_file E a indices output_file excel_file s
  = (Return tt, advance s (existing_sheet_names s) [ReadExcel excel_file]).
Proof.
  intros Hread He. unfold merge_file, bind, try_except, emit, modify, lift, ret.
  rewrite Hread. cbn. rewrite He. reflexivity.
Qed.

(** X23. When no file of the listing is selected (none ends in [.xlsx],
    or none of those starts with the fixed prefix), the call returns normally
    after creating the output folder and listing the input folder: no
    workbook is opened, read, written or removed. *)
Theorem merge_excel_sheets_nothing_selected
    (E : env) (a : args) (s : state) (indices : list Z) (listing : list PyStr.t) :
  validate_indices (source_sheet_indices a) = Return indices ->
  input_folder_exists E = true ->
  makedirs E = None ->
  listdir E = Return listing ->
  Forall (fun f => selected a f = false) listing ->
  merge_excel_sheets E a s
  = (Return tt, advance s (existing_sheet_names s) [Makedirs; Listdir]).
Proof.
  intros Hv Hin Hmk Hls Hnone.
  assert (Hsel : List.filter (selected a) listing = []).
  { clear -Hnone. induction Hnone as [|f l Hf _ IH]; [reflexivity|].
    cbn. by rewrite Hf. }
  unfold merge_excel_sheets, bind, lift, lift_unit, emit, modify, ret.
  rewrite Hv, Hin, Hmk, Hls. cbn [negb].
  unfold advance. cbn [effects output_files existing_sheet_names].
  rewrite <- app_assoc. cbn [app].
  destruct (List.filter (fun f => PyStr.endswith f xlsx) listing) as [|f0 fs0] eqn:Hfiles;
    [reflexivity|].
  unfold selected in Hsel. destruct (fixed_prefix a) as [p|].
  - rewrite <- Hfiles, filter_filter_andb, Hsel. reflexivity.
  - exfalso. assert (List.filter (fun f => PyStr.endswith f xlsx) listing = []) as Hnil.
    { rewrite <- Hsel. clear. induction listing as [|f l IH]; [reflexivity|].
      cbn [List.filter]. rewrite andb_true_r.
      destruct (PyStr.endswith f xlsx); by rewrite IH. }
    congruence.
Qed.

Lemma merge_sheets_run E a output_file excel_file (excel_data : workbook)
    (indices : list Z) (s : state) :
  Forall (fun i => 1 <= i) indices ->
  (forall n e, to_excel E output_file n = Some e -> is_Exception e = true) ->
  exists evs s',
    for_each indices (merge_sheet E a output_file excel_file excel_data) s = (Return tt, s')
    /\ effects s' = effects s ++ evs
    /\ Forall sheet_effect evs
    /\ length (sheet_names_of evs)
       = length (List.filter (fun i => i <=? Z.of_nat (length excel_data)) indices).
Proof.
  intros Hidx Hwrite. revert s. induction Hidx as [|i indices Hi _ IH]; intros s.
  - exists [], s. cbn. rewrite app_nil_r. repeat split; constructor.
  - assert (Hstep : exists evs s1,
               merge_sheet E a output_file excel_file excel_data i s = (Return tt, s1)
               /\ effects s1 = effects s ++ evs
               /\ Forall sheet_effect evs
               /\ length (sheet_names_of evs)
                  = if i <=? Z.of_nat (length excel_data) then 1%nat else 0%nat).
    { unfold merge_sheet. cbn zeta.
      destruct (Z.ltb_spec (Z.of_nat (length excel_data)) i) as [Hout|Hin].
      - exists [], s. rewrite app_nil_r.
        assert ((i <=? Z.of_nat (length excel_data)) = false) as -> by lia.
        repeat split; constructor.
      - assert ((i <=? Z.of_nat (length excel_data)) = true) as -> by lia.
        destruct (excel_data !! Z.to_nat (i - 1)) as [[name df]|] eqn:Hsheet;
          [|apply lookup_ge_None in Hsheet; lia].
        unfold bind, gets, set_existing_sheet_names, emit, modify, try_except, lift_unit, ret.
        cbn.
        match goal with
        | |- context [to_excel E output_file ?n] =>
            pose proof (Hwrite n) as Hn; destruct (to_excel E output_file n) as [e|]
        end.
        + rewrite (Hn e eq_refl). eexists [_; _], _. split; [reflexivity|].
          cbn. rewrite <- !app_assoc. repeat split; repeat constructor.
        + eexists [_; _], _. split; [reflexivity|].
          cbn. rewrite <- !app_assoc. repeat split; repeat constructor. }
    destruct Hstep as (evs1 & s1 & Hrun1 & Heff1 & Hall1 & Hlen1).
    destruct (IH s1) as (evs2 & s2 & Hrun2 & Heff2 & Hall2 & Hlen2).
    exists (evs1 ++ evs2), s2. cbn [for_each]. unfold bind. rewrite Hrun1, Hrun2.
    split; [reflexivity|]. split; [by rewrite Heff2, Heff1, app_assoc|].
    split; [by apply Forall_app|].
    rewrite sheet_names_of_app, length_app, Hlen1, Hlen2. cbn [List.filter].
    by destruct (i <=? Z.of_nat (length excel_data)).
Qed.

(** X24. For a workbook that can be read, one sheet name is issued per
    requested index that the workbook has, the others are skipped, and with
    [delete_source] the file is removed after its sheets, once, even when
    every write failed. *)
Theorem merge_file_readable
    (E : env) (a : args) (indices : list Z) (output_file excel_file : PyStr.t)
    (excel_data : workbook) (s : state) :
  read_excel E excel_file = Return excel_data ->
  Forall (fun i => 1 <= i) indices ->
  (forall n e, to_excel E output_file n = Some e -> is_Exception e = true) ->
  exists evs,
    effects (snd (merge_file E a indices output_file excel_file s))
    = effects s ++ ReadExcel excel_file :: evs
        ++ (if delete_source a then [Remove excel_file] else [])
    /\ Forall sheet_effect evs
    /\ length (sheet_names_of evs)
       = length (List.filter (fun i => i <=? Z.of_nat (length excel_data)) indices).
Proof.
  intros Hread Hidx Hwrite. unfold merge_file.
  unfold bind at 1, try_except at 1, bind at 1, emit at 1, modify at 1, bind at 1, lift, ret.
  rewrite Hread. cbn beta iota zeta.
  set (s0 := {| output_files := output_files s;
                existing_sheet_names := existing_sheet_names s;
                effects := effects s ++ [ReadExcel excel_file] |}).
  destruct (merge_sheets_run E a output_file excel_file excel_data indices s0 Hidx Hwrite)
    as (evs & s1 & Hrun & Heff & Hall & Hlen).
  exists evs. split; [|by split].
  unfold bind. rewrite Hrun. subst s0. cbn in Heff.
  destruct (delete_source a).
  - unfold try_except, emit, modify, lift_unit. cbn.
    destruct (remove E excel_file) as [e|]; cbn;
      [destruct (is_Exception e)|]; cbn; rewrite Heff, <- !app_assoc; reflexivity.
  - cbn. rewrite Heff, app_nil_r, <- app_assoc. reflexivity.
Qed.

(** X25. The first effect of a group is to open its output workbook, under
    a name that no file in the output folder has: the sanitized prefix with
    [.xlsx] when that is free, a numbered name otherwise. No existing output
    file is overwritten. *)
Theorem merge_group_opens_new_file
    (E : env) (a : args) (indices : list Z) (group : PyStr.t * list PyStr.t) (s : state) :
  exists rest,
    effects (snd (merge_group E a indices group s))
    = effects s ++ OpenWriter (generate_output_filename (output_files s) group.1) :: rest
    /\ generate_output_filename (output_files s) group.1 ∉ output_files s
    /\ (PyStr.or_else (sanitize_filename group.1) merged_result ++ xlsx ∉ output_files s ->
        generate_output_filename (output_files s) group.1
        = PyStr.or_else (sanitize_filename group.1) merged_result ++ xlsx).
Proof.
  destruct group as [group_prefix files]. cbn [fst].
  destruct (generate_output_filename_returns (output_files s) group_prefix) as [Hret Hfresh].
  assert (Hrest : exists rest,
            effects (snd (merge_group E a indices (group_prefix, files) s))
            = effects s
                ++ OpenWriter (generate_output_filename (output_files s) group_prefix) :: rest).
  { set (output_file := generate_output_filename (output_files s) group_prefix).
    assert (Hm : emits (fun _ => True)
                   (lift_unit (open_writer E output_file) ;;;
                    try_finally
                      (set_existing_sheet_names ∅ ;;;
                       for_each files (merge_file E a indices output_file))
                      (emit (CloseWriter output_file) ;;;
                       lift_unit (close_writer E output_file) ;;;
                       add_output_file output_file))).
    { apply emits_bind; [apply emits_lift_unit|]. intros _. apply emits_try_finally.
      - apply emits_bind; [apply emits_set_existing|]. intros _.
        apply emits_for_each. intros f _.
        eapply emits_weaken; [|apply merge_file_emits]. done.
      - apply emits_bind; [by apply emits_emit|]. intros _.
        apply emits_bind; [apply emits_lift_unit | intros _; apply emits_add_output_file]. }
    destruct (Hm {| output_files := output_files s;
                    existing_sheet_names := existing_sheet_names s;
                    effects := effects s ++ [OpenWriter output_file] |})
      as (rest & Heff & _).
    exists rest. unfold merge_group. unfold bind at 1, gets at 1, bind at 1, emit at 1,
      modify at 1. fold output_file. cbn beta iota.
    etransitivity; [exact Heff|]. cbn. by rewrite <- app_assoc. }
  destruct Hrest as [rest Hrest]. exists rest. split; [exact Hrest|].
  split; [exact Hfresh|].
  intros Hfree. unfold generate_output_filename, generate_output_filename_fuel. cbn zeta.
  by rewrite decide_False.
Qed.

End MergeEffects.

Section GroupKeys.
Import MergeExcel.

Lemma span_prefix_split (file : PyStr.t) :
  file = (span_prefix file).1 ++ (span_prefix file).2
  /\ PyStr.underscore ∉ (span_prefix file).1.
Proof.
  induction file as [|c rest [IH1 IH2]]; cbn.
  - split; [reflexivity | apply not_elem_of_nil].
  - case_bool_decide as Hc; cbn; [split; [reflexivity | apply not_elem_of_nil]|].
    destruct (span_prefix rest) as [run tail]. cbn in *.
    split; [by rewrite <- IH1|]. intros [?|?]%elem_of_cons; [congruence | contradiction].
Qed.

(** X26. Every file of a group is one of the input files. The key of its
    group is the catch-all key, for a file that the pattern does not match,
    or a non-empty run of characters other than the underscore followed by
    one underscore, and then the file name starts with the key. *)
Theorem group_key_shape (files : list PyStr.t) (k : PyStr.t) (fs : list PyStr.t)
    (file : PyStr.t) :
  (k, fs) ∈ group_files_by_common_prefix files ->
  file ∈ fs ->
  file ∈ files
  /\ ((k = no_prefix /\ re_match_prefix file = None)
      \/ (exists run, k = run ++ [PyStr.underscore] /\ run <> []
                      /\ PyStr.underscore ∉ run
                      /\ PyStr.startswith file k = true)).
Proof.
  intros Hg Hf.
  destruct (group_files_inv files) as (_ & Hgroups & _).
  apply Hgroups in Hg as [_ ->].
  apply list_elem_of_In, filter_In in Hf as [Hin Hk].
  apply bool_decide_eq_true in Hk. split; [by apply list_elem_of_In|].
  unfold prefix_of, re_match_prefix in *.
  destruct (span_prefix_split file) as [Hsplit Hrun].
  pose proof (span_prefix_tail file) as Htail.
  destruct (span_prefix file) as [run tail]. cbn in *.
  destruct run as [|c run]; [left; by destruct tail|].
  destruct tail as [|u tail]; [by left|].
  right. rewrite (Htail _ _ _ eq_refl) in *. exists (c :: run).
  split; [by rewrite <- Hk|]. split; [discriminate|]. split; [exact Hrun|].
  rewrite <- Hk, Hsplit.
  change ((c :: run) ++ PyStr.underscore :: tail)
    with ((c :: run) ++ [PyStr.underscore] ++ tail).
  rewrite app_assoc. apply startswith_app.
Qed.

End GroupKeys.

(** ** Column headers *)

Section Headers.
Import ExcelUtils ExporterQueries.

Lemma fold_insert_self_lookup {A} (key : A -> PyStr.t) (l : list A)
    (d : gmap PyStr.t PyStr.t) (k : PyStr.t) :
  is_Some (fold_left (fun d x => <[key x := key x]> d) l d !! k)
  <-> k ∈ key <$> l \/ is_Some (d !! k).
Proof.
  revert d. induction l as [|x l IH]; intros d; cbn [fold_left fmap list_fmap].
  - split; [by right | intros [[]%elem_of_nil | H]; exact H].
  - rewrite IH, lookup_insert. rewrite elem_of_cons. case_decide as Hk.
    + subst. split; [intros _; left; by left | intros _; right; by eexists].
    + split; [intros [H|H]; [left; by right | by right]
             |intros [[H|H]|H]; [congruence | by left | by right]].
Qed.

(** X27. The dict that [adjust_column_widths] builds from a non-empty
    [columns_info] has exactly the column names of [fetch_table_data] as keys
    (the comment of a column, or its name when it has no comment), each
    mapped to itself. *)
Theorem column_names_are_dict_keys
    (df : dataframe) (col : column_info) (columns : list column_info) (k : PyStr.t) :
  (is_Some (column_comment_dict df (Some (col :: columns)) !! k)
   <-> k ∈ column_names (col :: columns))
  /\ (forall v, column_comment_dict df (Some (col :: columns)) !! k = Some v -> v = k).
Proof.
  split.
  - unfold column_comment_dict, column_names.
    rewrite (fold_insert_self_lookup comment_or_name (col :: columns) ∅ k).
    rewrite lookup_empty. split; [intros [H|[? [=]]]; exact H | by left].
  - intros v. apply column_comment_dict_id.
Qed.

End Headers.

(** ** Instances *)

Section Instances.
Import Py.

Lemma adjust_column_widths_lower_bound_witness :
  NoDup (ExcelUtils.label <$>
           [ {| ExcelUtils.label := PyStr.lit "id"; ExcelUtils.cells := [PyStr.lit "12345"] |} ])
  /\ Z.of_nat (length [ {| ExcelUtils.label := PyStr.lit "id";
                           ExcelUtils.cells := [PyStr.lit "12345"] |} ]) <= 18278
  /\ [ {| ExcelUtils.label := PyStr.lit "id"; ExcelUtils.cells := [PyStr.lit "12345"] |} ]
       !! 0%nat
     = Some {| ExcelUtils.label := PyStr.lit "id"; ExcelUtils.cells := [PyStr.lit "12345"] |}
  /\ exists w,
       snd (ExcelUtils.adjust_column_widths ExcelUtils.Before_2_1 ∅
              [ {| ExcelUtils.label := PyStr.lit "id";
                   ExcelUtils.cells := [PyStr.lit "12345"] |} ]
              None 100) !! 1%nat = Some w
       /\ 2 <= w.
Proof.
  assert (Hnd : NoDup (ExcelUtils.label <$>
                         [ {| ExcelUtils.label := PyStr.lit "id";
                              ExcelUtils.cells := [PyStr.lit "12345"] |} ]))
    by apply NoDup_singleton.
  assert (Hlen : Z.of_nat (length [ {| ExcelUtils.label := PyStr.lit "id";
                                       ExcelUtils.cells := [PyStr.lit "12345"] |} ])
                 <= 18278) by (cbn; lia).
  split; [exact Hnd|]. split; [exact Hlen|]. split; [reflexivity|].
  destruct (adjust_column_widths_lower_bound ExcelUtils.Before_2_1 ∅
              [ {| ExcelUtils.label := PyStr.lit "id";
                   ExcelUtils.cells := [PyStr.lit "12345"] |} ] None 100 0
              {| ExcelUtils.label := PyStr.lit "id"; ExcelUtils.cells := [PyStr.lit "12345"] |}
              Hnd Hlen eq_refl) as (w & Hw & Hlow & _).
  exists w. split; [exact Hw | exact Hlow].
Defined.

Lemma get_hive_connection_rejects_incomplete_secrets_witness :
  HiveConnection.validated MoreSamples.no_secrets = false
  /\ HiveConnection.get_hive_connection MoreSamples.no_secrets
       (fun _ => Return tt) HiveConnection.frame0
     = (Raise ValueError,
        {| HiveConnection.connection := None;
           HiveConnection.events := [HiveConnection.PrintSecretsError FileNotFoundError] |}).
Proof.
  split; [reflexivity|].
  exact (get_hive_connection_rejects_incomplete_secrets MoreSamples.no_secrets
           (fun _ => Return tt) HiveConnection.frame0 eq_refl).
Defined.

Lemma get_hive_connection_releases_session_witness :
  HiveConnection.validated Samples.server_up = true
  /\ HiveConnection.close_count 7%nat
       (HiveConnection.events
          (snd (HiveConnection.get_hive_connection Samples.server_up
                  (fun _ => @Raise unit (LibraryError 2)) HiveConnection.frame0)))
     = 1%nat
  /\ fst (HiveConnection.get_hive_connection Samples.server_up
            (fun _ => @Raise unit (LibraryError 2)) HiveConnection.frame0)
     = Raise (LibraryError 2).
Proof.
  split; [reflexivity|].
  destruct (get_hive_connection_releases_session Samples.server_up
              (fun _ => @Raise unit (LibraryError 2)) 7%nat
              eq_refl (fun _ _ _ _ => eq_refl)) as (Hone & _ & Hres).
  split; [exact Hone | exact Hres].
Defined.

Lemma get_hive_connection_reports_body_error_witness :
  HiveConnection.validated Samples.server_up = true
  /\ exists host port,
       HiveConnection.events
         (snd (HiveConnection.get_hive_connection Samples.server_up
                 (fun _ => @Raise unit (LibraryError 2)) HiveConnection.frame0))
       = [ HiveConnection.PrintConnecting host port;
           HiveConnection.PrintConnectError (LibraryError 2);
           HiveConnection.CallClose 7%nat;
           HiveConnection.PrintClosed ].
Proof.
  split; [reflexivity|].
  exact (get_hive_connection_reports_body_error Samples.server_up
           (fun _ => @Raise unit (LibraryError 2)) 7%nat (LibraryError 2)
           eq_refl (fun _ _ _ _ => eq_refl) eq_refl).
Defined.

Lemma get_table_description_columns_witness :
  Forall (fun r : ExporterQueries.row => (2 <= length r)%nat) MoreSamples.two_rows
  /\ exists cols,
       ExporterQueries.get_table_description (Return MoreSamples.two_rows)
       = ExporterQueries.Columns cols
       /\ length cols = 2%nat.
Proof.
  assert (H : Forall (fun r : ExporterQueries.row => (2 <= length r)%nat)
                MoreSamples.two_rows).
  { repeat constructor. }
  split; [exact H|].
  destruct (get_table_description_columns MoreSamples.two_rows H)
    as (cols & Hcols & Hall & _).
  exists cols. split; [exact Hcols|].
  symmetry. exact (Forall2_length _ _ _ Hall).
Defined.

Lemma get_table_description_short_row_witness :
  ExporterQueries.get_table_description
    (Return (MoreSamples.two_rows ++ [[Some (PyStr.lit "x")]]))
  = ExporterQueries.RowTooShort 2.
Proof.
  apply (get_table_description_short_row
           (MoreSamples.two_rows ++ [[Some (PyStr.lit "x")]]) 2 [Some (PyStr.lit "x")]).
  - reflexivity.
  - cbn. lia.
  - repeat constructor.
Defined.

Lemma export_table_isolates_failures_witness :
  Exporter.export_table MoreSamples.undescribed (Exporter.init None)
  = (Return tt, Exporter.append_failed (PyStr.lit "t") (Exporter.init None)).
Proof.
  apply (export_table_isolates_failures MoreSamples.undescribed (Exporter.init None)
           (LibraryError 3)).
  - intros e0 H. discriminate H.
  - reflexivity.
  - left. reflexivity.
Defined.

Lemma export_table_makedirs_failure_witness :
  Exporter.export_table MoreSamples.no_directory (Exporter.init None)
  = (Return tt, Exporter.append_failed (PyStr.lit "t") (Exporter.init None))
  /\ Exporter.output_dir (Exporter.append_failed (PyStr.lit "t") (Exporter.init None)) = None.
Proof.
  destruct (export_table_makedirs_failure MoreSamples.no_directory (Exporter.init None)
              (LibraryError 7) [] []) as (Hrun & Hdir & _).
  - intros e0 H. discriminate H.
  - reflexivity.
  - reflexivity.
  - reflexivity.
  - reflexivity.
  - reflexivity.
  - split; [exact Hrun | exact Hdir].
Defined.


Lemma export_table_comment_fallback_witness :
  Exporter.export_table MoreSamples.uncommented (Exporter.init None)
  = Exporter.export_table Samples.table_t (Exporter.init None).
Proof.
  exact (export_table_comment_fallback MoreSamples.uncommented (Exporter.init None)
           (LibraryError 4) eq_refl eq_refl).
Defined.

Lemma export_block_accounting_witness :
  (Exporter.exported_files
     (snd (Exporter.export_block
             (Return [Samples.table_t; MoreSamples.undescribed]) (Exporter.init None)))
   + length (Exporter.failed_tables
               (snd (Exporter.export_block
                       (Return [Samples.table_t; MoreSamples.undescribed])
                       (Exporter.init None))))
   = 2)%nat.
Proof.
  destruct (Exporter.export_block (Return [Samples.table_t; MoreSamples.undescribed])
              (Exporter.init None)) as [r s'] eqn:Hrun.
  assert (Hr : r = Return tt).
  { vm_compute in Hrun. by injection Hrun as <- _. }
  subst r.
  destruct (export_block_accounting _ _ _ Hrun) as (Hcount & _).
  exact Hcount.
Defined.

Lemma export_without_tables_witness :
  HiveConnection.validated Samples.server_up = true
  /\ fst (Exporter.export Samples.server_up (Return []) (Exporter.init None))
     = Raise ValueError.
Proof.
  split; [reflexivity|].
  exact (proj1 (proj2 (export_without_tables Samples.server_up (Exporter.init None) 7%nat
                         eq_refl (fun _ _ _ _ => eq_refl)))).
Defined.

Lemma test_exporter_swallows_open_failure_witness :
  HiveConnection.validated Samples.server_down = true
  /\ fst (ExporterQueries.test_exporter Samples.server_down (Return [Samples.table_t])
            (Exporter.init None))
     = Return None.
Proof.
  split; [reflexivity|].
  exact (test_exporter_swallows_open_failure Samples.server_down (Return [Samples.table_t])
           (Exporter.init None) (LibraryError 1) eq_refl (fun _ _ _ _ => eq_refl)).
Defined.

Lemma merge_file_skips_unreadable_witness :
  MergeExcel.merge_file MoreSamples.unreadable
    (MoreSamples.deleting None (MergeExcel.PList [MergeExcel.PInt 1])) [1]
    (PyStr.lit "s_.xlsx") (PyStr.lit "s_a.xlsx") Samples.merge_start
  = (Return tt,
     MergeExcel.advance Samples.merge_start ∅ [MergeExcel.ReadExcel (PyStr.lit "s_a.xlsx")]).
Proof.
  exact (merge_file_skips_unreadable MoreSamples.unreadable
           (MoreSamples.deleting None (MergeExcel.PList [MergeExcel.PInt 1])) [1]
           (PyStr.lit "s_.xlsx") (PyStr.lit "s_a.xlsx") Samples.merge_start
           (LibraryError 5) eq_refl eq_refl).
Defined.

Lemma merge_excel_sheets_nothing_selected_witness :
  MergeExcel.merge_excel_sheets MoreSamples.unreadable
    (MoreSamples.deleting (Some (PyStr.lit "q")) (MergeExcel.PList [MergeExcel.PInt 1]))
    Samples.merge_start
  = (Return tt,
     MergeExcel.advance Samples.merge_start ∅ [MergeExcel.Makedirs; MergeExcel.Listdir]).
Proof.
  apply (merge_excel_sheets_nothing_selected MoreSamples.unreadable
           (MoreSamples.deleting (Some (PyStr.lit "q")) (MergeExcel.PList [MergeExcel.PInt 1]))
           Samples.merge_start [1] [PyStr.lit "s_a.xlsx"; PyStr.lit "notes.txt"]);
    try reflexivity.
  repeat constructor.
Defined.

Lemma merge_file_readable_witness :
  exists evs,
    MergeExcel.effects
      (snd (MergeExcel.merge_file MoreSamples.unwritable
              (MoreSamples.deleting None (MergeExcel.PList [MergeExcel.PInt 1; MergeExcel.PInt 3]))
              [1; 3] (PyStr.lit "s_.xlsx") (PyStr.lit "s_a.xlsx") Samples.merge_start))
    = MergeExcel.ReadExcel (PyStr.lit "s_a.xlsx") :: evs
        ++ [MergeExcel.Remove (PyStr.lit "s_a.xlsx")]
    /\ length (MergeExcel.sheet_names_of evs) = 1%nat.
Proof.
  destruct (merge_file_readable MoreSamples.unwritable
              (MoreSamples.deleting None (MergeExcel.PList [MergeExcel.PInt 1; MergeExcel.PInt 3]))
              [1; 3] (PyStr.lit "s_.xlsx") (PyStr.lit "s_a.xlsx")
              [(PyStr.lit "one", []); (PyStr.lit "two", [])] Samples.merge_start)
    as (evs & Heff & _ & Hlen).
  - reflexivity.
  - repeat constructor; lia.
  - intros n e [= <-]. reflexivity.
  - exists evs. split; [exact Heff | exact Hlen].
Defined.

Lemma group_key_shape_witness :
  PyStr.startswith (PyStr.lit "hr_q1.xlsx") (PyStr.lit "hr_") = true.
Proof.
  destruct (group_key_shape
              [PyStr.lit "sales_jan.xlsx"; PyStr.lit "hr_q1.xlsx"]
              (PyStr.lit "hr_") [PyStr.lit "hr_q1.xlsx"] (PyStr.lit "hr_q1.xlsx"))
    as (_ & [[Hk _] | (run & _ & _ & _ & Hstart)]).
  - vm_compute. right. left.
  - left.
  - discriminate Hk.
  - exact Hstart.
Defined.

End Instances.
